(** * streamlit_app.py: command construction and supervision of one ffmpeg child

    A shallow embedding of [src/streamlit_app.py].  Python [str] values are
    [string]s, argument vectors are [list string], the dictionary
    [resolution_map] is a [gmap string string].  The operating system
    (resolver, [subprocess], pipes, signals) is an interface the program
    calls; every call is logged with its outcome, so that the order of the
    calls a function makes can be stated as a property of the log. *)

From Stdlib Require Import ZArith Ascii DecimalString.
From stdpp Require Import base option list strings gmap.

Local Open Scope Z_scope.

(** ** Python string primitives used by the program *)

Module Py.

(** [s[n:]] *)
Fixpoint drop (n : nat) (s : string) : string :=
  match n, s with
  | O, _ => s
  | S _, "" => ""
  | S k, String _ s' => drop k s'
  end.

(** [s.startswith(p)] *)
Fixpoint startswith (s p : string) : bool :=
  match p, s with
  | "", _ => true
  | String _ _, "" => false
  | String a p', String b s' => Ascii.eqb a b && startswith s' p'
  end.

(** The character [c] occurs in [s]. *)
Fixpoint occurs (c : ascii) (s : string) : Prop :=
  match s with
  | "" => False
  | String d s' => c = d \/ occurs c s'
  end.

(** [sub in s] *)
Fixpoint contains (s sub : string) : bool :=
  startswith s sub ||
  match s with
  | "" => false
  | String _ s' => contains s' sub
  end.

(** [sep.join(l)] *)
Fixpoint join (sep : string) (l : list string) : string :=
  match l with
  | [] => ""
  | [x] => x
  | x :: l' => x +:+ sep +:+ join sep l'
  end.

(** [s.split(sep)] for a non-empty [sep]: the scan is left to right and
    after a match it resumes behind the separator, which the counter
    [skip] does (the characters of a matched separator still to pass). *)
Fixpoint split_go (sep : string) (skip : nat) (s : string) : list string :=
  match s with
  | "" => [""]
  | String c s' =>
      match skip with
      | S k => split_go sep k s'
      | O =>
          if startswith s sep then "" :: split_go sep (String.length sep - 1) s'
          else match split_go sep 0 s' with
               | piece :: pieces => String c piece :: pieces
               | [] => [String c ""]
               end
      end
  end.

Definition split (s sep : string) : list string := split_go sep 0 s.

(** [s.split(sep, 1)] for a non-empty [sep]: cut at the first occurrence. *)
Fixpoint split1 (s sep : string) : list string :=
  if startswith s sep then [""; drop (String.length sep) s]
  else match s with
       | "" => [""]
       | String c s' =>
           match split1 s' sep with
           | [before; after] => [String c before; after]
           | _ => [s]
           end
       end.

(** [s.replace("", new)]: [new] before every character and at the end. *)
Fixpoint interleave (new s : string) : string :=
  match s with
  | "" => new
  | String c s' => new +:+ String c (interleave new s')
  end.

(** [s.replace(old, new)] for a non-empty [old]: every occurrence found by
    the left-to-right scan that resumes behind each match. *)
Fixpoint replace_go (old new : string) (skip : nat) (s : string) : string :=
  match s with
  | "" => ""
  | String c s' =>
      match skip with
      | S k => replace_go old new k s'
      | O =>
          if startswith s old
          then new +:+ replace_go old new (String.length old - 1) s'
          else String c (replace_go old new 0 s')
      end
  end.

(** [s.replace(old, new)] *)
Definition replace (s old new : string) : string :=
  match old with
  | "" => interleave new s
  | String _ _ => replace_go old new 0 s
  end.

(** [str.isspace] on one character.  A [string] is a sequence of
    characters with code points below 256, and these are the white space
    among them: tab to carriage return, the four separators 28 to 31, the
    space, NEL (133) and the no-break space (160). *)
Definition isspace (c : ascii) : bool :=
  let n := N.to_nat (N_of_ascii c) in
  ((9 <=? n) && (n <=? 13) || (28 <=? n) && (n <=? 32)
   || (n =? 133) || (n =? 160))%nat.

Fixpoint lstrip (s : string) : string :=
  match s with
  | "" => ""
  | String c s' => if isspace c then lstrip s' else s
  end.

Fixpoint rstrip (s : string) : string :=
  match s with
  | "" => ""
  | String c s' =>
      match rstrip s' with
      | "" => if isspace c then "" else String c ""
      | r => String c r
      end
  end.

(** [s.strip()] *)
Definition strip (s : string) : string := rstrip (lstrip s).

(** What [strip] has to return, said without the scan: [t] is [line]
    without a first part and a last part that are white space only, and [t]
    neither begins nor ends with white space. *)
Fixpoint all_space (s : string) : bool :=
  match s with
  | "" => true
  | String c s' => isspace c && all_space s'
  end.

Definition begins_with_space (s : string) : bool :=
  match s with
  | "" => false
  | String c _ => isspace c
  end.

Fixpoint ends_with_space (s : string) : bool :=
  match s with
  | "" => false
  | String c s' =>
      match s' with
      | "" => isspace c
      | String _ _ => ends_with_space s'
      end
  end.

Definition stripped_of (line t : string) : Prop :=
  exists before after,
    line = before +:+ t +:+ after /\
    all_space before = true /\ all_space after = true /\
    begins_with_space t = false /\ ends_with_space t = false.

(** The line feed, Python's ["\n"]. *)
Definition nl : string := String "010"%char "".

(** Truth value of a [str]: non-empty. *)
Definition truthy (s : string) : bool :=
  match s with "" => false | String _ _ => true end.

(** [str(n)] for an [int] *)
Definition str_int (n : Z) : string := NilZero.string_of_int (Z.to_int n).

End Py.


(** ** Exceptions, results and the world *)

(** The exception classes the program distinguishes; all of them derive from
    [Exception]. *)
Inductive exn_class :=
  | GaiError          (* socket.gaierror *)
  | TimeoutExpired    (* subprocess.TimeoutExpired *)
  | ValueError
  | IndexError
  | TypeError
  | OtherException.   (* any other subclass of Exception *)

Global Instance exn_class_eq_dec : EqDecision exn_class.
Proof. solve_decision. Defined.

(** An exception object: its class and [str(e)]. *)
Record exn := Exn { exn_cls : exn_class; exn_str : string }.

Inductive result (A : Type) :=
  | Ok (a : A)
  | Err (e : exn).
Global Arguments Ok {A} a.
Global Arguments Err {A} e.

(** A [subprocess.Popen] object, named by the order of its creation. *)
Definition handle := nat.

Inductive signal := SIGINT | SIGTERM | SIGKILL.

(** What the program asks of its environment.  Each call may return or raise,
    and may change the state of the environment. *)
Class OS (S : Type) := {
  (* socket.gethostbyname(host) *)
  gethostbyname : string -> S -> result string * S;
  (* subprocess.Popen(argv, stdout=PIPE, stderr=PIPE, text=True) *)
  Popen : list string -> S -> result handle * S;
  (* p.poll(): None while the child runs, its return code afterwards *)
  poll : handle -> S -> result (option Z) * S;
  (* p.stderr.readline(): the next line, the empty string at end of file *)
  stderr_readline : handle -> S -> result string * S;
  (* p.send_signal(sig) *)
  send_signal : handle -> signal -> S -> result () * S;
  (* p.wait(timeout=t) *)
  wait : handle -> option Z -> S -> result Z * S;
  (* p.kill() *)
  kill : handle -> S -> result () * S;
  (* subprocess.run(argv, stdout=PIPE, text=True).stdout *)
  run_stdout : list string -> S -> result string * S;
  (* subprocess.TimeoutExpired comes from calls given a timeout only *)
  send_signal_no_timeout : forall p sig s e,
    (send_signal p sig s).1 = Err e -> exn_cls e <> TimeoutExpired;
}.

(** One entry of the log: a call to the environment and its outcome. *)
Inductive event :=
  | EGethostbyname (host : string) (r : result string)
  | EPopen (argv : list string) (r : result handle)
  | EPoll (p : handle) (r : result (option Z))
  | EReadline (p : handle) (r : result string)
  | ESendSignal (p : handle) (sig : signal) (r : result ())
  | EWait (p : handle) (timeout : option Z) (r : result Z)
  | EKill (p : handle) (r : result ())
  | ERun (argv : list string) (r : result string).

(** The module's state: the global [ffmpeg_process] ([None] or a Popen
    object), the environment, and the log of the calls made so far. *)
Record world (S : Type) := World {
  ffmpeg_process : option handle;
  os : S;
  log : list event;
}.
Global Arguments World {S} _ _ _.
Global Arguments ffmpeg_process {S} _.
Global Arguments os {S} _.
Global Arguments log {S} _.

(** A computation returns or raises, in a new world.  [None] stands for a
    call that has not returned within the steps it was given: only the read
    loop of [start_ffmpeg] is unbounded, and the world then shows how far
    the call has got. *)
Definition M (S A : Type) : Type := world S -> option (result A) * world S.

Definition ret {S A} (a : A) : M S A := fun w => (Some (Ok a), w).
Definition raise {S A} (e : exn) : M S A := fun w => (Some (Err e), w).
Definition blocked {S A} : M S A := fun w => (None, w).

Definition bind {S A B} (m : M S A) (k : A -> M S B) : M S B :=
  fun w =>
    match m w with
    | (Some (Ok a), w') => k a w'
    | (Some (Err e), w') => (Some (Err e), w')
    | (None, w') => (None, w')
    end.

Notation "x <- m ;; k" := (bind m (fun x => k))
  (at level 100, m at next level, right associativity).
Notation "m ;;; k" := (bind m (fun _ => k))
  (at level 100, right associativity).

Definition lift {S A} (r : result A) : M S A := fun w => (Some r, w).

(** [try: body / except ...: handler]: [handler e] is [None] when no
    [except] clause matches [e]. *)
Definition try_except {S A} (body : M S A) (handler : exn -> option (M S A)) : M S A :=
  fun w =>
    match body w with
    | (Some (Err e), w') =>
        match handler e with
        | Some h => h w'
        | None => (Some (Err e), w')
        end
    | r => r
    end.

(** [try: body / finally: fin]: [fin] runs when [body] has returned or
    raised; what [body] returned or raised stands unless [fin] raises. *)
Definition try_finally {S A} (body : M S A) (fin : M S ()) : M S A :=
  fun w =>
    match body w with
    | (Some r, w') =>
        match fin w' with
        | (Some (Ok _), w'') => (Some r, w'')
        | (Some (Err e), w'') => (Some (Err e), w'')
        | (None, w'') => (None, w'')
        end
    | (None, w') => (None, w')
    end.

Definition get_ffmpeg_process {S} : M S (option handle) :=
  fun w => (Some (Ok (ffmpeg_process w)), w).

Definition set_ffmpeg_process {S} (v : option handle) : M S () :=
  fun w => (Some (Ok ()), World v (os w) (log w)).

(** A call to the environment: perform it, log it with its outcome. *)
Definition os_call {S A} (f : S -> result A * S) (ev : result A -> event) : M S A :=
  fun w =>
    let '(r, s') := f (os w) in
    (Some r, World (ffmpeg_process w) s' (log w ++ [ev r])).

(** [a, b = l]: unpacking a list into exactly two names. *)
Definition unpack2 (l : list string) : result (string * string) :=
  match l with
  | [a; b] => Ok (a, b)
  | [] => Err (Exn ValueError "not enough values to unpack (expected 2, got 0)")
  | [_] => Err (Exn ValueError "not enough values to unpack (expected 2, got 1)")
  | _ => Err (Exn ValueError "too many values to unpack (expected 2)")
  end.

(** [l[0]] *)
Definition index0 (l : list string) : result string :=
  match l with
  | x :: _ => Ok x
  | [] => Err (Exn IndexError "list index out of range")
  end.

(** ** The program *)

(** [resolution_map], the dictionary of [build_ffmpeg_command]. *)
Definition resolution_map : gmap string string :=
  list_to_map [
    ("720p", "1280x720");
    ("480p", "854x480");
    ("360p", "640x360");
    ("180p", "320x180");
    ("1080p", "1920x1080");
    ("4K", "3840x2160")
  ].

(** [build_ffmpeg_command]: the argument vector and its rendering.  [fps] is
    an [int] (false when zero); the only statement that can raise is the
    unpacking of [audio_option.split('|')]. *)
Definition build_ffmpeg_command
    (video_url logo_url overlay_settings : string) (enable_logo : bool)
    (resolution rtmp_url : string) (fps : Z) (audio_option : string)
  : result (list string * string) :=
  let res_str := default "1280x720" (resolution_map !! resolution) in
  let command := ["ffmpeg"; "-re"; "-y"; "-i"; video_url] in
  let command :=
    if enable_logo then
      let filter_complex := "[1]scale=iw*0.6:-1[wm];[0][wm]" +:+ overlay_settings in
      command ++ ["-i"; logo_url; "-filter_complex"; filter_complex]
    else command in
  let command := command ++ ["-s"; res_str] in
  let command :=
    if bool_decide (fps ≠ 0) then command ++ ["-r"; Py.str_int fps] else command in
  let audio :=
    if bool_decide (audio_option = "Copy Audio from File") then Ok ["-c:a"; "copy"]
    else
      match unpack2 (Py.split audio_option "|") with
      | Ok (audio_channels, audio_bitrate) =>
          Ok ["-ac"; audio_channels; "-b:a"; audio_bitrate]
      | Err e => Err e
      end in
  match audio with
  | Err e => Err e
  | Ok audio_args =>
      let command := command ++ audio_args in
      let command := command ++ [
        "-ar"; "44100";
        "-pix_fmt"; "yuv420p";
        "-tune"; "zerolatency";
        "-maxrate"; "2000k";
        "-preset"; "veryfast";
        "-vcodec"; "libx264";
        "-ab"; "128k";
        "-vb"; "660k";
        "-f"; "flv";
        rtmp_url
      ] in
      Ok (command, Py.join " " command)
  end.

Definition already_running_msg : string :=
  "A stream is already running. Please stop the current stream before starting a new one.".

Definition forced_msg : string :=
  "Stopping the stream took too long. Forcing termination.".

(** Truth value of [error], which is [None] or a [str]. *)
Definition truthy_opt (o : option string) : bool :=
  match o with
  | None => false
  | Some s => Py.truthy s
  end.

Section Program.

Context {S : Type} `{OS S}.

(** [resolve_hostname]: the pair [(resolved_url, error)]; only
    [socket.gaierror] is caught. *)
Definition resolve_hostname (url : string) : M S (option string * option string) :=
  if Py.startswith url "rtmp://" || Py.startswith url "rtmps://" then
    parts <- lift (unpack2 (Py.split1 url "://")) ;;
    let rest := parts.2 in
    hostname <- lift (index0 (Py.split rest "/")) ;;
    try_except
      (ip <- os_call (gethostbyname hostname) (EGethostbyname hostname) ;;
       let resolved_url := Py.replace url hostname ip in
       ret (Some resolved_url, None))
      (fun e =>
         if decide (exn_cls e = GaiError)
         then Some (ret (None, Some ("Failed to resolve hostname: " +:+ hostname)))
         else None)
  else ret (Some url, None).

(** The loop [for line in iter(p.stderr.readline, ''): ...]: [iter] stops at
    the first empty line read, the body appends the stripped line.  [fuel]
    bounds the number of reads. *)
Fixpoint read_stderr (fuel : nat) (p : handle) (logs : list string) : M S (list string) :=
  match fuel with
  | O => blocked
  | Datatypes.S fuel' =>
      line <- os_call (stderr_readline p) (EReadline p) ;;
      if bool_decide (line = "") then ret logs
      else
        let logs := if Py.truthy line then logs ++ [Py.strip line] else logs in
        if negb (Py.truthy line) then ret logs
        else read_stderr fuel' p logs
  end.

(** The [try] statement of [start_ffmpeg], with [command] and
    [command_str] built. *)
Definition start_ffmpeg_try (fuel : nat) (command : list string) (command_str : string)
  : M S (string * string * string) :=
  try_except
    (old <- get_ffmpeg_process ;;
     running <-
       match old with
       | None => ret false
       | Some p =>
           rc <- os_call (poll p) (EPoll p) ;;
           ret (bool_decide (rc = None))
       end ;;
     if running : bool then ret (already_running_msg, "", command_str)
     else
       (* from here on the global holds [p] *)
       p <- os_call (Popen command) (EPopen command) ;;
       set_ffmpeg_process (Some p) ;;;
       let output := "Command executed successfully." in
       logs <- read_stderr fuel p [] ;;
       rc <- os_call (poll p) (EPoll p) ;;
       let output :=
         if bool_decide (rc = None)
         then output +:+ Py.nl +:+ "Streaming in progress..."
         else output in
       ret (output, Py.join Py.nl logs, command_str))
    (fun e => Some (ret ("An error occurred: " +:+ exn_str e, "", command_str))).

(** [start_ffmpeg]: the triple [(output, logs, command_str)]. *)
Definition start_ffmpeg (fuel : nat)
    (video_url logo_url overlay_settings : string) (enable_logo : bool)
    (resolution rtmp_url : string) (fps : Z) (audio_option : string)
  : M S (string * string * string) :=
  resolved <- resolve_hostname rtmp_url ;;
  let '(resolved_rtmp_url, error) := resolved in
  if truthy_opt error then ret (default "" error, "", "")
  else
    built <-
      match resolved_rtmp_url with
      | Some u =>
          lift (build_ffmpeg_command video_url logo_url overlay_settings
                  enable_logo resolution u fps audio_option)
      | None =>
          (* [' '.join] meets [None] in the list *)
          raise (Exn TypeError "sequence item: expected str instance, NoneType found")
      end ;;
    let '(command, command_str) := built in
    start_ffmpeg_try fuel command command_str.

(** [stop_ffmpeg] *)
Definition stop_ffmpeg : M S string :=
  cur <- get_ffmpeg_process ;;
  match cur with
  | Some p =>
      try_finally
        (try_except
           (os_call (send_signal p SIGINT) (ESendSignal p SIGINT) ;;;
            os_call (wait p (Some 10)) (EWait p (Some 10)) ;;;
            ret "Stream stopped.")
           (fun e =>
              if decide (exn_cls e = TimeoutExpired) then
                Some (os_call (kill p) (EKill p) ;;;
                      os_call (wait p None) (EWait p None) ;;;
                      ret forced_msg)
              else
                Some (ret ("An error occurred while stopping the stream: " +:+ exn_str e))))
        (set_ffmpeg_process None)
  | None => ret "No stream is running."
  end.

(** [check_ffmpeg_protocols] *)
Definition check_ffmpeg_protocols : M S string :=
  try_except
    (stdout <- os_call (run_stdout ["ffmpeg"; "-protocols"]) (ERun ["ffmpeg"; "-protocols"]) ;;
     if Py.contains stdout "rtmps"
     then ret "RTMPS is supported by this FFmpeg build."
     else ret "RTMPS is not supported by this FFmpeg build.")
    (fun e => Some (ret ("An error occurred while checking FFmpeg protocols: " +:+ exn_str e))).

End Program.

(** ** A simulated environment

    A small operating system to run the program on: a hosts table, and
    children that write a fixed script to their standard error.  The flags
    say whether the binary can be started, whether a child exits when it has
    closed its standard error, whether it exits on SIGINT within the timeout,
    and whether the platform can send SIGINT at all (on Windows
    [send_signal(SIGINT)] raises [ValueError]). *)

Module Sim.

Record proc := Proc {
  argv : list string;
  pending : list string;      (* lines of standard error not yet read *)
  returncode : option Z;      (* None while the child runs *)
  interrupted : bool;         (* SIGINT was delivered *)
}.

Record t := Make {
  hosts : list (string * string);
  installed : bool;
  script : list string;
  lingers : bool;
  heeds_sigint : bool;
  sigint_supported : bool;
  protocols : string;
  procs : list proc;
}.

Definition with_procs (s : t) (ps : list proc) : t :=
  Make (hosts s) (installed s) (script s) (lingers s) (heeds_sigint s)
       (sigint_supported s) (protocols s) ps.

Definition bad_handle {A} : result A := Err (Exn OtherException "no such child").

Fixpoint lookup_host (h : string) (tbl : list (string * string)) : option string :=
  match tbl with
  | [] => None
  | (n, ip) :: tbl' => if bool_decide (n = h) then Some ip else lookup_host h tbl'
  end.

Definition gethostbyname (h : string) (s : t) : result string * t :=
  match lookup_host h (hosts s) with
  | Some ip => (Ok ip, s)
  | None => (Err (Exn GaiError "[Errno -2] Name or service not known"), s)
  end.

Definition Popen (cmd : list string) (s : t) : result handle * t :=
  if installed s
  then (Ok (length (procs s)),
        with_procs s (procs s ++ [Proc cmd (script s) None false]))
  else (Err (Exn OtherException "[Errno 2] No such file or directory: 'ffmpeg'"), s).

Definition poll (p : handle) (s : t) : result (option Z) * t :=
  match procs s !! p with
  | Some pr => (Ok (returncode pr), s)
  | None => (bad_handle, s)
  end.

Definition stderr_readline (p : handle) (s : t) : result string * t :=
  match procs s !! p with
  | Some pr =>
      match pending pr with
      | line :: rest =>
          (Ok line,
           with_procs s (<[p := Proc (argv pr) rest (returncode pr) (interrupted pr)]> (procs s)))
      | [] =>
          let rc := if lingers s then returncode pr else Some (default 0 (returncode pr)) in
          (Ok "", with_procs s (<[p := Proc (argv pr) [] rc (interrupted pr)]> (procs s)))
      end
  | None => (bad_handle, s)
  end.

Definition send_signal (p : handle) (sig : signal) (s : t) : result () * t :=
  match procs s !! p with
  | Some pr =>
      match sig with
      | SIGINT =>
          if sigint_supported s
          then (Ok (),
                with_procs s (<[p := Proc (argv pr) (pending pr) (returncode pr) true]> (procs s)))
          else (Err (Exn ValueError "Unsupported signal: 2"), s)
      | SIGTERM | SIGKILL =>
          (Ok (),
           with_procs s (<[p := Proc (argv pr) (pending pr)
                                 (Some (default (-9) (returncode pr))) (interrupted pr)]> (procs s)))
      end
  | None => (bad_handle, s)
  end.

Definition wait (p : handle) (timeout : option Z) (s : t) : result Z * t :=
  match procs s !! p with
  | Some pr =>
      match returncode pr with
      | Some rc => (Ok rc, s)
      | None =>
          if interrupted pr && heeds_sigint s
          then (Ok 255,
                with_procs s (<[p := Proc (argv pr) (pending pr) (Some 255) true]> (procs s)))
          else
            match timeout with
            | Some _ => (Err (Exn TimeoutExpired "Command timed out after 10 seconds"), s)
            | None =>
                (* without a timeout the call returns when the child ends *)
                (Ok 0,
                 with_procs s (<[p := Proc (argv pr) (pending pr) (Some 0) (interrupted pr)]> (procs s)))
            end
      end
  | None => (bad_handle, s)
  end.

Definition kill (p : handle) (s : t) : result () * t :=
  match procs s !! p with
  | Some pr =>
      (Ok (),
       with_procs s (<[p := Proc (argv pr) (pending pr)
                             (Some (default (-9) (returncode pr))) (interrupted pr)]> (procs s)))
  | None => (bad_handle, s)
  end.

Definition run_stdout (cmd : list string) (s : t) : result string * t :=
  if installed s then (Ok (protocols s), s)
  else (Err (Exn OtherException "[Errno 2] No such file or directory: 'ffmpeg'"), s).

(** The children that are running. *)
Definition running (s : t) : list handle :=
  filter (fun p => bool_decide (returncode <$> procs s !! p = Some None))
         (seq 0 (length (procs s))).

End Sim.

Global Program Instance sim_os : OS Sim.t := {|
  gethostbyname := Sim.gethostbyname;
  Popen := Sim.Popen;
  poll := Sim.poll;
  stderr_readline := Sim.stderr_readline;
  send_signal := Sim.send_signal;
  wait := Sim.wait;
  kill := Sim.kill;
  run_stdout := Sim.run_stdout;
|}.
Next Obligation.
  intros p sig s e. unfold Sim.send_signal, Sim.bad_handle.
  destruct (Sim.procs s !! p); [destruct sig; [destruct (Sim.sigint_supported s)|..]|];
    simpl; intros [= <-]; discriminate.
Qed.

(** ** Runs

    What a call does is told by the entries it adds to the log and by what
    it returns.  The relations below list the runs of each function: one
    constructor for each path through its body. *)

(** The log entries of reading the lines [ls] from the standard error of [p]. *)
Definition reads (p : handle) (ls : list string) : list event :=
  (fun l => EReadline p (Ok l)) <$> ls.

(** The parts of a URL that [resolve_hostname] tells apart: the scheme, the
    text up to the first slash behind [://] (the hostname), and the rest. *)
Definition url_parts (url scheme host tail : string) : Prop :=
  (scheme = "rtmp" \/ scheme = "rtmps") /\
  url = scheme +:+ "://" +:+ host +:+ tail /\
  ~ Py.occurs "/" host /\
  (tail = "" \/ exists t, tail = "/" +:+ t).

Inductive resolve_run (url : string) :
    list event -> result (option string * option string) -> Prop :=
  | resolve_not_rtmp :
      Py.startswith url "rtmp://" || Py.startswith url "rtmps://" = false ->
      resolve_run url [] (Ok (Some url, None))
  | resolve_found scheme host tail ip :
      url_parts url scheme host tail ->
      resolve_run url [EGethostbyname host (Ok ip)]
                  (Ok (Some (Py.replace url host ip), None))
  | resolve_gaierror scheme host tail e :
      url_parts url scheme host tail ->
      exn_cls e = GaiError ->
      resolve_run url [EGethostbyname host (Err e)]
                  (Ok (None, Some ("Failed to resolve hostname: " +:+ host)))
  | resolve_raises scheme host tail e :
      url_parts url scheme host tail ->
      exn_cls e <> GaiError ->
      resolve_run url [EGethostbyname host (Err e)] (Err e).

(** The runs of [stop_ffmpeg] on a set handle [p]. *)
Inductive stop_run (p : handle) : list event -> result string -> Prop :=
  | stop_graceful rc :
      stop_run p [ESendSignal p SIGINT (Ok ()); EWait p (Some 10) (Ok rc)]
               (Ok "Stream stopped.")
  | stop_forced e rc :
      exn_cls e = TimeoutExpired ->
      stop_run p [ESendSignal p SIGINT (Ok ()); EWait p (Some 10) (Err e);
                  EKill p (Ok ()); EWait p None (Ok rc)]
               (Ok forced_msg)
  | stop_forced_kill_raises e e' :
      exn_cls e = TimeoutExpired ->
      stop_run p [ESendSignal p SIGINT (Ok ()); EWait p (Some 10) (Err e);
                  EKill p (Err e')]
               (Err e')
  | stop_forced_wait_raises e e' :
      exn_cls e = TimeoutExpired ->
      stop_run p [ESendSignal p SIGINT (Ok ()); EWait p (Some 10) (Err e);
                  EKill p (Ok ()); EWait p None (Err e')]
               (Err e')
  | stop_signal_raises e :
      exn_cls e <> TimeoutExpired ->
      stop_run p [ESendSignal p SIGINT (Err e)]
               (Ok ("An error occurred while stopping the stream: " +:+ exn_str e))
  | stop_wait_raises e :
      exn_cls e <> TimeoutExpired ->
      stop_run p [ESendSignal p SIGINT (Ok ()); EWait p (Some 10) (Err e)]
               (Ok ("An error occurred while stopping the stream: " +:+ exn_str e)).

(** The guard of [start_ffmpeg] lets the call go on to [Popen]: no handle,
    or a handle whose [poll()] gave a return code. *)
Inductive guard_pass : option handle -> list event -> Prop :=
  | guard_unset : guard_pass None []
  | guard_exited q rc : guard_pass (Some q) [EPoll q (Ok (Some rc))].

(** The output of a launch: [rc] is what the last [poll()] returned. *)
Definition launch_output (rc : option Z) : string :=
  if bool_decide (rc = None)
  then "Command executed successfully." +:+ Py.nl +:+ "Streaming in progress..."
  else "Command executed successfully.".

Definition error_output (e : exn) : string := "An error occurred: " +:+ exn_str e.

Section StartRuns.

Variables (fuel : nat) (video_url logo_url overlay_settings : string)
          (enable_logo : bool) (resolution rtmp_url : string) (fps : Z)
          (audio_option : string).

(** The [try] block of [start_ffmpeg], with the command built. *)
Inductive launch_run (old : option handle) :
    list string -> string ->
    list event -> option (result (string * string * string)) -> option handle -> Prop :=
  | launch_poll_raises command command_str q e :
      old = Some q ->
      launch_run old command command_str [EPoll q (Err e)]
                 (Some (Ok (error_output e, "", command_str))) old
  | launch_already_running command command_str q :
      old = Some q ->
      launch_run old command command_str [EPoll q (Ok None)]
                 (Some (Ok (already_running_msg, "", command_str))) old
  | launch_popen_raises command command_str g e :
      guard_pass old g ->
      launch_run old command command_str (g ++ [EPopen command (Err e)])
                 (Some (Ok (error_output e, "", command_str))) old
  | launch_reading command command_str g p ls :
      guard_pass old g ->
      Forall (fun l => l <> "") ls -> length ls = fuel ->
      launch_run old command command_str
                 (g ++ EPopen command (Ok p) :: reads p ls)
                 None (Some p)
  | launch_read_raises command command_str g p ls e :
      guard_pass old g ->
      Forall (fun l => l <> "") ls -> (length ls < fuel)%nat ->
      launch_run old command command_str
                 (g ++ EPopen command (Ok p) :: reads p ls ++ [EReadline p (Err e)])
                 (Some (Ok (error_output e, "", command_str))) (Some p)
  | launch_poll_after_raises command command_str g p ls e :
      guard_pass old g ->
      Forall (fun l => l <> "") ls -> (length ls < fuel)%nat ->
      launch_run old command command_str
                 (g ++ EPopen command (Ok p) :: reads p ls
                    ++ [EReadline p (Ok ""); EPoll p (Err e)])
                 (Some (Ok (error_output e, "", command_str))) (Some p)
  | launch_done command command_str g p ls rc :
      guard_pass old g ->
      Forall (fun l => l <> "") ls -> (length ls < fuel)%nat ->
      launch_run old command command_str
                 (g ++ EPopen command (Ok p) :: reads p ls
                    ++ [EReadline p (Ok ""); EPoll p (Ok rc)])
                 (Some (Ok (launch_output rc, Py.join Py.nl (Py.strip <$> ls), command_str)))
                 (Some p).

(** The runs of [start_ffmpeg] from the handle [old]: the log entries, what
    is returned ([None]: the call is still reading), and the handle left. *)
Inductive start_run (old : option handle) :
    list event -> option (result (string * string * string)) -> option handle -> Prop :=
  | start_resolve_raises evs e :
      resolve_run rtmp_url evs (Err e) ->
      start_run old evs (Some (Err e)) old
  | start_resolve_fails evs msg :
      resolve_run rtmp_url evs (Ok (None, Some msg)) ->
      start_run old evs (Some (Ok (msg, "", ""))) old
  | start_build_raises evs u e :
      resolve_run rtmp_url evs (Ok (Some u, None)) ->
      build_ffmpeg_command video_url logo_url overlay_settings enable_logo
        resolution u fps audio_option = Err e ->
      start_run old evs (Some (Err e)) old
  | start_built evs u command command_str evs' r h :
      resolve_run rtmp_url evs (Ok (Some u, None)) ->
      build_ffmpeg_command video_url logo_url overlay_settings enable_logo
        resolution u fps audio_option = Ok (command, command_str) ->
      launch_run old command command_str evs' r h ->
      start_run old (evs ++ evs') r h.

End StartRuns.

(** ** Example environments *)

Module Ex.

Definition script : list string :=
  ["ffmpeg version 6.0" +:+ Py.nl; Py.nl; "  frame=   25 fps= 25 " +:+ Py.nl; "muxing done"].

(** A host with ffmpeg installed whose children keep running after they
    close their standard error and exit on SIGINT. *)
Definition posix : Sim.t :=
  Sim.Make [("stream.example.com", "203.0.113.7")] true script true true true
           "Input: rtmp rtmps Output: rtmp rtmps" [].

(** The same host with children that ignore SIGINT. *)
Definition stubborn : Sim.t :=
  Sim.Make [("stream.example.com", "203.0.113.7")] true script true false true
           "Input: rtmp rtmps Output: rtmp rtmps" [].

(** The same host on a platform that cannot send SIGINT. *)
Definition windows : Sim.t :=
  Sim.Make [("stream.example.com", "203.0.113.7")] true script true true false
           "Input: rtmp rtmps Output: rtmp rtmps" [].

(** The form's default values, with a destination of our own. *)
Definition start (fuel : nat) (rtmp_url : string) : M Sim.t (string * string * string) :=
  start_ffmpeg fuel
    "https://kbsworld-ott.akamaized.net/hls/live/2002341/kbsworld/master.m3u8"
    "https://i.ibb.co/YcPZxsn/logo.png" "overlay=W-w-45:37" true "720p"
    rtmp_url 30 "Copy Audio from File".

Definition fresh (s : Sim.t) : world Sim.t := World None s [].

(** The world after a first launch: the child runs, the handle is set. *)
Definition streaming (s : Sim.t) : world Sim.t :=
  (start 8 "rtmp://stream.example.com/live/key" (fresh s)).2.

End Ex.

(** What the caller of [build_ffmpeg_command] supplies that ends up as an
    argument of its own. *)
Definition supplied (video_url logo_url rtmp_url audio_option : string) : list string :=
  video_url :: logo_url :: rtmp_url :: Py.split audio_option "|".

(** ** The handle and the children

    The children that may be running, as far as the log tells: a child
    enters when [Popen] returns it and leaves when a [wait()] on it returns
    or a [poll()] on it gives a return code. *)

Definition observe (live : gset handle) (e : event) : gset handle :=
  match e with
  | EPopen _ (Ok p) => live ∪ {[p]}
  | EPoll p (Ok (Some _)) => live ∖ {[p]}
  | EWait p _ (Ok _) => live ∖ {[p]}
  | _ => live
  end.

Definition possibly_running (l : list event) : gset handle := foldl observe ∅ l.

(** The set a handle stands for. *)
Definition handle_set (h : option handle) : gset handle :=
  match h with
  | Some p => {[p]}
  | None => ∅
  end.

(** Every child that may be running is the one the handle refers to. *)
Definition tracked {S} (w : world S) : Prop :=
  possibly_running (log w) ⊆ handle_set (ffmpeg_process w).

Definition is_popen (e : event) : bool :=
  match e with
  | EPopen _ _ => true
  | _ => false
  end.

(** The Popen object an entry of the log is about. *)
Definition event_handle (e : event) : option handle :=
  match e with
  | EPopen _ (Ok p) => Some p
  | EPoll p _ | EReadline p _ | ESendSignal p _ _ | EWait p _ _ | EKill p _ => Some p
  | _ => None
  end.

(** The two states of the supervision. *)
Inductive stream_state := NotRunning | Running.

Definition state {S} (w : world S) : stream_state :=
  match ffmpeg_process w with
  | Some _ => Running
  | None => NotRunning
  end.

(** The functions of the module, with their arguments. *)
Inductive operation :=
  | OpResolveHostname (url : string)
  | OpBuildFfmpegCommand
      (video_url logo_url overlay_settings : string) (enable_logo : bool)
      (resolution rtmp_url : string) (fps : Z) (audio_option : string)
  | OpStartFfmpeg (fuel : nat)
      (video_url logo_url overlay_settings : string) (enable_logo : bool)
      (resolution rtmp_url : string) (fps : Z) (audio_option : string)
  | OpStopFfmpeg
  | OpCheckFfmpegProtocols.

(** The world an operation leaves. *)
Definition run_op {S} `{OS S} (o : operation) (w : world S) : world S :=
  match o with
  | OpResolveHostname url => (resolve_hostname url w).2
  | OpBuildFfmpegCommand _ _ _ _ _ _ _ _ => w
  | OpStartFfmpeg fuel video_url logo_url overlay_settings enable_logo
      resolution rtmp_url fps audio_option =>
      (start_ffmpeg fuel video_url logo_url overlay_settings enable_logo
         resolution rtmp_url fps audio_option w).2
  | OpStopFfmpeg => (stop_ffmpeg w).2
  | OpCheckFfmpegProtocols => (check_ffmpeg_protocols w).2
  end.

(** [m'] returns whatever [m] returns: more fuel does not change a result. *)
Definition refines {S A} (m m' : M S A) : Prop :=
  forall w r w', m w = (Some r, w') -> m' w = (Some r, w').

Definition is_start (o : operation) : Prop :=
  match o with
  | OpStartFfmpeg _ _ _ _ _ _ _ _ _ => True
  | _ => False
  end.

(** A call that is not a [stop_ffmpeg] gone wrong: a stop has to return one
    of its three regular messages. *)
Definition orderly {S} `{OS S} (o : operation) (w : world S) : Prop :=
  o = OpStopFfmpeg ->
  exists msg,
    (stop_ffmpeg w).1 = Some (Ok msg) /\
    (msg = "Stream stopped." \/ msg = forced_msg \/ msg = "No stream is running.").

(** The worlds that orderly calls of the module's functions get to, from no
    handle and an empty log.  (A run of the page is not such a call: it
    begins by resetting the handle.) *)
Inductive reachable {S} `{OS S} : world S -> Prop :=
  | reachable_init s : reachable (World None s [])
  | reachable_step o w : reachable w -> orderly o w -> reachable (run_op o w).

(** ** Further definitions: counting, the encoder's fixed arguments, the page *)

(** [s.count(c)] for a character [c]. *)
Fixpoint count_char (c : ascii) (s : string) : nat :=
  match s with
  | "" => 0
  | String d s' => (if Ascii.eqb c d then 1 else 0) + count_char c s'
  end.

(** The labels [resolution_map] has. *)
Definition resolution_labels : list string :=
  ["720p"; "480p"; "360p"; "180p"; "1080p"; "4K"].

(** The arguments [build_ffmpeg_command] ends every command with. *)
Definition encoder_args (rtmp_url : string) : list string :=
  ["-ar"; "44100"; "-pix_fmt"; "yuv420p"; "-tune"; "zerolatency";
   "-maxrate"; "2000k"; "-preset"; "veryfast"; "-vcodec"; "libx264";
   "-ab"; "128k"; "-vb"; "660k"; "-f"; "flv"; rtmp_url].

(** The kinds of call to the environment. *)
Inductive call_kind :=
  | KGethostbyname | KPopen | KPoll | KReadline | KSendSignal | KWait | KKill | KRun.

Definition event_kind (e : event) : call_kind :=
  match e with
  | EGethostbyname _ _ => KGethostbyname
  | EPopen _ _ => KPopen
  | EPoll _ _ => KPoll
  | EReadline _ _ => KReadline
  | ESendSignal _ _ _ => KSendSignal
  | EWait _ _ _ => KWait
  | EKill _ _ => KKill
  | ERun _ _ => KRun
  end.

(** The calls each function of the module can make. *)
Definition allowed_kinds (o : operation) : list call_kind :=
  match o with
  | OpResolveHostname _ => [KGethostbyname]
  | OpBuildFfmpegCommand _ _ _ _ _ _ _ _ => []
  | OpStartFfmpeg _ _ _ _ _ _ _ _ _ => [KGethostbyname; KPoll; KPopen; KReadline]
  | OpStopFfmpeg => [KSendSignal; KWait; KKill]
  | OpCheckFfmpegProtocols => [KRun]
  end.

(** *** The page (lines 150-180)

    The script at the end of the module is run from its first line: the
    handle is set to [None] (line 8), the widgets are laid out and return
    what the user entered, and each button that is pressed calls one of the
    functions and shows what it returns.  The values the widgets return are
    the record [form]; what is shown is a list of [display]s. *)

Module Page.

Record form := Form {
  video_url : string;
  rtmp_url : string;
  resolution : string;
  fps : Z;
  audio_option : string;
  logo_url : string;
  overlay_settings : string;
  enable_logo : bool;
  run_command : bool;       (* st.button("Run Command") *)
  stop_stream : bool;       (* st.button("Stop Stream") *)
  check_protocols : bool;   (* st.button("Check FFmpeg Protocols") *)
}.

Inductive display :=
  | Title (text : string)
  | Markdown (text : string)
  | TextArea (label value : string).

Definition page_layout : list display :=
  [Title "FFmpeg Command Control Dashboard";
   Markdown "### Input Fields"; Markdown "### Settings";
   Markdown "### Logo Settings"; Markdown "### Actions"].

(** One run of the script, top to bottom. *)
Definition script {S} `{OS S} (fuel : nat) (ui : form) : M S (list display) :=
  set_ffmpeg_process None ;;;
  let shown := page_layout in
  shown <-
    (if run_command ui then
       started <- start_ffmpeg fuel (video_url ui) (logo_url ui) (overlay_settings ui)
                    (enable_logo ui) (resolution ui) (rtmp_url ui) (fps ui)
                    (audio_option ui) ;;
       let '(output, logs, ffmpeg_command) := started in
       ret (shown ++ [TextArea "Command Output" output;
                      TextArea "FFmpeg Logs" logs;
                      TextArea "Generated FFmpeg Command" ffmpeg_command])
     else ret shown) ;;
  shown <-
    (if stop_stream ui then
       output <- stop_ffmpeg ;;
       ret (shown ++ [TextArea "Command Output" output])
     else ret shown) ;;
  if check_protocols ui then
    protocol_check <- check_ffmpeg_protocols ;;
    ret (shown ++ [TextArea "FFmpeg Protocol Support" protocol_check])
  else ret shown.

(** What the form's widgets can return: the options of the select boxes. *)
Definition form_options (ui : form) : Prop :=
  resolution ui ∈ ["4K"; "1080p"; "720p"; "480p"; "360p"; "180p"] /\
  fps ui ∈ [24; 30; 60] /\
  audio_option ui ∈ ["Copy Audio from File"; "1|128k"; "2|128k"; "2|256k"].

End Page.

(** ** A second simulated environment, with two more faults

    [Sim] with a resolver that, like Python's, refuses a name with an empty
    label before any lookup ([UnicodeError], not [gaierror]), and with a
    switch that makes [kill] fail for want of permission. *)

Module Flaky.

Record t := Make {
  base : Sim.t;
  kill_denied : bool;
}.

Definition lift {A} (f : Sim.t -> result A * Sim.t) (s : t) : result A * t :=
  let '(r, b) := f (base s) in (r, Make b (kill_denied s)).

Definition gethostbyname (h : string) (s : t) : result string * t :=
  if Py.contains h ".."
  then (Err (Exn OtherException "encoding with 'idna' codec failed (UnicodeError: label empty or too long)"), s)
  else lift (Sim.gethostbyname h) s.

Definition kill (p : handle) (s : t) : result () * t :=
  if kill_denied s
  then (Err (Exn OtherException "[Errno 1] Operation not permitted"), s)
  else lift (Sim.kill p) s.

End Flaky.

Global Program Instance flaky_os : OS Flaky.t := {|
  gethostbyname := Flaky.gethostbyname;
  Popen cmd := Flaky.lift (Sim.Popen cmd);
  poll p := Flaky.lift (Sim.poll p);
  stderr_readline p := Flaky.lift (Sim.stderr_readline p);
  send_signal p sig := Flaky.lift (Sim.send_signal p sig);
  wait p timeout := Flaky.lift (Sim.wait p timeout);
  kill := Flaky.kill;
  run_stdout cmd := Flaky.lift (Sim.run_stdout cmd);
|}.
Next Obligation.
  intros p sig s e. unfold Flaky.lift.
  pose proof (send_signal_no_timeout (S := Sim.t) p sig (Flaky.base s) e) as Hsim.
  simpl in *. destruct (Sim.send_signal p sig (Flaky.base s)). simpl in *. exact Hsim.
Qed.

(** ** Further example environments *)

Module Cases.

(** A host where the ffmpeg binary is missing. *)
Definition no_ffmpeg : Sim.t :=
  Sim.Make [("stream.example.com", "203.0.113.7")] false [] true true true "" [].

(** The vector [Ex.start] builds for "rtmp://stream.example.com/live/key". *)
Definition default_command : list string :=
  ["ffmpeg"; "-re"; "-y"; "-i";
   "https://kbsworld-ott.akamaized.net/hls/live/2002341/kbsworld/master.m3u8";
   "-i"; "https://i.ibb.co/YcPZxsn/logo.png"; "-filter_complex";
   "[1]scale=iw*0.6:-1[wm];[0][wm]overlay=W-w-45:37"; "-s"; "1280x720";
   "-r"; "30"; "-c:a"; "copy"; "-ar"; "44100"; "-pix_fmt"; "yuv420p";
   "-tune"; "zerolatency"; "-maxrate"; "2000k"; "-preset"; "veryfast";
   "-vcodec"; "libx264"; "-ab"; "128k"; "-vb"; "660k"; "-f"; "flv";
   "rtmp://203.0.113.7/live/key"].

Definition missing_binary : exn :=
  Exn OtherException "[Errno 2] No such file or directory: 'ffmpeg'".

(** A stubborn child is streaming and [kill] is not permitted. *)
Definition unkillable : world Flaky.t :=
  World (Some 0%nat) (Flaky.Make (os (Ex.streaming Ex.stubborn)) true) [].

Definition not_permitted : exn := Exn OtherException "[Errno 1] Operation not permitted".

End Cases.

(** ** The runs of the page

    A run of the script in three parts, one for each button, in the order of
    the source: what the part adds to the log, what it adds to the page (or
    the exception that ends the script), and the handle it leaves. *)

(** What [check_ffmpeg_protocols] answers to the outcome of its command. *)
Definition protocols_output (r : result string) : string :=
  match r with
  | Ok stdout =>
      if Py.contains stdout "rtmps"
      then "RTMPS is supported by this FFmpeg build."
      else "RTMPS is not supported by this FFmpeg build."
  | Err e => "An error occurred while checking FFmpeg protocols: " +:+ exn_str e
  end.

Section PageRuns.

Variables (fuel : nat) (ui : Page.form).

(** "Run Command": [start_ffmpeg] is called with the handle line 8 has reset. *)
Inductive run_part :
    list event -> option (result (list Page.display)) -> option handle -> Prop :=
  | run_part_idle :
      Page.run_command ui = false ->
      run_part [] (Some (Ok [])) None
  | run_part_reading evs h :
      Page.run_command ui = true ->
      start_run fuel (Page.video_url ui) (Page.logo_url ui) (Page.overlay_settings ui)
        (Page.enable_logo ui) (Page.resolution ui) (Page.rtmp_url ui) (Page.fps ui)
        (Page.audio_option ui) None evs None h ->
      run_part evs None h
  | run_part_raises evs e h :
      Page.run_command ui = true ->
      start_run fuel (Page.video_url ui) (Page.logo_url ui) (Page.overlay_settings ui)
        (Page.enable_logo ui) (Page.resolution ui) (Page.rtmp_url ui) (Page.fps ui)
        (Page.audio_option ui) None evs (Some (Err e)) h ->
      run_part evs (Some (Err e)) h
  | run_part_shown evs output logs ffmpeg_command h :
      Page.run_command ui = true ->
      start_run fuel (Page.video_url ui) (Page.logo_url ui) (Page.overlay_settings ui)
        (Page.enable_logo ui) (Page.resolution ui) (Page.rtmp_url ui) (Page.fps ui)
        (Page.audio_option ui) None evs (Some (Ok (output, logs, ffmpeg_command))) h ->
      run_part evs
        (Some (Ok [Page.TextArea "Command Output" output;
                   Page.TextArea "FFmpeg Logs" logs;
                   Page.TextArea "Generated FFmpeg Command" ffmpeg_command]))
        h.

(** "Stop Stream", from the handle [h] the first part left. *)
Inductive stop_part (h : option handle) :
    list event -> result (list Page.display) -> option handle -> Prop :=
  | stop_part_idle :
      Page.stop_stream ui = false ->
      stop_part h [] (Ok []) h
  | stop_part_nothing :
      Page.stop_stream ui = true -> h = None ->
      stop_part h [] (Ok [Page.TextArea "Command Output" "No stream is running."]) None
  | stop_part_shown p evs output :
      Page.stop_stream ui = true -> h = Some p ->
      stop_run p evs (Ok output) ->
      stop_part h evs (Ok [Page.TextArea "Command Output" output]) None
  | stop_part_raises p evs e :
      Page.stop_stream ui = true -> h = Some p ->
      stop_run p evs (Err e) ->
      stop_part h evs (Err e) None.

(** "Check FFmpeg Protocols". *)
Inductive check_part : list event -> list Page.display -> Prop :=
  | check_part_idle :
      Page.check_protocols ui = false ->
      check_part [] []
  | check_part_shown r :
      Page.check_protocols ui = true ->
      check_part [ERun ["ffmpeg"; "-protocols"] r]
                 [Page.TextArea "FFmpeg Protocol Support" (protocols_output r)].

(** The runs of the script: [None] when [start_ffmpeg] is still reading. *)
Inductive page_run :
    list event -> option (result (list Page.display)) -> option handle -> Prop :=
  | page_reading evs h :
      run_part evs None h ->
      page_run evs None h
  | page_run_raises evs e h :
      run_part evs (Some (Err e)) h ->
      page_run evs (Some (Err e)) h
  | page_stop_raises evs1 a h1 evs2 e h2 :
      run_part evs1 (Some (Ok a)) h1 ->
      stop_part h1 evs2 (Err e) h2 ->
      page_run (evs1 ++ evs2) (Some (Err e)) h2
  | page_shown evs1 a h1 evs2 b h2 evs3 c :
      run_part evs1 (Some (Ok a)) h1 ->
      stop_part h1 evs2 (Ok b) h2 ->
      check_part evs3 c ->
      page_run (evs1 ++ evs2 ++ evs3)
               (Some (Ok (Page.page_layout ++ a ++ b ++ c))) h2.

End PageRuns.

(** The page on its default values, with a destination and the buttons of
    our own. *)
Definition clicks (rtmp_url : string) (run stop check : bool) : Page.form :=
  Page.Form "https://kbsworld-ott.akamaized.net/hls/live/2002341/kbsworld/master.m3u8"
    rtmp_url "720p" 30 "Copy Audio from File" "https://i.ibb.co/YcPZxsn/logo.png"
    "overlay=W-w-45:37" true run stop check.

(** ** A third simulated environment: standard error that cannot be decoded

    With [text=True] a line of the child's standard error is decoded when
    it is read, and bytes that are not valid in the encoding make
    [readline] raise [UnicodeDecodeError].  [Garbled] is [Sim] with one line
    of what the children write marked as undecodable. *)

Module Garbled.

Record t := Make {
  base : Sim.t;
  undecodable : string;
}.

Definition lift {A} (f : Sim.t -> result A * Sim.t) (s : t) : result A * t :=
  let '(r, b) := f (base s) in (r, Make b (undecodable s)).

(** The line the next [readline] on [p] has to decode. *)
Definition next_line (p : handle) (s : t) : option string :=
  match Sim.procs (base s) !! p with
  | Some pr => head (Sim.pending pr)
  | None => None
  end.

Definition stderr_readline (p : handle) (s : t) : result string * t :=
  if bool_decide (next_line p s = Some (undecodable s))
  then (Err (Exn OtherException
               "'utf-8' codec can't decode byte 0xff in position 0: invalid start byte"), s)
  else lift (Sim.stderr_readline p) s.

End Garbled.

Global Program Instance garbled_os : OS Garbled.t := {|
  gethostbyname h := Garbled.lift (Sim.gethostbyname h);
  Popen cmd := Garbled.lift (Sim.Popen cmd);
  poll p := Garbled.lift (Sim.poll p);
  stderr_readline := Garbled.stderr_readline;
  send_signal p sig := Garbled.lift (Sim.send_signal p sig);
  wait p timeout := Garbled.lift (Sim.wait p timeout);
  kill p := Garbled.lift (Sim.kill p);
  run_stdout cmd := Garbled.lift (Sim.run_stdout cmd);
|}.
Next Obligation.
  intros p sig s e. unfold Garbled.lift.
  pose proof (send_signal_no_timeout (S := Sim.t) p sig (Garbled.base s) e) as Hsim.
  simpl in *. destruct (Sim.send_signal p sig (Garbled.base s)). simpl in *. exact Hsim.
Qed.

(** ** The inputs of the counterexamples *)

Module Inputs.

(** [start_ffmpeg] on the form's default values, in any environment. *)
Definition launch {S} `{OS S} (fuel : nat) (rtmp_url : string)
  : M S (string * string * string) :=
  start_ffmpeg fuel
    "https://kbsworld-ott.akamaized.net/hls/live/2002341/kbsworld/master.m3u8"
    "https://i.ibb.co/YcPZxsn/logo.png" "overlay=W-w-45:37" true "720p"
    rtmp_url 30 "Copy Audio from File".

(** No handle, and children whose third line cannot be decoded. *)
Definition garbled : world Garbled.t :=
  World None (Garbled.Make Ex.posix ("  frame=   25 fps= 25 " +:+ Py.nl)) [].

Definition undecodable : exn :=
  Exn OtherException
    "'utf-8' codec can't decode byte 0xff in position 0: invalid start byte".

(** A resolver that refuses the name before any lookup. *)
Definition picky : world Flaky.t := World None (Flaky.Make Ex.posix false) [].

Definition label_empty : exn :=
  Exn OtherException
    "encoding with 'idna' codec failed (UnicodeError: label empty or too long)".

(** The page with no button pressed. *)
Definition no_click : Page.form :=
  clicks "rtmp://stream.example.com/live/key" false false false.

(** The page with "Run Command" pressed. *)
Definition run_click : Page.form :=
  clicks "rtmp://stream.example.com/live/key" true false false.

End Inputs.

(** * Proofs *)

(** ** Strings *)

Section Strings.

Implicit Types s t p old new sep : string.

Lemma str_app_nil_l s : "" +:+ s = s.
Proof. reflexivity. Qed.

Lemma str_app_cons c s t : String c s +:+ t = String c (s +:+ t).
Proof. reflexivity. Qed.

Lemma str_app_nil_r s : s +:+ "" = s.
Proof. induction s as [|c s IH]; [done|]. by rewrite str_app_cons, IH. Qed.

Lemma str_app_assoc s t p : (s +:+ t) +:+ p = s +:+ t +:+ p.
Proof. induction s as [|c s IH]; [done|]. by rewrite !str_app_cons, IH. Qed.

Lemma str_length_app s t : String.length (s +:+ t) = (String.length s + String.length t)%nat.
Proof. induction s as [|c s IH]; [done|]. rewrite str_app_cons. simpl. by rewrite IH. Qed.

Lemma str_drop_app s t : Py.drop (String.length s) (s +:+ t) = t.
Proof. induction s as [|c s IH]; [by destruct t|]. by rewrite str_app_cons. Qed.

Lemma str_drop_0 s : Py.drop 0 s = s.
Proof. by destruct s. Qed.

Lemma startswith_nil s : Py.startswith s "" = true.
Proof. by destruct s. Qed.

Lemma startswith_cons c s d p :
  Py.startswith (String c s) (String d p) = Ascii.eqb d c && Py.startswith s p.
Proof. reflexivity. Qed.

Lemma startswith_spec s p : Py.startswith s p = true <-> exists t, s = p +:+ t.
Proof.
  revert s. induction p as [|d p IH]; intros s.
  - rewrite startswith_nil. split; [eauto|done].
  - destruct s as [|c s].
    + split; [done|]. by intros [t Ht].
    + rewrite startswith_cons, andb_true_iff, Ascii.eqb_eq, IH.
      split.
      * intros [-> [t ->]]. by exists t.
      * intros [t Ht]. rewrite str_app_cons in Ht. injection Ht as -> ->. eauto.
Qed.

Lemma startswith_app s t p : Py.startswith s p = true -> Py.startswith (s +:+ t) p = true.
Proof.
  rewrite !startswith_spec. intros [u ->]. exists (u +:+ t). by rewrite str_app_assoc.
Qed.

Lemma startswith_self_app p t : Py.startswith (p +:+ t) p = true.
Proof. apply startswith_spec. eauto. Qed.

Lemma occurs_app c s t : Py.occurs c (s +:+ t) <-> Py.occurs c s \/ Py.occurs c t.
Proof.
  induction s as [|d s IH]; [rewrite str_app_nil_l; simpl; tauto|].
  rewrite str_app_cons. simpl. rewrite IH. tauto.
Qed.

(** A pattern free of [c] that starts [s ++ c ++ t] lies within [s]. *)
Lemma startswith_before c s t p :
  ~ Py.occurs c p ->
  Py.startswith (s +:+ String c t) p = true ->
  Py.startswith s p = true.
Proof.
  revert s. induction p as [|d p IH]; intros s Hc; [by rewrite !startswith_nil|].
  destruct s as [|e s].
  - rewrite str_app_nil_l, startswith_cons, andb_true_iff, Ascii.eqb_eq.
    intros [-> _]. destruct Hc. by left.
  - rewrite str_app_cons, !startswith_cons, !andb_true_iff.
    intros [? ?]. split; [done|]. apply IH; [|done]. intros ?. apply Hc. by right.
Qed.

Lemma startswith_length s p : Py.startswith s p = true -> (String.length p <= String.length s)%nat.
Proof. intros [t ->]%startswith_spec. rewrite str_length_app. lia. Qed.

Lemma str_drop_nil n : Py.drop n "" = "".
Proof. by destruct n. Qed.

Lemma join_cons sep s l : l <> [] -> Py.join sep (s :: l) = s +:+ sep +:+ Py.join sep l.
Proof. by destruct l. Qed.

Lemma join_push sep c s l : Py.join sep (String c s :: l) = String c (Py.join sep (s :: l)).
Proof. by destruct l. Qed.

Lemma join_head sep s l : exists t, Py.join sep (s :: l) = s +:+ t.
Proof.
  destruct l as [|x l]; [exists ""; by rewrite str_app_nil_r|].
  by exists (sep +:+ Py.join sep (x :: l)).
Qed.

Lemma split_go_nonempty sep k s : Py.split_go sep k s <> [].
Proof.
  revert k. induction s as [|c s IH]; intros k; [done|].
  destruct k as [|k]; cbn [Py.split_go]; [|apply IH].
  destruct (Py.startswith (String c s) sep); [done|].
  by destruct (Py.split_go sep 0 s).
Qed.

(** [replace] joins with [new] the pieces that [split] cuts at [old]. *)
Lemma replace_go_join old new k s :
  Py.replace_go old new k s = Py.join new (Py.split_go old k s).
Proof.
  revert k. induction s as [|c s IH]; intros k; [done|].
  destruct k as [|k]; cbn [Py.replace_go Py.split_go]; [|apply IH].
  destruct (Py.startswith (String c s) old).
  - rewrite join_cons by apply split_go_nonempty. by rewrite IH.
  - rewrite IH. pose proof (split_go_nonempty old 0 s).
    destruct (Py.split_go old 0 s) as [|piece pieces]; [done|].
    by rewrite join_push.
Qed.

(** The pieces joined with [old] give the string back. *)
Lemma join_split_go old k s :
  old <> "" -> Py.join old (Py.split_go old k s) = Py.drop k s.
Proof.
  intros Hold. revert k. induction s as [|c s IH]; intros k; [by rewrite str_drop_nil|].
  destruct k as [|k]; cbn [Py.split_go]; [|apply IH].
  destruct (Py.startswith (String c s) old) eqn:Hsw.
  - rewrite join_cons by apply split_go_nonempty. rewrite IH, str_app_nil_l.
    apply startswith_spec in Hsw as [t Ht]. destruct old as [|d old]; [done|].
    rewrite str_app_cons in Ht. injection Ht as -> ->.
    assert (String.length (String d old) - 1 = String.length old)%nat as ->
      by (simpl; lia).
    rewrite str_drop_app. by rewrite str_app_cons.
  - pose proof (IH 0%nat) as IH0. rewrite str_drop_0 in IH0.
    destruct (Py.split_go old 0 s) as [|piece pieces]; [by subst s|].
    by rewrite join_push, IH0.
Qed.

Lemma contains_cons c s sub :
  Py.contains (String c s) sub = Py.startswith (String c s) sub || Py.contains s sub.
Proof. reflexivity. Qed.

(** No piece contains [old]: every occurrence met by the scan is cut out. *)
Lemma split_go_pieces old k s :
  old <> "" -> Forall (fun piece => Py.contains piece old = false) (Py.split_go old k s).
Proof.
  intros Hold.
  assert (Py.contains "" old = false) as Hnil by by destruct old.
  revert k. induction s as [|c s IH]; intros k; [by constructor|].
  destruct k as [|k]; cbn [Py.split_go]; [|apply IH].
  destruct (Py.startswith (String c s) old) eqn:Hsw; [constructor; [done|apply IH]|].
  pose proof (IH 0%nat) as IH0. pose proof (join_split_go old 0 s Hold) as Hj.
  rewrite str_drop_0 in Hj. pose proof (split_go_nonempty old 0 s).
  destruct (Py.split_go old 0 s) as [|piece pieces]; [done|].
  apply Forall_cons in IH0 as [Hp Hps]. constructor; [|done].
  rewrite contains_cons, Hp, orb_false_r.
  destruct (Py.startswith (String c piece) old) eqn:Hsw'; [|done].
  destruct (join_head old piece pieces) as [t Ht]. rewrite Ht in Hj. subst s.
  rewrite <- str_app_cons in Hsw. by rewrite (startswith_app _ _ _ Hsw') in Hsw.
Qed.

(** A string without occurrence of [old] is a single piece. *)
Lemma split_go_single old s piece :
  old <> "" -> Py.split_go old 0 s = [piece] -> Py.contains s old = false.
Proof.
  intros Hold Hs. pose proof (join_split_go old 0 s Hold) as Hj.
  pose proof (split_go_pieces old 0 s Hold) as Hp.
  rewrite Hs in Hj, Hp. rewrite str_drop_0 in Hj. simpl in Hj. subst piece.
  by apply Forall_cons in Hp as [? _].
Qed.

(** A character that [old] does not have separates the scan: the
    replacement is done on both sides independently. *)
Lemma replace_go_sep c old new k a b :
  old <> "" -> ~ Py.occurs c old -> (k <= String.length a)%nat ->
  Py.replace_go old new k (a +:+ String c b) =
    Py.replace_go old new k a +:+ String c (Py.replace_go old new 0 b).
Proof.
  intros Hold Hc. revert k. induction a as [|d a IH]; intros k Hk.
  - simpl in Hk. assert (k = 0%nat) as -> by lia. rewrite !str_app_nil_l.
    cbn [Py.replace_go].
    destruct (Py.startswith (String c b) old) eqn:Hsw; [|done].
    destruct old as [|e old]; [done|].
    rewrite startswith_cons, andb_true_iff, Ascii.eqb_eq in Hsw.
    destruct Hsw as [-> _]. destruct Hc. by left.
  - rewrite str_app_cons. destruct k as [|k]; cbn [Py.replace_go].
    2:{ apply IH. simpl in Hk. lia. }
    destruct (Py.startswith (String d (a +:+ String c b)) old) eqn:Hsw.
    + rewrite <- str_app_cons in Hsw. apply startswith_before in Hsw; [|done].
      rewrite Hsw. rewrite IH; [by rewrite str_app_assoc|].
      apply startswith_length in Hsw. simpl in Hsw. lia.
    + destruct (Py.startswith (String d a) old) eqn:Hsw'.
      * rewrite <- str_app_cons in Hsw. by rewrite (startswith_app _ _ _ Hsw') in Hsw.
      * rewrite IH by lia. by rewrite str_app_cons.
Qed.

Lemma replace_go_self old new :
  old <> "" -> Py.replace_go old new 0 old = new.
Proof.
  intros Hold. destruct old as [|c old]; [done|].
  cbn [Py.replace_go].
  assert (Py.startswith (String c old) (String c old) = true) as ->.
  { apply startswith_spec. exists "". by rewrite str_app_nil_r. }
  assert (String.length (String c old) - 1 = String.length old)%nat as ->
    by (simpl; lia).
  assert (forall s, Py.replace_go (String c old) new (String.length s) s = "") as ->.
  { induction s as [|d s IH]; [done|]. apply IH. }
  by rewrite str_app_nil_r.
Qed.

End Strings.

(** ** Basic facts about calls *)

Section Calls.

Context {S : Type} `{OS S}.

Lemma os_call_run {A} (f : S -> result A * S) (ev : result A -> event) (w : world S) :
  os_call f ev w =
    (Some (f (os w)).1,
     World (ffmpeg_process w) (f (os w)).2 (log w ++ [ev (f (os w)).1])).
Proof. unfold os_call. by destruct (f (os w)). Qed.

End Calls.

(** ** [stop_ffmpeg] *)

Section Stop.

Context {S : Type} `{OS S}.

Lemma stop_ffmpeg_set (w : world S) (p : handle) :
  ffmpeg_process w = Some p ->
  exists r s' evs,
    stop_ffmpeg w = (Some r, World None s' (log w ++ evs)) /\ stop_run p evs r.
Proof.
  intros Hp. unfold stop_ffmpeg, bind at 1, get_ffmpeg_process. rewrite Hp.
  unfold try_finally, try_except, bind, set_ffmpeg_process, ret.
  rewrite os_call_run.
  destruct (send_signal p SIGINT (os w)) as [[[]|e1] s1] eqn:Hsig; simpl.
  - rewrite os_call_run; simpl.
    destruct (wait p (Some 10) s1) as [[rc|e2] s2] eqn:Hwait; simpl.
    + eexists _, _, _. rewrite <- app_assoc. split; [done|]. apply stop_graceful.
    + destruct (decide (exn_cls e2 = TimeoutExpired)) as [Ht|Ht].
      * rewrite os_call_run; simpl.
        destruct (kill p s2) as [[[]|e3] s3] eqn:Hkill; simpl.
        -- rewrite os_call_run; simpl.
           destruct (wait p None s3) as [[rc|e4] s4] eqn:Hwait2; simpl.
           ++ eexists _, _, _. rewrite <- !app_assoc. split; [done|].
              by apply stop_forced.
           ++ eexists _, _, _. rewrite <- !app_assoc. split; [done|].
              by apply stop_forced_wait_raises.
        -- eexists _, _, _. rewrite <- !app_assoc. split; [done|].
           by apply stop_forced_kill_raises.
      * simpl. eexists _, _, _. rewrite <- !app_assoc. split; [done|].
        by apply stop_wait_raises.
  - assert (exn_cls e1 <> TimeoutExpired) as Ht.
    { apply (send_signal_no_timeout p SIGINT (os w)). by rewrite Hsig. }
    destruct (decide (exn_cls e1 = TimeoutExpired)); [done|]. simpl.
    eexists _, _, _. split; [done|]. by apply stop_signal_raises.
Qed.

Lemma stop_ffmpeg_unset (w : world S) :
  ffmpeg_process w = None ->
  stop_ffmpeg w = (Some (Ok "No stream is running."), w).
Proof.
  intros Hp. unfold stop_ffmpeg, bind, get_ffmpeg_process. by rewrite Hp.
Qed.

End Stop.

(** ** The URL and its hostname *)

Section Url.

Implicit Types url scheme host tail rest ip : string.

Lemma replace_nonempty s old new :
  old <> "" -> Py.replace s old new = Py.replace_go old new 0 s.
Proof. by destruct old. Qed.

Lemma split1_scheme scheme rest :
  scheme = "rtmp" \/ scheme = "rtmps" ->
  Py.split1 (scheme +:+ "://" +:+ rest) "://" = [scheme; rest].
Proof.
  intros [-> | ->]; rewrite !str_app_cons, !str_app_nil_l; cbn; by rewrite startswith_nil.
Qed.

Lemma startswith_scheme url :
  Py.startswith url "rtmp://" || Py.startswith url "rtmps://" = true ->
  exists scheme rest,
    (scheme = "rtmp" \/ scheme = "rtmps") /\ url = scheme +:+ "://" +:+ rest.
Proof.
  intros [Hs | Hs]%orb_true_iff; apply startswith_spec in Hs as [rest ->].
  - exists "rtmp", rest. split; [by left|done].
  - exists "rtmps", rest. split; [by right|done].
Qed.

(** The first piece of [rest.split('/')]: the text before the first slash. *)
Lemma split_slash_head rest :
  exists host pieces tail,
    Py.split rest "/" = host :: pieces /\ rest = host +:+ tail /\
    ~ Py.occurs "/" host /\ (tail = "" \/ exists t, tail = "/" +:+ t).
Proof.
  unfold Py.split. induction rest as [|c rest (host & pieces & tail & Hs & Hr & Hh & Ht)].
  - exists "", [], "". split_and!; [done|done|by intros []|by left].
  - cbn [Py.split_go]. destruct (Py.startswith (String c rest) "/") eqn:Hsw.
    + apply startswith_spec in Hsw as [t Ht']. exists "", (Py.split_go "/" 0 rest), (String c rest).
      split_and!; [done|done|by intros []|]. right. exists t. by rewrite Ht'.
    + rewrite Hs. exists (String c host), pieces, tail. rewrite str_app_cons, <- Hr.
      split_and!; try done. simpl. intros [<- | ?]; [|done].
      by rewrite startswith_cons, Ascii.eqb_refl, startswith_nil in Hsw.
Qed.

(** With a non-empty hostname the replacement is done separately on the
    three parts of the URL that the slashes delimit: the scheme with its
    colon, the authority, and what follows it. *)
Lemma replace_url scheme host tail ip :
  host <> "" -> ~ Py.occurs "/" host ->
  tail = "" \/ (exists t, tail = "/" +:+ t) ->
  Py.replace (scheme +:+ "://" +:+ host +:+ tail) host ip =
    Py.replace (scheme +:+ ":") host ip +:+ "//" +:+ ip +:+ Py.replace tail host ip.
Proof.
  intros Hne Hh Ht. rewrite !replace_nonempty by done.
  change "://" with (":" +:+ String "/" (String "/" "")).
  rewrite !str_app_assoc. rewrite <- (str_app_assoc scheme ":").
  change (String "/" (String "/" "") +:+ host +:+ tail) with
    (String "/" ("" +:+ String "/" (host +:+ tail))).
  rewrite replace_go_sep by (done || lia).
  rewrite (replace_go_sep _ _ _ _ "") by (done || simpl; lia).
  assert (Py.replace_go host ip 0 (host +:+ tail) = ip +:+ Py.replace_go host ip 0 tail) as ->.
  { destruct Ht as [-> | [t ->]].
    - by rewrite !str_app_nil_r, replace_go_self.
    - change ("/" +:+ t) with ("" +:+ String "/" t). rewrite str_app_nil_l at 1.
      rewrite replace_go_sep by (done || lia). rewrite replace_go_self by done.
      rewrite (replace_go_sep _ _ _ _ "") by (done || simpl; lia). done. }
  done.
Qed.

(** The parts of a URL are determined by it. *)
Lemma host_tail_unique host tail host' tail' :
  ~ Py.occurs "/" host -> ~ Py.occurs "/" host' ->
  tail = "" \/ (exists t, tail = "/" +:+ t) ->
  tail' = "" \/ (exists t, tail' = "/" +:+ t) ->
  host +:+ tail = host' +:+ tail' ->
  host = host' /\ tail = tail'.
Proof.
  revert host'. induction host as [|c host IH]; intros [|c' host'] Hh Hh' Ht Ht' Heq.
  - done.
  - rewrite str_app_nil_l, str_app_cons in Heq.
    destruct Ht as [->|[t ->]]; [done|]. injection Heq as <- _. destruct Hh'. by left.
  - rewrite str_app_nil_l, str_app_cons in Heq.
    destruct Ht' as [->|[t ->]]; [done|]. injection Heq as -> _. destruct Hh. by left.
  - rewrite !str_app_cons in Heq. injection Heq as -> Heq.
    destruct (IH host') as [-> ->]; try done.
    + intros ?. apply Hh. by right.
    + intros ?. apply Hh'. by right.
Qed.

Lemma url_parts_unique url scheme host tail scheme' host' tail' :
  url_parts url scheme host tail -> url_parts url scheme' host' tail' ->
  scheme = scheme' /\ host = host' /\ tail = tail'.
Proof.
  intros (Hs & -> & Hh & Ht) (Hs' & Heq & Hh' & Ht').
  assert (scheme = scheme' /\ host +:+ tail = host' +:+ tail') as [-> Heq'].
  { destruct Hs as [-> | ->], Hs' as [-> | ->];
      rewrite !str_app_cons, !str_app_nil_l in Heq; by simplify_eq. }
  split; [done|]. by eapply host_tail_unique.
Qed.

Lemma url_parts_startswith url scheme host tail :
  url_parts url scheme host tail ->
  Py.startswith url "rtmp://" || Py.startswith url "rtmps://" = true.
Proof.
  intros ([-> | ->] & -> & _); apply orb_true_iff; [left|right];
    apply startswith_spec; by eexists.
Qed.

End Url.

Section Resolve.

Context {S : Type} `{OS S}.

Lemma resolve_hostname_other url (w : world S) :
  Py.startswith url "rtmp://" || Py.startswith url "rtmps://" = false ->
  resolve_hostname url w = (Some (Ok (Some url, None)), w).
Proof. intros Hs. unfold resolve_hostname. by rewrite Hs. Qed.

Lemma resolve_hostname_rtmp url (w : world S) :
  Py.startswith url "rtmp://" || Py.startswith url "rtmps://" = true ->
  exists scheme host tail,
    (scheme = "rtmp" \/ scheme = "rtmps") /\
    url = scheme +:+ "://" +:+ host +:+ tail /\
    ~ Py.occurs "/" host /\ (tail = "" \/ exists t, tail = "/" +:+ t) /\
    resolve_hostname url w =
      (match (gethostbyname host (os w)).1 with
       | Ok ip => Some (Ok (Some (Py.replace url host ip), None))
       | Err e =>
           if decide (exn_cls e = GaiError)
           then Some (Ok (None, Some ("Failed to resolve hostname: " +:+ host)))
           else Some (Err e)
       end,
       World (ffmpeg_process w) (gethostbyname host (os w)).2
             (log w ++ [EGethostbyname host (gethostbyname host (os w)).1])).
Proof.
  intros Hs. unfold resolve_hostname. rewrite Hs.
  destruct (startswith_scheme url Hs) as (scheme & rest & Hscheme & ->).
  destruct (split_slash_head rest) as (host & pieces & tail & Hsplit & -> & Hh & Ht).
  exists scheme, host, tail. split_and!; try done.
  unfold bind at 1, lift. rewrite split1_scheme by done. simpl unpack2. cbv iota beta.
  simpl snd. unfold bind at 1. rewrite Hsplit. simpl index0. cbv iota beta.
  unfold try_except, bind, ret. rewrite os_call_run.
  destruct (gethostbyname host (os w)) as [[ip|e] s']; simpl; [done|].
  by destruct (decide (exn_cls e = GaiError)).
Qed.

Lemma resolve_hostname_parts url scheme host tail (w : world S) :
  url_parts url scheme host tail ->
  resolve_hostname url w =
    (match (gethostbyname host (os w)).1 with
     | Ok ip => Some (Ok (Some (Py.replace url host ip), None))
     | Err e =>
         if decide (exn_cls e = GaiError)
         then Some (Ok (None, Some ("Failed to resolve hostname: " +:+ host)))
         else Some (Err e)
     end,
     World (ffmpeg_process w) (gethostbyname host (os w)).2
           (log w ++ [EGethostbyname host (gethostbyname host (os w)).1])).
Proof.
  intros Hparts.
  destruct (resolve_hostname_rtmp url w (url_parts_startswith _ _ _ _ Hparts))
    as (scheme' & host' & tail' & H1 & H2 & H3 & H4 & ->).
  assert (url_parts url scheme' host' tail') as Hparts' by done.
  by destruct (url_parts_unique _ _ _ _ _ _ _ Hparts Hparts') as (_ & -> & _).
Qed.

End Resolve.

(** ** [start_ffmpeg] *)

Section Start.

Context {S : Type} `{OS S}.

Lemma world_eta (w : world S) : World (ffmpeg_process w) (os w) (log w ++ []) = w.
Proof. destruct w. simpl. by rewrite app_nil_r. Qed.

Lemma resolve_hostname_run url (w : world S) :
  exists evs r s',
    resolve_hostname url w = (Some r, World (ffmpeg_process w) s' (log w ++ evs)) /\
    resolve_run url evs r.
Proof.
  destruct (Py.startswith url "rtmp://" || Py.startswith url "rtmps://") eqn:Hs.
  - destruct (resolve_hostname_rtmp url w Hs) as (scheme & host & tail & H1 & H2 & H3 & H4 & ->).
    assert (url_parts url scheme host tail) as Hparts by done.
    destruct (gethostbyname host (os w)) as [[ip|e] s']; simpl.
    + eexists _, _, _. split; [done|]. by eapply resolve_found.
    + destruct (decide (exn_cls e = GaiError)).
      * eexists _, _, _. split; [done|]. by eapply resolve_gaierror.
      * eexists _, _, _. split; [done|]. by eapply resolve_raises.
  - rewrite resolve_hostname_other by done.
    exists [], (Ok (Some url, None)), (os w). rewrite world_eta. split; [done|].
    by apply resolve_not_rtmp.
Qed.

Lemma read_stderr_S fuel p logs (w : world S) :
  read_stderr (Datatypes.S fuel) p logs w =
    let r := (stderr_readline p (os w)).1 in
    let w1 := World (ffmpeg_process w) (stderr_readline p (os w)).2
                    (log w ++ [EReadline p r]) in
    match r with
    | Ok line =>
        if bool_decide (line = "") then (Some (Ok logs), w1)
        else read_stderr fuel p (logs ++ [Py.strip line]) w1
    | Err e => (Some (Err e), w1)
    end.
Proof.
  cbn [read_stderr]. unfold bind. rewrite os_call_run.
  destruct (stderr_readline p (os w)) as [[line|e] s1]; simpl; [|done].
  case_bool_decide; [done|]. by destruct line.
Qed.

(** The read loop: it reads lines until the empty one, a read that raises,
    or the end of its fuel. *)
Lemma read_stderr_run fuel p logs (w : world S) :
  exists ls s',
    Forall (fun l => l <> "") ls /\
    ((length ls = fuel /\
      read_stderr fuel p logs w =
        (None, World (ffmpeg_process w) s' (log w ++ reads p ls))) \/
     ((length ls < fuel)%nat /\
      read_stderr fuel p logs w =
        (Some (Ok (logs ++ (Py.strip <$> ls))),
         World (ffmpeg_process w) s' (log w ++ reads p ls ++ [EReadline p (Ok "")]))) \/
     ((length ls < fuel)%nat /\ exists e,
      read_stderr fuel p logs w =
        (Some (Err e),
         World (ffmpeg_process w) s' (log w ++ reads p ls ++ [EReadline p (Err e)])))).
Proof.
  revert logs w. induction fuel as [|fuel IH]; intros logs w.
  - exists [], (os w). split; [done|]. left. split; [done|].
    unfold read_stderr, blocked, reads. simpl. by rewrite world_eta.
  - rewrite read_stderr_S.
    destruct (stderr_readline p (os w)) as [[line|e] s1]; simpl.
    + case_bool_decide as Hline.
      * subst line. exists [], s1. split; [done|]. right. left.
        split; [simpl; lia|]. unfold reads. simpl. by rewrite app_nil_r.
      * destruct (IH (logs ++ [Py.strip line])
                     (World (ffmpeg_process w) s1 (log w ++ [EReadline p (Ok line)])))
          as (ls & s' & Hls & Hrun).
        exists (line :: ls), s'. split; [by constructor|].
        simpl in Hrun. unfold reads in *. rewrite fmap_cons.
        rewrite <- !app_assoc in Hrun. simpl in Hrun.
        destruct Hrun as [[Hn ->] | [[Hn ->] | [Hn [e ->]]]].
        -- left. split; [simpl; lia|done].
        -- right. left. split; [simpl; lia|done].
        -- right. right. split; [simpl; lia|]. exists e. by rewrite <- app_assoc.
    + exists [], s1. split; [done|]. right. right. split; [simpl; lia|]. by exists e.
Qed.

Lemma start_ffmpeg_try_run fuel command command_str (w : world S) :
  exists evs r h s',
    start_ffmpeg_try fuel command command_str w = (r, World h s' (log w ++ evs)) /\
    launch_run fuel (ffmpeg_process w) command command_str evs r h.
Proof.
  unfold start_ffmpeg_try.
  match goal with |- context [if _ then _ else ?b] => set (launch := b) end.
  assert (forall g s1,
    guard_pass (ffmpeg_process w) g ->
    exists evs rb h s',
      launch (World (ffmpeg_process w) s1 (log w ++ g)) =
        (rb, World h s' (log w ++ evs)) /\
      launch_run fuel (ffmpeg_process w) command command_str evs
        (match rb with
         | Some (Err e) => Some (Ok (error_output e, "", command_str))
         | _ => rb
         end) h) as Hlaunch.
  { intros g s1 Hg. unfold launch, bind at 1. rewrite os_call_run. simpl.
    destruct (Popen command s1) as [[p|e] s2]; simpl.
    2:{ eexists _, _, _, _. rewrite <- app_assoc. split; [done|].
        by apply launch_popen_raises. }
    unfold bind at 1, set_ffmpeg_process. simpl. unfold bind at 1.
    destruct (read_stderr_run fuel p []
                (World (Some p) s2 ((log w ++ g) ++ [EPopen command (Ok p)])))
      as (ls & s3 & Hls & Hrun).
    simpl in Hrun.
    destruct Hrun as [[Hn ->] | [[Hn ->] | [Hn [e ->]]]].
    - eexists _, _, _, _. rewrite <- !app_assoc. split; [done|].
      by apply launch_reading.
    - unfold bind, ret. rewrite os_call_run. simpl.
      destruct (poll p s3) as [[rc|e] s4]; simpl.
      + eexists _, _, _, _. rewrite <- ?app_assoc. simpl. rewrite <- ?app_assoc.
        split; [done|]. by apply launch_done.
      + eexists _, _, _, _. rewrite <- ?app_assoc. simpl. rewrite <- ?app_assoc.
        split; [done|]. by apply launch_poll_after_raises.
    - eexists _, _, _, _. rewrite <- ?app_assoc. simpl. rewrite <- ?app_assoc.
      split; [done|]. by apply launch_read_raises. }
  clearbody launch.
  unfold try_except, bind, get_ffmpeg_process, ret.
  destruct (ffmpeg_process w) as [q|] eqn:Hold.
  - rewrite os_call_run. simpl. rewrite Hold.
    destruct (poll q (os w)) as [[rc|e] s1]; simpl.
    + case_bool_decide as Hrc.
      * subst rc. eexists _, _, _, _. split; [done|].
        by eapply launch_already_running.
      * destruct rc as [rc|]; [|done].
        destruct (Hlaunch [EPoll q (Ok (Some rc))] s1) as (evs & rb & h & s' & -> & Hl);
          [constructor|].
        exists evs. destruct rb as [[]|]; eexists _, _, _; split; done.
    + eexists _, _, _, _. split; [done|]. by eapply launch_poll_raises.
  - destruct (Hlaunch [] (os w)) as (evs & rb & h & s' & Hrun & Hl); [constructor|].
    rewrite app_nil_r in Hrun.
    assert (World None (os w) (log w) = w) as Hw by (destruct w; simpl in *; by subst).
    rewrite Hw in Hrun. rewrite Hrun. exists evs. destruct rb as [[]|]; eexists _, _, _; split; done.
Qed.

Lemma start_ffmpeg_built fuel video_url logo_url overlay_settings enable_logo
    resolution rtmp_url fps audio_option evs u (w : world S) s1 :
  resolve_run rtmp_url evs (Ok (Some u, None)) ->
  exists evs' r h s',
    (built <- lift (build_ffmpeg_command video_url logo_url overlay_settings
                      enable_logo resolution u fps audio_option) ;;
     let '(command, command_str) := built in
     start_ffmpeg_try fuel command command_str)
      (World (ffmpeg_process w) s1 (log w ++ evs)) =
      (r, World h s' (log w ++ evs')) /\
    start_run fuel video_url logo_url overlay_settings enable_logo resolution
      rtmp_url fps audio_option (ffmpeg_process w) evs' r h.
Proof.
  intros Hres. unfold bind, lift.
  destruct (build_ffmpeg_command video_url logo_url overlay_settings enable_logo
              resolution u fps audio_option) as [[command command_str]|e] eqn:Hbuild.
  - destruct (start_ffmpeg_try_run fuel command command_str
                (World (ffmpeg_process w) s1 (log w ++ evs)))
      as (evs' & r & h & s' & -> & Hl).
    simpl in *. exists (evs ++ evs'), r, h, s'. rewrite <- app_assoc. split; [done|].
    by eapply start_built.
  - eexists _, _, _, _. split; [done|]. by eapply start_build_raises.
Qed.

(** Every call of [start_ffmpeg] is one of the runs of [start_run]. *)
Lemma start_ffmpeg_run fuel video_url logo_url overlay_settings enable_logo
    resolution rtmp_url fps audio_option (w : world S) :
  exists evs r h s',
    start_ffmpeg fuel video_url logo_url overlay_settings enable_logo
      resolution rtmp_url fps audio_option w = (r, World h s' (log w ++ evs)) /\
    start_run fuel video_url logo_url overlay_settings enable_logo resolution
      rtmp_url fps audio_option (ffmpeg_process w) evs r h.
Proof.
  unfold start_ffmpeg, bind at 1.
  destruct (resolve_hostname_run rtmp_url w) as (evs & r & s1 & -> & Hres).
  inversion Hres; subst; cbv beta iota.
  - by apply start_ffmpeg_built.
  - by apply start_ffmpeg_built.
  - assert (truthy_opt (Some ("Failed to resolve hostname: " +:+ host)) = true) as ->
      by reflexivity.
    eexists _, _, _, _. split; [done|]. by apply start_resolve_fails.
  - eexists _, _, _, _. split; [done|]. by apply start_resolve_raises.
Qed.

End Start.

(** ** Claims about [stop_ffmpeg] *)

Section StopClaims.

Context {S : Type} `{OS S}.

(** C1, as amended.  A call of [stop_ffmpeg] with the handle set to [p]
    first sends SIGINT to [p].  If the signal was sent, it waits for [p]
    with a timeout of 10 seconds, and it kills [p] and waits for it without
    timeout only when that wait raised [TimeoutExpired].  It returns
    "Stream stopped." when the bounded wait returned, and the
    forced-termination message when the wait timed out and the kill and the
    last wait returned.  When [send_signal] raises, or the bounded wait
    raises something other than the timeout, nothing more is called and the
    message is "An error occurred while stopping the stream: " followed by
    the exception; when [kill] or the last wait raises, that exception
    leaves [stop_ffmpeg] and there is no message. *)
Theorem stop_ffmpeg_graceful_then_forced (w : world S) (p : handle) :
  ffmpeg_process w = Some p ->
  exists r w' r_sig rest,
    stop_ffmpeg w = (Some r, w') /\
    log w' = log w ++ ESendSignal p SIGINT r_sig :: rest /\
    match r_sig with
    | Err e =>
        rest = [] /\
        r = Ok ("An error occurred while stopping the stream: " +:+ exn_str e)
    | Ok _ =>
        exists r_wait rest',
          rest = EWait p (Some 10) r_wait :: rest' /\
          match r_wait with
          | Ok _ => rest' = [] /\ r = Ok "Stream stopped."
          | Err e =>
              if decide (exn_cls e = TimeoutExpired) then
                exists r_kill rest'',
                  rest' = EKill p r_kill :: rest'' /\
                  match r_kill with
                  | Err e' => rest'' = [] /\ r = Err e'
                  | Ok _ =>
                      exists r_last,
                        rest'' = [EWait p None r_last] /\
                        match r_last with
                        | Ok _ => r = Ok forced_msg
                        | Err e' => r = Err e'
                        end
                  end
              else
                rest' = [] /\
                r = Ok ("An error occurred while stopping the stream: " +:+ exn_str e)
          end
    end.
Proof.
  intros Hp. destruct (stop_ffmpeg_set w p Hp) as (r & s' & evs & Hrun & Hstop).
  exists r, (World None s' (log w ++ evs)).
  destruct Hstop as [rc|e rc Ht|e e' Ht|e e' Ht|e Ht|e Ht];
    eexists _, _; (split; [exact Hrun|]); (split; [reflexivity|]); simpl.
  - eexists _, _. split; [reflexivity|]. done.
  - eexists _, _. split; [reflexivity|]. simpl.
    destruct (decide (exn_cls e = TimeoutExpired)); [|done].
    eexists _, _. split; [reflexivity|]. simpl. by eexists.
  - eexists _, _. split; [reflexivity|]. simpl.
    destruct (decide (exn_cls e = TimeoutExpired)); [|done].
    eexists _, _. split; [reflexivity|]. done.
  - eexists _, _. split; [reflexivity|]. simpl.
    destruct (decide (exn_cls e = TimeoutExpired)); [|done].
    eexists _, _. split; [reflexivity|]. simpl. by eexists.
  - done.
  - eexists _, _. split; [reflexivity|]. simpl.
    by destruct (decide (exn_cls e = TimeoutExpired)).
Qed.

(** C9.  After a call of [stop_ffmpeg] with the handle set, the handle is
    [None], whatever the calls to the environment did (the call may have
    returned a message or let an exception through); a second call then
    returns "No stream is running." and leaves the world as it is. *)
Theorem stop_ffmpeg_clears_handle (w : world S) (p : handle) :
  ffmpeg_process w = Some p ->
  exists r w',
    stop_ffmpeg w = (Some r, w') /\
    ffmpeg_process w' = None /\
    stop_ffmpeg w' = (Some (Ok "No stream is running."), w').
Proof.
  intros Hp. destruct (stop_ffmpeg_set w p Hp) as (r & s' & evs & Hrun & _).
  eexists _, _. split; [exact Hrun|]. split; [done|]. by apply stop_ffmpeg_unset.
Qed.

End StopClaims.

(** The runs taken in the examples: a child that ignores SIGINT is killed
    after the timeout; on a platform without SIGINT the signal raises. *)
Example stop_stubborn :
  (stop_ffmpeg (Ex.streaming Ex.stubborn)).1 = Some (Ok forced_msg) /\
  drop 8 (log (stop_ffmpeg (Ex.streaming Ex.stubborn)).2) =
    [ESendSignal 0%nat SIGINT (Ok ());
     EWait 0%nat (Some 10) (Err (Exn TimeoutExpired "Command timed out after 10 seconds"));
     EKill 0%nat (Ok ()); EWait 0%nat None (Ok (-9))].
Proof. split; vm_compute; reflexivity. Qed.

Example stop_posix :
  (stop_ffmpeg (Ex.streaming Ex.posix)).1 = Some (Ok "Stream stopped.") /\
  drop 8 (log (stop_ffmpeg (Ex.streaming Ex.posix)).2) =
    [ESendSignal 0%nat SIGINT (Ok ()); EWait 0%nat (Some 10) (Ok 255)].
Proof. split; vm_compute; reflexivity. Qed.

Lemma stop_ffmpeg_graceful_then_forced_witness :
  exists r w' r_sig rest,
    stop_ffmpeg (Ex.streaming Ex.stubborn) = (Some r, w') /\
    log w' = log (Ex.streaming Ex.stubborn) ++ ESendSignal 0%nat SIGINT r_sig :: rest /\
    match r_sig with
    | Err e =>
        rest = [] /\
        r = Ok ("An error occurred while stopping the stream: " +:+ exn_str e)
    | Ok _ =>
        exists r_wait rest',
          rest = EWait 0%nat (Some 10) r_wait :: rest' /\
          match r_wait with
          | Ok _ => rest' = [] /\ r = Ok "Stream stopped."
          | Err e =>
              if decide (exn_cls e = TimeoutExpired) then
                exists r_kill rest'',
                  rest' = EKill 0%nat r_kill :: rest'' /\
                  match r_kill with
                  | Err e' => rest'' = [] /\ r = Err e'
                  | Ok _ =>
                      exists r_last,
                        rest'' = [EWait 0%nat None r_last] /\
                        match r_last with
                        | Ok _ => r = Ok forced_msg
                        | Err e' => r = Err e'
                        end
                  end
              else
                rest' = [] /\
                r = Ok ("An error occurred while stopping the stream: " +:+ exn_str e)
          end
    end.
Proof. apply (stop_ffmpeg_graceful_then_forced (Ex.streaming Ex.stubborn) 0%nat). reflexivity. Defined.

(** C1 as it is written fails.  Where SIGINT cannot be sent (Windows:
    [send_signal] raises [ValueError]) the call does not wait at all and
    returns a third message; and when the timeout is followed by a [kill]
    that raises, no message is returned. *)
Lemma stop_ffmpeg_no_wait :
  ffmpeg_process (Ex.streaming Ex.windows) = Some 0%nat /\
  (stop_ffmpeg (Ex.streaming Ex.windows)).1 =
    Some (Ok "An error occurred while stopping the stream: Unsupported signal: 2") /\
  log (stop_ffmpeg (Ex.streaming Ex.windows)).2 =
    log (Ex.streaming Ex.windows)
      ++ [ESendSignal 0%nat SIGINT (Err (Exn ValueError "Unsupported signal: 2"))] /\
  "An error occurred while stopping the stream: Unsupported signal: 2" <> "Stream stopped." /\
  "An error occurred while stopping the stream: Unsupported signal: 2" <> forced_msg /\
  ffmpeg_process Cases.unkillable = Some 0%nat /\
  (stop_ffmpeg Cases.unkillable).1 = Some (Err Cases.not_permitted).
Proof. split_and!; try (vm_compute; reflexivity); discriminate. Qed.

Lemma stop_ffmpeg_clears_handle_witness :
  exists r w',
    stop_ffmpeg (Ex.streaming Ex.windows) = (Some r, w') /\
    ffmpeg_process w' = None /\
    stop_ffmpeg w' = (Some (Ok "No stream is running."), w').
Proof. apply (stop_ffmpeg_clears_handle (Ex.streaming Ex.windows) 0%nat). reflexivity. Defined.

(** ** Claims about [build_ffmpeg_command] *)

Lemma res_str_values resolution :
  default "1280x720" (resolution_map !! resolution) ∈
    ["1280x720"; "854x480"; "640x360"; "320x180"; "1920x1080"; "3840x2160"].
Proof.
  destruct (resolution_map !! resolution) as [v|] eqn:Hv; simpl; [|by left].
  apply elem_of_list_to_map_2 in Hv.
  repeat (apply elem_of_cons in Hv as [[= _ <-]|Hv];
          [rewrite !elem_of_cons; tauto|]).
  by apply elem_of_nil in Hv.
Qed.

Lemma res_str_not_ffmpeg resolution :
  default "1280x720" (resolution_map !! resolution) <> "ffmpeg".
Proof.
  intros E. pose proof (res_str_values resolution) as Hv. rewrite E in Hv.
  repeat (apply elem_of_cons in Hv as [?|Hv]; [done|]).
  by apply elem_of_nil in Hv.
Qed.

Lemma str_int_not_ffmpeg fps : Py.str_int fps <> "ffmpeg".
Proof. unfold Py.str_int. by destruct (Z.to_int fps) as [[]|[]]. Qed.

(** C5.  With an audio option the form offers ("Copy Audio from File", or
    channels and bitrate separated by one bar), [build_ffmpeg_command]
    returns an argument vector whose program is "ffmpeg", with "-i" and the
    video URL at positions 3 and 4 and the destination URL last; past
    position 0 the word "ffmpeg" can only be a value the caller supplied, so
    the vector names the binary once. *)
Theorem build_ffmpeg_command_shape
    video_url logo_url overlay_settings (enable_logo : bool)
    resolution rtmp_url (fps : Z) audio_option :
  audio_option = "Copy Audio from File" \/
    (exists audio_channels audio_bitrate,
       Py.split audio_option "|" = [audio_channels; audio_bitrate]) ->
  exists args command_str,
    build_ffmpeg_command video_url logo_url overlay_settings enable_logo
      resolution rtmp_url fps audio_option = Ok ("ffmpeg" :: args, command_str) /\
    ("ffmpeg" :: args) !! 3%nat = Some "-i" /\
    ("ffmpeg" :: args) !! 4%nat = Some video_url /\
    last ("ffmpeg" :: args) = Some rtmp_url /\
    ("ffmpeg" ∈ args -> "ffmpeg" ∈ supplied video_url logo_url rtmp_url audio_option).
Proof.
  intros Haudio. unfold build_ffmpeg_command, supplied.
  pose proof (res_str_not_ffmpeg resolution) as Hres.
  pose proof (str_int_not_ffmpeg fps) as Hfps.
  set (res_str := default "1280x720" (resolution_map !! resolution)) in *.
  clearbody res_str.
  assert (exists audio_args,
    (if bool_decide (audio_option = "Copy Audio from File")
     then Ok ["-c:a"; "copy"]
     else match unpack2 (Py.split audio_option "|") with
          | Ok (audio_channels, audio_bitrate) =>
              Ok ["-ac"; audio_channels; "-b:a"; audio_bitrate]
          | Err e => Err e
          end) = Ok audio_args /\
    ("ffmpeg" ∈ audio_args -> "ffmpeg" ∈ Py.split audio_option "|")) as (audio_args & -> & Ha).
  { case_bool_decide as Hcopy.
    - eexists; split; [done|]. rewrite !elem_of_cons, elem_of_nil. intuition (discriminate || congruence || auto).
    - destruct Haudio as [?|(ch & br & Hs)]; [done|]. rewrite Hs. simpl.
      eexists; split; [done|]. rewrite !elem_of_cons, !elem_of_nil. intuition (discriminate || congruence || auto). }
  destruct enable_logo; case_bool_decide; simpl;
    eexists _, _; (split; [reflexivity|]);
    rewrite ?last_cons, ?last_app; simpl;
    (split; [done|]); (split; [done|]); (split; [by rewrite last_snoc || done|]).
  all: repeat (rewrite elem_of_app || rewrite elem_of_cons || rewrite elem_of_nil);
    intuition (discriminate || congruence || auto).
Qed.

Lemma build_ffmpeg_command_shape_witness :
  exists args command_str,
    build_ffmpeg_command "https://example.org/live.m3u8" "https://example.org/logo.png"
      "overlay=W-w-45:37" true "1080p" "rtmp://203.0.113.7/live/key" 30 "2|128k"
      = Ok ("ffmpeg" :: args, command_str) /\
    ("ffmpeg" :: args) !! 3%nat = Some "-i" /\
    ("ffmpeg" :: args) !! 4%nat = Some "https://example.org/live.m3u8" /\
    last ("ffmpeg" :: args) = Some "rtmp://203.0.113.7/live/key" /\
    ("ffmpeg" ∈ args ->
     "ffmpeg" ∈ supplied "https://example.org/live.m3u8" "https://example.org/logo.png"
                 "rtmp://203.0.113.7/live/key" "2|128k").
Proof.
  apply build_ffmpeg_command_shape. right. exists "2", "128k". reflexivity.
Defined.

(** Outside the form's options the unpacking raises: the function returns
    nothing for such an audio option. *)
Example build_ffmpeg_command_raises :
  build_ffmpeg_command "in" "logo" "overlay" false "720p" "out" 30 "stereo"
    = Err (Exn ValueError "not enough values to unpack (expected 2, got 1)").
Proof. reflexivity. Qed.

Example build_ffmpeg_command_defaults :
  build_ffmpeg_command "in.m3u8" "logo.png" "overlay=W-w-45:37" true "720p"
    "rtmp://203.0.113.7/live/key" 30 "Copy Audio from File"
  = Ok (["ffmpeg"; "-re"; "-y"; "-i"; "in.m3u8"; "-i"; "logo.png"; "-filter_complex";
         "[1]scale=iw*0.6:-1[wm];[0][wm]overlay=W-w-45:37"; "-s"; "1280x720";
         "-r"; "30"; "-c:a"; "copy"; "-ar"; "44100"; "-pix_fmt"; "yuv420p";
         "-tune"; "zerolatency"; "-maxrate"; "2000k"; "-preset"; "veryfast";
         "-vcodec"; "libx264"; "-ab"; "128k"; "-vb"; "660k"; "-f"; "flv";
         "rtmp://203.0.113.7/live/key"],
        "ffmpeg -re -y -i in.m3u8 -i logo.png -filter_complex [1]scale=iw*0.6:-1[wm];[0][wm]overlay=W-w-45:37 -s 1280x720 -r 30 -c:a copy -ar 44100 -pix_fmt yuv420p -tune zerolatency -maxrate 2000k -preset veryfast -vcodec libx264 -ab 128k -vb 660k -f flv rtmp://203.0.113.7/live/key").
Proof. vm_compute. reflexivity. Qed.

(** ** Claims about [resolve_hostname] *)

Section ResolveClaims.

Context {S : Type} `{OS S}.

(** An error of [resolve_hostname] is what [start_ffmpeg] returns, with
    nothing else done. *)
Lemma start_ffmpeg_resolution_error fuel video_url logo_url overlay_settings
    enable_logo resolution rtmp_url fps audio_option (w w1 : world S) msg :
  resolve_hostname rtmp_url w = (Some (Ok (None, Some msg)), w1) ->
  Py.truthy msg = true ->
  start_ffmpeg fuel video_url logo_url overlay_settings enable_logo resolution
    rtmp_url fps audio_option w = (Some (Ok (msg, "", "")), w1).
Proof.
  intros Hres Hmsg. unfold start_ffmpeg, bind at 1. rewrite Hres. simpl.
  by rewrite Hmsg.
Qed.

(** C4, as amended.  A URL that begins with rtmp:// or rtmps:// has a
    scheme, a hostname (the text up to the first slash behind the scheme)
    and a rest; [resolve_hostname] asks the resolver for the hostname once.
    If the resolver answers [ip], the result is the URL with the hostname
    replaced by [ip] and no error: for a non-empty hostname, the authority
    is [ip] and the scheme and the rest are rewritten by the same
    replacement.  If the resolver raises [gaierror], the result is no URL
    and the message "Failed to resolve hostname: <hostname>", and
    [start_ffmpeg] returns that message.  If the resolver raises anything
    else, [resolve_hostname] raises it, and so does [start_ffmpeg].  In both
    cases nothing is added to the log but the resolver's call, and the
    handle is left: no process is started.  A URL with another beginning is
    returned as it is, with no error and no call. *)
Theorem resolve_hostname_spec url (w : world S) :
  (Py.startswith url "rtmp://" || Py.startswith url "rtmps://" = true ->
   exists scheme host tail, url_parts url scheme host tail) /\
  (forall scheme host tail,
     url_parts url scheme host tail ->
     let r := (gethostbyname host (os w)).1 in
     let w' := World (ffmpeg_process w) (gethostbyname host (os w)).2
                     (log w ++ [EGethostbyname host r]) in
     match r with
     | Ok ip =>
         resolve_hostname url w = (Some (Ok (Some (Py.replace url host ip), None)), w') /\
         (host <> "" ->
          Py.replace url host ip =
            Py.replace (scheme +:+ ":") host ip +:+ "//" +:+ ip +:+ Py.replace tail host ip)
     | Err e =>
         if decide (exn_cls e = GaiError) then
           resolve_hostname url w =
             (Some (Ok (None, Some ("Failed to resolve hostname: " +:+ host))), w') /\
           forall fuel video_url logo_url overlay_settings enable_logo resolution
                  fps audio_option,
             start_ffmpeg fuel video_url logo_url overlay_settings enable_logo
               resolution url fps audio_option w =
               (Some (Ok ("Failed to resolve hostname: " +:+ host, "", "")), w')
         else
           resolve_hostname url w = (Some (Err e), w') /\
           forall fuel video_url logo_url overlay_settings enable_logo resolution
                  fps audio_option,
             start_ffmpeg fuel video_url logo_url overlay_settings enable_logo
               resolution url fps audio_option w = (Some (Err e), w')
     end) /\
  (Py.startswith url "rtmp://" || Py.startswith url "rtmps://" = false ->
   resolve_hostname url w = (Some (Ok (Some url, None)), w)).
Proof.
  split_and!.
  - intros Hs.
    destruct (resolve_hostname_rtmp url w Hs) as (scheme & host & tail & ? & ? & ? & ? & _).
    by exists scheme, host, tail.
  - intros scheme host tail Hparts. cbv zeta.
    pose proof (resolve_hostname_parts url scheme host tail w Hparts) as Hrun.
    destruct Hparts as (Hscheme & Hurl & Hhost & Htail).
    destruct (gethostbyname host (os w)) as [[ip|e] s'] eqn:Hdns; simpl in *.
    + split; [done|]. intros Hne. rewrite Hurl at 1. by apply replace_url.
    + destruct (decide (exn_cls e = GaiError)).
      * split; [done|]. intros. by apply start_ffmpeg_resolution_error.
      * split; [done|]. intros. unfold start_ffmpeg, bind at 1. by rewrite Hrun.
  - apply resolve_hostname_other.
Qed.


End ResolveClaims.

Example resolve_known_host :
  (resolve_hostname "rtmps://stream.example.com/live/key" (Ex.fresh Ex.posix)).1
  = Some (Ok (Some "rtmps://203.0.113.7/live/key", None)).
Proof. vm_compute. reflexivity. Qed.

Example resolve_unknown_host :
  (resolve_hostname "rtmp://nowhere.invalid/live" (Ex.fresh Ex.posix)).1
  = Some (Ok (None, Some "Failed to resolve hostname: nowhere.invalid")).
Proof. vm_compute. reflexivity. Qed.

(** With a port the whole authority is taken for the hostname. *)
Example resolve_with_port :
  (resolve_hostname "rtmp://stream.example.com:1935/live" (Ex.fresh Ex.posix)).1
  = Some (Ok (None, Some "Failed to resolve hostname: stream.example.com:1935")).
Proof. vm_compute. reflexivity. Qed.

Example resolve_other_scheme_kept :
  resolve_hostname "srt://stream.example.com:9000" (Ex.fresh Ex.posix)
  = (Some (Ok (Some "srt://stream.example.com:9000", None)), Ex.fresh Ex.posix).
Proof. vm_compute. reflexivity. Qed.


Section ReplaceClaims.

Context {S : Type} `{OS S}.

Lemma replace_join s old new :
  old <> "" -> Py.replace s old new = Py.join new (Py.split s old).
Proof. intros Hold. rewrite replace_nonempty by done. apply replace_go_join. Qed.

Lemma join_split s old : old <> "" -> Py.join old (Py.split s old) = s.
Proof. intros Hold. unfold Py.split. by rewrite join_split_go, str_drop_0. Qed.

Lemma split_occurrence s old :
  old <> "" -> Py.contains s old = true -> (2 <= length (Py.split s old))%nat.
Proof.
  intros Hold Hc. unfold Py.split. pose proof (split_go_nonempty old 0 s) as Hne.
  destruct (Py.split_go old 0 s) as [|piece [|piece' pieces]] eqn:Hs; [done| |simpl; lia].
  by rewrite (split_go_single old s piece Hold Hs) in Hc.
Qed.

(** C10.  For a URL that begins with rtmp:// or rtmps:// and whose
    hostname the resolver answers with [ip], the result of
    [resolve_hostname] is the URL with every occurrence of the hostname
    replaced: cut at the occurrences of the hostname the scan finds, the URL
    falls into pieces none of which contains the hostname, and the result is
    these pieces joined with [ip].  The same holds of the part behind the
    authority on its own: it is rewritten as well, with at least one
    replacement when the hostname occurs in it.  (An empty hostname occurs
    at every position, and [ip] is put at every position.) *)
Theorem resolve_hostname_replaces_everywhere url scheme host tail ip (w : world S) :
  url_parts url scheme host tail ->
  (gethostbyname host (os w)).1 = Ok ip ->
  exists resolved w',
    resolve_hostname url w = (Some (Ok (Some resolved, None)), w') /\
    match host with
    | "" => resolved = Py.interleave ip url
    | _ =>
        url = Py.join host (Py.split url host) /\
        resolved = Py.join ip (Py.split url host) /\
        Forall (fun piece => Py.contains piece host = false) (Py.split url host) /\
        tail = Py.join host (Py.split tail host) /\
        resolved = Py.replace (scheme +:+ ":") host ip +:+ "//" +:+ ip
                     +:+ Py.join ip (Py.split tail host) /\
        (Py.contains tail host = true -> (2 <= length (Py.split tail host))%nat)
    end.
Proof.
  intros Hparts Hip.
  pose proof (resolve_hostname_parts url scheme host tail w Hparts) as Hrun.
  destruct Hparts as (Hscheme & Hurl & Hhost & Htail).
  rewrite Hip in Hrun. eexists _, _. split; [exact Hrun|].
  destruct host as [|c host]; [done|].
  set (h := String c host) in *. assert (h <> "") as Hne by done. clearbody h.
  split_and!.
  - by rewrite join_split.
  - by apply replace_join.
  - by apply split_go_pieces.
  - by rewrite join_split.
  - rewrite <- replace_join by done. rewrite Hurl at 1. by apply replace_url.
  - by apply split_occurrence.
Qed.

End ReplaceClaims.

(** The hostname in the path is rewritten as well, and so is one in the
    scheme. *)
Example resolve_rewrites_path :
  (resolve_hostname "rtmp://stream.example.com/live/stream.example.com/key"
     (Ex.fresh Ex.posix)).1
  = Some (Ok (Some "rtmp://203.0.113.7/live/203.0.113.7/key", None)).
Proof. vm_compute. reflexivity. Qed.

Example resolve_rewrites_scheme :
  (resolve_hostname "rtmp://tm/app"
     (Ex.fresh (Sim.Make [("tm", "10.0.0.1")] true [] true true true "" []))).1
  = Some (Ok (Some "r10.0.0.1p://10.0.0.1/app", None)).
Proof. vm_compute. reflexivity. Qed.

Lemma resolve_hostname_replaces_everywhere_witness :
  exists resolved w',
    resolve_hostname "rtmp://stream.example.com/live/stream.example.com/key"
      (Ex.fresh Ex.posix) = (Some (Ok (Some resolved, None)), w') /\
    "rtmp://stream.example.com/live/stream.example.com/key" =
      Py.join "stream.example.com"
        (Py.split "rtmp://stream.example.com/live/stream.example.com/key"
                  "stream.example.com") /\
    resolved =
      Py.join "203.0.113.7"
        (Py.split "rtmp://stream.example.com/live/stream.example.com/key"
                  "stream.example.com") /\
    Forall (fun piece => Py.contains piece "stream.example.com" = false)
      (Py.split "rtmp://stream.example.com/live/stream.example.com/key"
                "stream.example.com") /\
    "/live/stream.example.com/key" =
      Py.join "stream.example.com"
        (Py.split "/live/stream.example.com/key" "stream.example.com") /\
    resolved = Py.replace ("rtmp" +:+ ":") "stream.example.com" "203.0.113.7"
                 +:+ "//" +:+ "203.0.113.7"
                 +:+ Py.join "203.0.113.7"
                       (Py.split "/live/stream.example.com/key" "stream.example.com") /\
    (Py.contains "/live/stream.example.com/key" "stream.example.com" = true ->
     (2 <= length (Py.split "/live/stream.example.com/key" "stream.example.com"))%nat).
Proof.
  apply (resolve_hostname_replaces_everywhere
           "rtmp://stream.example.com/live/stream.example.com/key"
           "rtmp" "stream.example.com" "/live/stream.example.com/key" "203.0.113.7"
           (Ex.fresh Ex.posix)).
  - split_and!; [by left|reflexivity|simpl; intuition discriminate|right; by eexists].
  - reflexivity.
Defined.

Lemma resolve_hostname_spec_witness :
  Ex.start 8 "rtmp://nowhere.invalid/live" (Ex.fresh Ex.posix) =
    (Some (Ok ("Failed to resolve hostname: nowhere.invalid", "", "")),
     World None Ex.posix
       [EGethostbyname "nowhere.invalid"
          (Err (Exn GaiError "[Errno -2] Name or service not known"))]).
Proof.
  refine (proj2 (proj1 (proj2 (resolve_hostname_spec "rtmp://nowhere.invalid/live"
                                 (Ex.fresh Ex.posix)))
                   "rtmp" "nowhere.invalid" "/live" _) _ _ _ _ _ _ _ _).
  split_and!; [by left|reflexivity|simpl; intuition discriminate|right; by eexists].
Defined.

(** C4 as it is written fails: a resolution can fail with something else
    than [gaierror] (the resolver refuses a name with an empty label before
    any lookup), and then neither [resolve_hostname] nor [start_ffmpeg]
    returns the message; both raise. *)
Lemma resolve_hostname_not_gaierror :
  Py.startswith "rtmp://stream..example.com/live" "rtmp://" = true /\
  (gethostbyname "stream..example.com" (os Inputs.picky)).1 = Err Inputs.label_empty /\
  (resolve_hostname "rtmp://stream..example.com/live" Inputs.picky).1 =
    Some (Err Inputs.label_empty) /\
  (Inputs.launch 8 "rtmp://stream..example.com/live" Inputs.picky).1 =
    Some (Err Inputs.label_empty).
Proof. split_and!; vm_compute; reflexivity. Qed.

(** ** What the runs say about processes *)

Section RunFacts.

Lemma reads_no_popen p ls : Forall (fun e => is_popen e = false) (reads p ls).
Proof. unfold reads. apply Forall_fmap. by apply Forall_true. Qed.

Lemma reads_handle p ls : Forall (fun e => event_handle e = Some p) (reads p ls).
Proof. unfold reads. apply Forall_fmap. by apply Forall_true. Qed.

Lemma reads_observe live p ls : foldl observe live (reads p ls) = live.
Proof. unfold reads. induction ls as [|l ls IH]; [done|]. by rewrite fmap_cons. Qed.

Lemma resolve_run_events url evs r :
  resolve_run url evs r ->
  Forall (fun e => is_popen e = false /\ event_handle e = None /\
                   forall live, observe live e = live) evs.
Proof. intros []; repeat constructor. Qed.

Lemma resolve_run_no_popen url evs r :
  resolve_run url evs r -> Forall (fun e => is_popen e = false) evs.
Proof. intros Hr. eapply Forall_impl; [by eapply resolve_run_events|]. by intros ? (? & _). Qed.

Lemma resolve_run_observe url evs r live :
  resolve_run url evs r -> foldl observe live evs = live.
Proof. intros []; done. Qed.

Lemma guard_pass_no_popen old g : guard_pass old g -> Forall (fun e => is_popen e = false) g.
Proof. intros []; repeat constructor. Qed.

(** A run of the [try] statement either starts no process and leaves the
    handle, or passes the guard, calls [Popen] once and goes on with the
    process returned. *)
Lemma launch_run_popen fuel old command command_str evs r h :
  launch_run fuel old command command_str evs r h ->
  (Forall (fun e => is_popen e = false) evs /\ h = old) \/
  (exists g rp post,
     evs = g ++ EPopen command rp :: post /\ guard_pass old g /\
     Forall (fun e => is_popen e = false) post /\
     match rp with
     | Ok p => h = Some p /\ Forall (fun e => event_handle e = Some p) post
     | Err _ => h = old /\ post = []
     end).
Proof.
  intros [c cs q e ->|c cs q ->|c cs g e Hg|c cs g p ls Hg Hls Hn|c cs g p ls e Hg Hls Hn
         |c cs g p ls e Hg Hls Hn|c cs g p ls rc Hg Hls Hn].
  - left. by repeat constructor.
  - left. by repeat constructor.
  - right. by exists g, (Err e), [].
  - right. exists g, (Ok p), (reads p ls). split_and!; try done.
    + apply reads_no_popen.
    + apply reads_handle.
  - right. exists g, (Ok p), (reads p ls ++ [EReadline p (Err e)]). split_and!; try done.
    + apply Forall_app. split; [apply reads_no_popen|by repeat constructor].
    + apply Forall_app. split; [apply reads_handle|by repeat constructor].
  - right. exists g, (Ok p), (reads p ls ++ [EReadline p (Ok ""); EPoll p (Err e)]).
    split_and!; try done.
    + apply Forall_app. split; [apply reads_no_popen|by repeat constructor].
    + apply Forall_app. split; [apply reads_handle|by repeat constructor].
  - right. exists g, (Ok p), (reads p ls ++ [EReadline p (Ok ""); EPoll p (Ok rc)]).
    split_and!; try done.
    + apply Forall_app. split; [apply reads_no_popen|by repeat constructor].
    + apply Forall_app. split; [apply reads_handle|by repeat constructor].
Qed.

(** The command string returned is the one built. *)
Lemma launch_run_command_str fuel old command command_str evs output logs c h :
  launch_run fuel old command command_str evs (Some (Ok (output, logs, c))) h ->
  c = command_str.
Proof. inversion 1; by subst. Qed.

(** Every entry is about the handle before or the handle after. *)
Lemma launch_run_handles fuel old command command_str evs r h :
  launch_run fuel old command command_str evs r h ->
  Forall (fun e => forall p, event_handle e = Some p -> old = Some p \/ h = Some p) evs.
Proof.
  assert (forall g, guard_pass old g ->
    Forall (fun e => forall p, event_handle e = Some p -> old = Some p \/ h = Some p) g)
    as Hguard.
  { intros g []; [by constructor|]. apply Forall_cons. split; [|by constructor].
    simpl. intros ? [= <-]. auto. }
  assert (forall p ls, h = Some p ->
    Forall (fun e => forall p, event_handle e = Some p -> old = Some p \/ h = Some p)
           (reads p ls)) as Hreads.
  { intros p ls ->. eapply Forall_impl; [apply reads_handle|].
    simpl. intros e He q. rewrite He. intros [= <-]. auto. }
  intros Hrun. destruct Hrun;
    repeat first [apply Forall_app; split | apply Forall_cons; split | apply Forall_nil];
    try (by apply Hguard); try (by apply Hreads);
    first [done | simpl; intros ? [= <-]; auto | by simpl; intros ? [=]].
Qed.

(** The children that may be running stay within the handle. *)
Lemma launch_run_tracked fuel old command command_str evs r h live :
  launch_run fuel old command command_str evs r h ->
  live ⊆ handle_set old ->
  foldl observe live evs ⊆ handle_set h.
Proof.
  intros Hrun Hlive.
  assert (forall g, guard_pass old g -> foldl observe live g ⊆ ∅) as Hguard.
  { revert Hlive. clear. intros Hlive g Hg. destruct Hg; simpl in *; set_solver. }
  destruct Hrun as [c cs q e ->|c cs q ->|c cs g e Hg|c cs g p ls Hg Hls Hn
         |c cs g p ls e Hg Hls Hn|c cs g p ls e Hg Hls Hn|c cs g p ls rc Hg Hls Hn];
    try specialize (Hguard g Hg);
    rewrite ?foldl_app; simpl; rewrite ?foldl_app, ?reads_observe; simpl; try set_solver.
  destruct rc; set_solver.
Qed.

Lemma stop_run_tracked p evs msg live :
  stop_run p evs (Ok msg) ->
  msg = "Stream stopped." \/ msg = forced_msg ->
  live ⊆ {[p]} ->
  foldl observe live evs ⊆ ∅.
Proof.
  intros Hrun Hmsg Hlive. inversion Hrun; subst; simpl; try set_solver.
  all: by destruct Hmsg.
Qed.

Lemma stop_run_handles p evs r :
  stop_run p evs r -> Forall (fun e => event_handle e = Some p) evs.
Proof. intros []; by repeat constructor. Qed.

(** Where the single [Popen] of a list sits. *)
Lemma popen_position (l1 l2 l1' l2' : list event) x y :
  Forall (fun e => is_popen e = false) l1 ->
  Forall (fun e => is_popen e = false) l2 ->
  is_popen y = true ->
  l1 ++ x :: l2 = l1' ++ y :: l2' ->
  l1 = l1' /\ x = y /\ l2 = l2'.
Proof.
  intros H1 H2 Hy. revert l1' H1. induction l1 as [|a l1 IH]; intros l1' H1 Heq.
  - destruct l1' as [|b l1']; simpl in *.
    + by injection Heq as -> ->.
    + injection Heq as -> ->.
      apply Forall_app in H2 as [_ H2]. apply Forall_cons in H2 as [H2 _]. congruence.
  - apply Forall_cons in H1 as [Ha H1]. destruct l1' as [|b l1']; simpl in *.
    + injection Heq as -> _. congruence.
    + injection Heq as -> Heq. destruct (IH l1' H1 Heq) as (-> & -> & ->). done.
Qed.

End RunFacts.

(** ** Claims about [start_ffmpeg] *)

Section StartClaims.

Context {S : Type} `{OS S}.

Lemma check_ffmpeg_protocols_run (w : world S) :
  exists r s',
    (check_ffmpeg_protocols w).2 =
      World (ffmpeg_process w) s' (log w ++ [ERun ["ffmpeg"; "-protocols"] r]).
Proof.
  unfold check_ffmpeg_protocols, try_except, bind. rewrite os_call_run.
  destruct (run_stdout ["ffmpeg"; "-protocols"] (os w)) as [[out|e] s'] eqn:Hrun; simpl.
  - eexists _, _. by destruct (Py.contains out "rtmps").
  - by eexists _, _.
Qed.

Lemma possibly_running_app (l evs : list event) :
  possibly_running (l ++ evs) = foldl observe (possibly_running l) evs.
Proof. unfold possibly_running. by rewrite foldl_app. Qed.

Lemma tracked_size (w : world S) :
  tracked w -> (size (possibly_running (log w)) <= 1)%nat.
Proof.
  unfold tracked. intros Ht. apply subseteq_size in Ht.
  destruct (ffmpeg_process w); unfold handle_set in Ht.
  - by rewrite size_singleton in Ht.
  - rewrite size_empty in Ht. lia.
Qed.

Lemma start_run_tracked fuel video_url logo_url overlay_settings enable_logo
    resolution rtmp_url fps audio_option old evs r h live :
  start_run fuel video_url logo_url overlay_settings enable_logo resolution
    rtmp_url fps audio_option old evs r h ->
  live ⊆ handle_set old ->
  foldl observe live evs ⊆ handle_set h.
Proof.
  intros [evs' e Hr|evs' msg Hr|evs' u e Hr Hb|evs' u c cs evs'' r' h' Hr Hb Hl] Hlive;
    rewrite ?foldl_app, (resolve_run_observe _ _ _ _ Hr); try done.
  by eapply launch_run_tracked.
Qed.

(** The only [Popen] of a run comes behind a guard that passed. *)
Lemma start_run_popen fuel video_url logo_url overlay_settings enable_logo
    resolution rtmp_url fps audio_option old evs r h argv rp :
  start_run fuel video_url logo_url overlay_settings enable_logo resolution
    rtmp_url fps audio_option old evs r h ->
  EPopen argv rp ∈ evs ->
  exists u command_str pre g post,
    build_ffmpeg_command video_url logo_url overlay_settings enable_logo
      resolution u fps audio_option = Ok (argv, command_str) /\
    evs = pre ++ g ++ EPopen argv rp :: post /\
    guard_pass old g /\
    Forall (fun e => is_popen e = false) (pre ++ g ++ post) /\
    Forall (fun e => forall p, event_handle e = Some p -> rp = Ok p) post /\
    (forall output logs c, r = Some (Ok (output, logs, c)) -> c = command_str).
Proof.
  assert (forall l, Forall (fun e => is_popen e = false) l -> EPopen argv rp ∈ l -> False)
    as Hno.
  { intros l Hl Hin. rewrite Forall_forall in Hl. by specialize (Hl _ Hin). }
  intros [evs' e Hr|evs' msg Hr|evs' u e Hr Hb|evs' u c cs evs'' r' h' Hr Hb Hl] Hin;
    try (by destruct (Hno _ (resolve_run_no_popen _ _ _ Hr) Hin)).
  apply elem_of_app in Hin as [Hin|Hin];
    [by destruct (Hno _ (resolve_run_no_popen _ _ _ Hr) Hin)|].
  destruct (launch_run_popen _ _ _ _ _ _ _ Hl)
    as [[Hnone _]|(g & rp' & post & -> & Hg & Hpost & Hrp)];
    [by destruct (Hno _ Hnone Hin)|].
  apply elem_of_app in Hin as [Hin|Hin];
    [by destruct (Hno _ (guard_pass_no_popen _ _ Hg) Hin)|].
  apply elem_of_cons in Hin as [[= <- <-]|Hin]; [|by destruct (Hno _ Hpost Hin)].
  exists u, cs, evs', g, post. split_and!; try done.
  - rewrite !Forall_app. split_and!; try done.
    + by eapply resolve_run_no_popen.
    + by eapply guard_pass_no_popen.
  - destruct rp as [p|e]; destruct Hrp as [-> Hpost'].
    + eapply Forall_impl; [exact Hpost'|]. simpl. intros e -> q [= ->]. done.
    + subst. constructor.
  - intros output logs c' ->. by eapply launch_run_command_str.
Qed.

Lemma run_op_tracked (o : operation) (w : world S) :
  tracked w -> orderly o w -> tracked (run_op o w).
Proof.
  unfold tracked. intros Ht Ho.
  destruct o as [url| |fuel video_url logo_url overlay_settings enable_logo
                        resolution rtmp_url fps audio_option| |]; simpl run_op.
  - destruct (resolve_hostname_run url w) as (evs & r & s' & -> & Hr). simpl.
    by rewrite possibly_running_app, (resolve_run_observe _ _ _ _ Hr).
  - done.
  - destruct (start_ffmpeg_run fuel video_url logo_url overlay_settings enable_logo
                resolution rtmp_url fps audio_option w)
      as (evs & r & h & s' & -> & Hstart). simpl.
    rewrite possibly_running_app. by eapply start_run_tracked.
  - destruct (Ho eq_refl) as (msg & Hmsg & Hreg).
    destruct (ffmpeg_process w) as [p|] eqn:Hp.
    + destruct (stop_ffmpeg_set w p Hp) as (r & s' & evs & Hrun & Hr).
      rewrite Hrun in *. simpl in *. injection Hmsg as ->.
      rewrite possibly_running_app. eapply stop_run_tracked; [done| |done].
      destruct Hreg as [?|[?| ->]]; [by left|by right|by inversion Hr].
    + rewrite stop_ffmpeg_unset by done. simpl. by rewrite Hp.
  - destruct (check_ffmpeg_protocols_run w) as (r & s' & ->). simpl.
    by rewrite possibly_running_app.
Qed.

Lemma reachable_tracked (w : world S) : reachable w -> tracked w.
Proof.
  induction 1 as [s|o w Hw IH Ho]; [done|]. by apply run_op_tracked.
Qed.

(** C2, as amended.  (1) When [resolve_hostname] has returned a URL, the
    command is built, the handle is set and its [poll()] returns [None],
    [start_ffmpeg] returns the already-running message with the command
    string built, leaves the handle, and adds to the log of
    [resolve_hostname] (which holds no [Popen]) the one [poll()].  (2) In
    every call a [Popen] is made at most once, and directly behind a guard
    that found no handle or a return code; so a call never starts a process
    beside one the handle refers to and [poll()] reports running: if before
    the call every child that may be running is the one the handle refers
    to, this is so after the call, and there is at most one. *)
Theorem start_ffmpeg_single_stream fuel video_url logo_url overlay_settings
    enable_logo resolution rtmp_url fps audio_option (w : world S) :
  (forall u w1 command command_str q,
     resolve_hostname rtmp_url w = (Some (Ok (Some u, None)), w1) ->
     build_ffmpeg_command video_url logo_url overlay_settings enable_logo
       resolution u fps audio_option = Ok (command, command_str) ->
     ffmpeg_process w = Some q ->
     (poll q (os w1)).1 = Ok None ->
     start_ffmpeg fuel video_url logo_url overlay_settings enable_logo
       resolution rtmp_url fps audio_option w =
       (Some (Ok (already_running_msg, "", command_str)),
        World (Some q) (poll q (os w1)).2 (log w1 ++ [EPoll q (Ok None)])) /\
     exists evs, log w1 = log w ++ evs /\ Forall (fun e => is_popen e = false) evs) /\
  (exists evs r h s',
     start_ffmpeg fuel video_url logo_url overlay_settings enable_logo
       resolution rtmp_url fps audio_option w = (r, World h s' (log w ++ evs)) /\
     (forall argv rp,
        EPopen argv rp ∈ evs ->
        exists pre g post,
          evs = pre ++ g ++ EPopen argv rp :: post /\
          guard_pass (ffmpeg_process w) g /\
          Forall (fun e => is_popen e = false) (pre ++ g ++ post)) /\
     (tracked w ->
      tracked (World h s' (log w ++ evs)) /\
      (size (possibly_running (log w ++ evs)) <= 1)%nat)).
Proof.
  split.
  - intros u w1 command command_str q Hres Hbuild Hq Hpoll.
    destruct (resolve_hostname_run rtmp_url w) as (evs & r & s1 & Hrun & Hr).
    rewrite Hres in Hrun. injection Hrun as <- ->.
    split; [|exists evs; split; [done|by eapply resolve_run_no_popen]].
    unfold start_ffmpeg, bind at 1. rewrite Hres. simpl.
    unfold bind at 1, lift. rewrite Hbuild.
    unfold start_ffmpeg_try, try_except, bind, get_ffmpeg_process, ret. simpl.
    rewrite Hq, os_call_run. simpl in *.
    destruct (poll q s1) as [rp s2]. simpl in *. by subst rp.
  - destruct (start_ffmpeg_run fuel video_url logo_url overlay_settings enable_logo
                resolution rtmp_url fps audio_option w)
      as (evs & r & h & s' & Hrun & Hstart).
    exists evs, r, h, s'. split_and!; [done| |].
    + intros argv rp Hin.
      destruct (start_run_popen _ _ _ _ _ _ _ _ _ _ _ _ _ _ _ Hstart Hin)
        as (u & cs & pre & g & post & _ & Hevs & Hg & Hno & _).
      by exists pre, g, post.
    + intros Ht.
      assert (tracked (World h s' (log w ++ evs))) as Ht'.
      { unfold tracked in *. simpl. rewrite possibly_running_app.
        by eapply start_run_tracked. }
      split; [done|]. by apply (tracked_size _ Ht').
Qed.

(** A [stop_ffmpeg] that has seen the child exit keeps the children that may
    be running within the handle. *)
Lemma stop_ffmpeg_tracked (w : world S) msg w' :
  stop_ffmpeg w = (Some (Ok msg), w') ->
  msg = "Stream stopped." \/ msg = forced_msg ->
  tracked w -> tracked w'.
Proof.
  intros Hstop Hmsg Ht.
  destruct (ffmpeg_process w) as [p|] eqn:Hp.
  - destruct (stop_ffmpeg_set w p Hp) as (r & s' & evs & Hrun & Hr).
    rewrite Hstop in Hrun. injection Hrun as <- ->.
    unfold tracked in *. simpl. rewrite possibly_running_app, Hp in *.
    by eapply stop_run_tracked.
  - rewrite stop_ffmpeg_unset in Hstop by done. by injection Hstop as _ <-.
Qed.

End StartClaims.

Lemma start_ffmpeg_single_stream_witness :
  exists command_str w1,
    Ex.start 8 "rtmp://stream.example.com/live/other" (Ex.streaming Ex.posix) =
      (Some (Ok (already_running_msg, "", command_str)),
       World (Some 0%nat) (poll 0%nat (os w1)).2 (log w1 ++ [EPoll 0%nat (Ok None)])).
Proof.
  eexists _, _.
  eapply (proj1 (start_ffmpeg_single_stream 8 _ _ _ _ _
                   "rtmp://stream.example.com/live/other" _ _ (Ex.streaming Ex.posix)));
    vm_compute; reflexivity.
Defined.

(** C2 as it is written fails.  With a child running ([poll()] is [None])
    and a destination whose hostname does not resolve, [start_ffmpeg]
    returns the resolution error with an empty command string, not the
    already-running message with the command string built; with an audio
    option that cannot be unpacked it raises.  And more than one child can
    be running: each run of the page begins by resetting the handle, so
    "Run Command" pressed in two runs starts two children, the second while
    the first is running. *)
Lemma start_ffmpeg_guard_passed_by :
  ffmpeg_process (Ex.streaming Ex.posix) = Some 0%nat /\
  (poll 0%nat (os (Ex.streaming Ex.posix))).1 = Ok None /\
  (Ex.start 8 "rtmp://nowhere.invalid/live" (Ex.streaming Ex.posix)).1 =
    Some (Ok ("Failed to resolve hostname: nowhere.invalid", "", "")) /\
  "Failed to resolve hostname: nowhere.invalid" <> already_running_msg /\
  (start_ffmpeg 8 "in.m3u8" "logo.png" "overlay=0:0" false "720p"
     "rtmp://stream.example.com/live/key" 30 "stereo" (Ex.streaming Ex.posix)).1 =
    Some (Err (Exn ValueError "not enough values to unpack (expected 2, got 1)")) /\
  (let w1 := (Page.script 8 Inputs.run_click (Ex.fresh Ex.posix)).2 in
   let w2 := (Page.script 8 Inputs.run_click w1).2 in
   Sim.running (os w1) = [0%nat] /\
   Sim.running (os w2) = [0%nat; 1%nat] /\
   ffmpeg_process w2 = Some 1%nat).
Proof.
  split_and!; try (vm_compute; reflexivity); try discriminate.
  cbv zeta. split_and!; vm_compute; reflexivity.
Qed.

(** A [stop_ffmpeg] that cannot send the signal forgets a child it has not
    seen exit, and the next [start_ffmpeg] starts a second one. *)
Example stop_failure_forgets_child :
  let w1 := Ex.streaming Ex.windows in
  let w2 := (stop_ffmpeg w1).2 in
  let w3 := (Ex.start 8 "rtmp://stream.example.com/live/key" w2).2 in
  (stop_ffmpeg w1).1 =
    Some (Ok "An error occurred while stopping the stream: Unsupported signal: 2") /\
  ffmpeg_process w2 = None /\
  Sim.running (os w3) = [0%nat; 1%nat] /\
  size (possibly_running (log w3)) = 2%nat.
Proof. vm_compute. auto. Qed.

(** ** [strip] and its specification *)

Section Strip.

Implicit Types s t line : string.

Lemma all_space_app s t :
  Py.all_space (s +:+ t) = Py.all_space s && Py.all_space t.
Proof.
  induction s as [|c s IH]; [done|].
  rewrite str_app_cons. simpl. by rewrite IH, andb_assoc.
Qed.

Lemma lstrip_spec s :
  exists before,
    s = before +:+ Py.lstrip s /\ Py.all_space before = true /\
    Py.begins_with_space (Py.lstrip s) = false.
Proof.
  induction s as [|c s (before & Hs & Hb & Hl)]; [by exists ""|].
  simpl. destruct (Py.isspace c) eqn:Hc.
  - exists (String c before). rewrite str_app_cons, <- Hs. simpl. by rewrite Hc.
  - exists "". simpl. by rewrite Hc.
Qed.

Lemma rstrip_spec s :
  exists after,
    s = Py.rstrip s +:+ after /\ Py.all_space after = true /\
    Py.ends_with_space (Py.rstrip s) = false.
Proof.
  induction s as [|c s (after & Hs & Ha & Hr)]; [by exists ""|].
  cbn [Py.rstrip]. destruct (Py.rstrip s) as [|d r] eqn:Hrs.
  - rewrite str_app_nil_l in Hs. subst after.
    destruct (Py.isspace c) eqn:Hc.
    + exists (String c s). simpl. by rewrite Hc, Ha.
    + exists s. simpl. by rewrite Hc.
  - exists after. rewrite !str_app_cons, <- str_app_cons, <- Hs. done.
Qed.

Lemma rstrip_begins s :
  Py.begins_with_space s = false -> Py.begins_with_space (Py.rstrip s) = false.
Proof.
  destruct s as [|c s]; [done|]. cbn [Py.rstrip]. simpl. intros Hc.
  destruct (Py.rstrip s); [by rewrite Hc|done].
Qed.

(** [strip] returns what the specification asks for. *)
Lemma strip_spec line : Py.stripped_of line (Py.strip line).
Proof.
  unfold Py.strip.
  destruct (lstrip_spec line) as (before & Hline & Hb & Hl).
  destruct (rstrip_spec (Py.lstrip line)) as (after & Hs & Ha & Hr).
  exists before, after. split_and!; try done.
  - by rewrite <- Hs.
  - by apply rstrip_begins.
Qed.

Lemma lstrip_all_space s t : Py.all_space s = true -> Py.lstrip (s +:+ t) = Py.lstrip t.
Proof.
  induction s as [|c s IH]; [done|]. cbn [Py.all_space]. intros [Hc Hs]%andb_prop.
  rewrite str_app_cons. cbn [Py.lstrip]. rewrite Hc. by apply IH.
Qed.

Lemma lstrip_begins s : Py.begins_with_space s = false -> s <> "" -> Py.lstrip s = s.
Proof. destruct s as [|c s]; [done|]. simpl. by intros ->. Qed.

Lemma rstrip_all_space s : Py.all_space s = true -> Py.rstrip s = "".
Proof.
  induction s as [|c s IH]; [done|]. simpl. intros [Hc Hs]%andb_prop.
  by rewrite IH, Hc.
Qed.

Lemma rstrip_ends t s :
  t <> "" -> Py.ends_with_space t = false -> Py.all_space s = true ->
  Py.rstrip (t +:+ s) = t.
Proof.
  induction t as [|c t IH]; [done|]. intros _ He Hs.
  rewrite str_app_cons. cbn [Py.rstrip]. destruct t as [|d t].
  - rewrite str_app_nil_l, rstrip_all_space by done. simpl in He. by rewrite He.
  - rewrite IH by done. done.
Qed.

(** The specification has one answer: it says what [strip] returns. *)
Lemma stripped_of_strip line t : Py.stripped_of line t -> t = Py.strip line.
Proof.
  intros (before & after & -> & Hb & Ha & Ht & He). unfold Py.strip.
  rewrite lstrip_all_space by done. destruct t as [|c t].
  - rewrite str_app_nil_l.
    destruct (lstrip_spec after) as (b' & Hafter & Hb' & _).
    assert (Py.all_space (Py.lstrip after) = true) as Hl.
    { rewrite Hafter, all_space_app in Ha. by apply andb_prop in Ha as [_ ?]. }
    by rewrite rstrip_all_space.
  - rewrite lstrip_begins; [|by rewrite str_app_cons|by rewrite str_app_cons].
    by rewrite rstrip_ends.
Qed.

End Strip.

Section FuelClaims.

Context {S : Type} `{OS S}.

Lemma refines_refl {A} (m : M S A) : refines m m.
Proof. by intros w r w'. Qed.

Lemma refines_bind {A B} (m m' : M S A) (k k' : A -> M S B) :
  refines m m' -> (forall a, refines (k a) (k' a)) -> refines (bind m k) (bind m' k').
Proof.
  intros Hm Hk w r w'. unfold bind.
  destruct (m w) as [[[a|e]|] w1] eqn:Hmw; [| |done].
  - rewrite (Hm _ _ _ Hmw). apply Hk.
  - by rewrite (Hm _ _ _ Hmw).
Qed.

Lemma refines_try_except {A} (m m' : M S A) handler :
  refines m m' -> refines (try_except m handler) (try_except m' handler).
Proof.
  intros Hm w r w'. unfold try_except.
  destruct (m w) as [[[a|e]|] w1] eqn:Hmw; [| |done]; by rewrite (Hm _ _ _ Hmw).
Qed.

Lemma read_stderr_more_fuel fuel k p logs :
  refines (read_stderr fuel p logs) (read_stderr (fuel + k) p logs).
Proof.
  revert logs. induction fuel as [|fuel IH]; intros logs w r w'; [done|].
  change (Datatypes.S fuel + k)%nat with (Datatypes.S (fuel + k)).
  rewrite !read_stderr_S. cbv zeta.
  destruct (stderr_readline p (os w)).1; [|done].
  case_bool_decide; [done|]. apply IH.
Qed.

Lemma start_ffmpeg_more_fuel fuel k video_url logo_url overlay_settings enable_logo
    resolution rtmp_url fps audio_option :
  refines
    (start_ffmpeg fuel video_url logo_url overlay_settings enable_logo
       resolution rtmp_url fps audio_option)
    (start_ffmpeg (fuel + k) video_url logo_url overlay_settings enable_logo
       resolution rtmp_url fps audio_option).
Proof.
  unfold start_ffmpeg. apply refines_bind; [apply refines_refl|].
  intros [u error]. destruct (truthy_opt error); [apply refines_refl|].
  apply refines_bind; [apply refines_refl|]. intros [command command_str].
  unfold start_ffmpeg_try. apply refines_try_except.
  apply refines_bind; [apply refines_refl|]. intros old.
  apply refines_bind; [apply refines_refl|]. intros [|]; [apply refines_refl|].
  apply refines_bind; [apply refines_refl|]. intros p.
  apply refines_bind; [apply refines_refl|]. intros _.
  apply refines_bind; [apply read_stderr_more_fuel|]. intros logs. apply refines_refl.
Qed.

(** C3, as amended.  Take a call of [start_ffmpeg] in which [Popen] returned
    a process [p].  The handle is [p], and what follows [Popen] in the log
    is a sequence of reads of the standard error of [p], one line each.
    While every read has given a line the call has not returned.  When it
    has returned, the lines were followed by a read that gave the empty
    string (end of file) or by a read that raised.  After the end of file
    comes one [poll()], and if that returns, the call reports success, with
    the logs being the lines read, each stripped of the white space at its
    two ends, joined with line feeds, and with the command string of the
    vector passed to [Popen].  When a read or the [poll()] raises, the call
    returns "An error occurred: " and the exception at once, with empty
    logs, wherever the stream is.  A result, once there, is the same for
    every larger fuel. *)
Theorem start_ffmpeg_reads_until_eof fuel video_url logo_url overlay_settings
    enable_logo resolution rtmp_url fps audio_option (w w' : world S) r
    pre argv p post :
  start_ffmpeg fuel video_url logo_url overlay_settings enable_logo
    resolution rtmp_url fps audio_option w = (r, w') ->
  log w' = log w ++ pre ++ EPopen argv (Ok p) :: post ->
  ffmpeg_process w' = Some p /\
  exists ls,
    Forall (fun l => l <> "") ls /\
    match r with
    | None => post = reads p ls /\ length ls = fuel
    | Some res =>
        (length ls < fuel)%nat /\
        (forall k,
           start_ffmpeg (fuel + k) video_url logo_url overlay_settings enable_logo
             resolution rtmp_url fps audio_option w = (r, w')) /\
        exists last rest,
          post = reads p ls ++ EReadline p last :: rest /\
          match last with
          | Ok line =>
              line = "" /\
              exists r_poll,
                rest = [EPoll p r_poll] /\
                match r_poll with
                | Ok rc =>
                    exists logs,
                      Forall2 Py.stripped_of ls logs /\
                      res = Ok (launch_output rc, Py.join Py.nl logs, Py.join " " argv)
                | Err e => res = Ok (error_output e, "", Py.join " " argv)
                end
          | Err e => rest = [] /\ res = Ok (error_output e, "", Py.join " " argv)
          end
    end.
Proof.
  intros Hcall Hlog.
  destruct (start_ffmpeg_run fuel video_url logo_url overlay_settings enable_logo
              resolution rtmp_url fps audio_option w)
    as (evs & r' & h & s' & Hrun & Hstart).
  rewrite Hcall in Hrun. injection Hrun as <- ->. simpl in Hlog.
  apply app_inv_head in Hlog. rename Hlog into Hevs. simpl.
  assert (forall res k,
            r = Some res ->
            start_ffmpeg (fuel + k) video_url logo_url overlay_settings enable_logo
              resolution rtmp_url fps audio_option w =
              (r, World h s' (log w ++ evs))) as Hmore.
  { intros res k ->. by apply start_ffmpeg_more_fuel. }
  assert (forall l, Forall (fun e => is_popen e = false) l ->
                    l = pre ++ EPopen argv (Ok p) :: post -> False) as Hno.
  { intros l Hl ->. apply Forall_app in Hl as [_ Hl]. by apply Forall_cons in Hl as [? _]. }
  destruct Hstart as [evs' e Hr|evs' msg Hr|evs' u e Hr Hb|evs' u c cs evs'' r' h' Hr Hb Hl];
    try (by destruct (Hno _ (resolve_run_no_popen _ _ _ Hr) Hevs)).
  pose proof (resolve_run_no_popen _ _ _ Hr) as Hpre.
  assert (cs = Py.join " " c) as Hcs.
  { revert Hb. unfold build_ffmpeg_command.
    destruct (if bool_decide (audio_option = "Copy Audio from File") then _ else _);
      [|done]. by intros [= <- <-]. }
  assert (forall g rp post',
    guard_pass (ffmpeg_process w) g ->
    Forall (fun e => is_popen e = false) post' ->
    evs' ++ g ++ EPopen c rp :: post' = pre ++ EPopen argv (Ok p) :: post ->
    c = argv /\ rp = Ok p /\ post' = post) as Hpos.
  { intros g rp post' Hg Hpost Heq. rewrite app_assoc in Heq.
    apply popen_position in Heq as (_ & [= -> ->] & ->); try done.
    apply Forall_app. split; [done|by eapply guard_pass_no_popen]. }
  destruct Hl as [c cs q e ->|c cs q ->|c cs g e Hg|c cs g p' ls Hg Hls Hn
         |c cs g p' ls e Hg Hls Hn|c cs g p' ls e Hg Hls Hn|c cs g p' ls rc Hg Hls Hn].
  - destruct (Hno (evs' ++ [EPoll q (Err e)])); [|done].
    apply Forall_app. split; [done|by repeat constructor].
  - destruct (Hno (evs' ++ [EPoll q (Ok None)])); [|done].
    apply Forall_app. split; [done|by repeat constructor].
  - by destruct (Hpos g (Err e) [] Hg) as (_ & ? & _); [constructor|done|].
  - destruct (Hpos g (Ok p') (reads p' ls) Hg) as (-> & [= ->] & <-);
      [apply reads_no_popen|done|].
    split; [done|]. by exists ls.
  - destruct (Hpos g (Ok p') (reads p' ls ++ [EReadline p' (Err e)]) Hg)
      as (-> & [= ->] & <-);
      [apply Forall_app; split; [apply reads_no_popen|by repeat constructor]|done|].
    subst cs. split; [done|]. exists ls. split; [done|]. split; [done|].
    split; [intros k; by eapply Hmore|]. by exists (Err e), [].
  - destruct (Hpos g (Ok p') (reads p' ls ++ [EReadline p' (Ok ""); EPoll p' (Err e)]) Hg)
      as (-> & [= ->] & <-);
      [apply Forall_app; split; [apply reads_no_popen|by repeat constructor]|done|].
    subst cs. split; [done|]. exists ls. split; [done|]. split; [done|].
    split; [intros k; by eapply Hmore|].
    exists (Ok ""), [EPoll p (Err e)]. split; [done|]. split; [done|].
    by exists (Err e).
  - destruct (Hpos g (Ok p') (reads p' ls ++ [EReadline p' (Ok ""); EPoll p' (Ok rc)]) Hg)
      as (-> & [= ->] & <-);
      [apply Forall_app; split; [apply reads_no_popen|by repeat constructor]|done|].
    subst cs. split; [done|]. exists ls. split; [done|]. split; [done|].
    split; [intros k; by eapply Hmore|].
    exists (Ok ""), [EPoll p (Ok rc)]. split; [done|]. split; [done|].
    exists (Ok rc). split; [done|]. exists (Py.strip <$> ls). split; [|done].
    apply Forall2_fmap_r, Forall_Forall2_diag, Forall_true. apply strip_spec.
Qed.

End FuelClaims.

(** With fuel for two reads the call is still in its loop; with enough fuel
    it returns the four lines stripped and joined. *)
Example start_reads_script :
  (Ex.start 2 "rtmp://stream.example.com/live/key" (Ex.fresh Ex.posix)).1 = None /\
  (Ex.start 5 "rtmp://stream.example.com/live/key" (Ex.fresh Ex.posix)).1 =
    Some (Ok ("Command executed successfully." +:+ Py.nl +:+ "Streaming in progress...",
              "ffmpeg version 6.0" +:+ Py.nl +:+ Py.nl +:+ "frame=   25 fps= 25"
                +:+ Py.nl +:+ "muxing done",
              Py.join " " ["ffmpeg"; "-re"; "-y"; "-i";
                "https://kbsworld-ott.akamaized.net/hls/live/2002341/kbsworld/master.m3u8";
                "-i"; "https://i.ibb.co/YcPZxsn/logo.png"; "-filter_complex";
                "[1]scale=iw*0.6:-1[wm];[0][wm]overlay=W-w-45:37"; "-s"; "1280x720";
                "-r"; "30"; "-c:a"; "copy"; "-ar"; "44100"; "-pix_fmt"; "yuv420p";
                "-tune"; "zerolatency"; "-maxrate"; "2000k"; "-preset"; "veryfast";
                "-vcodec"; "libx264"; "-ab"; "128k"; "-vb"; "660k"; "-f"; "flv";
                "rtmp://203.0.113.7/live/key"])).
Proof. split; vm_compute; reflexivity. Qed.

Lemma start_ffmpeg_reads_until_eof_witness :
  ffmpeg_process (Inputs.launch 5 "rtmp://stream.example.com/live/key" (Ex.fresh Ex.posix)).2
    = Some 0%nat /\
  exists ls,
    Forall (fun l => l <> "") ls /\
    (length ls < 5)%nat /\
    (forall k,
       start_ffmpeg (5 + k)
         "https://kbsworld-ott.akamaized.net/hls/live/2002341/kbsworld/master.m3u8"
         "https://i.ibb.co/YcPZxsn/logo.png" "overlay=W-w-45:37" true "720p"
         "rtmp://stream.example.com/live/key" 30 "Copy Audio from File"
         (Ex.fresh Ex.posix) =
         (Some (Ok ("Command executed successfully." +:+ Py.nl +:+ "Streaming in progress...",
                    "ffmpeg version 6.0" +:+ Py.nl +:+ Py.nl +:+ "frame=   25 fps= 25"
                      +:+ Py.nl +:+ "muxing done",
                    Py.join " " Cases.default_command)),
          (Inputs.launch 5 "rtmp://stream.example.com/live/key" (Ex.fresh Ex.posix)).2)) /\
    exists last rest,
      (EReadline 0%nat <$> (Ok <$> Ex.script)) ++ [EReadline 0%nat (Ok ""); EPoll 0%nat (Ok None)]
        = reads 0%nat ls ++ EReadline 0%nat last :: rest /\
      match last with
      | Ok line =>
          line = "" /\
          exists r_poll,
            rest = [EPoll 0%nat r_poll] /\
            match r_poll with
            | Ok rc =>
                exists logs,
                  Forall2 Py.stripped_of ls logs /\
                  Ok ("Command executed successfully." +:+ Py.nl +:+ "Streaming in progress...",
                      "ffmpeg version 6.0" +:+ Py.nl +:+ Py.nl +:+ "frame=   25 fps= 25"
                        +:+ Py.nl +:+ "muxing done",
                      Py.join " " Cases.default_command) =
                    Ok (launch_output rc, Py.join Py.nl logs, Py.join " " Cases.default_command)
            | Err e =>
                Ok ("Command executed successfully." +:+ Py.nl +:+ "Streaming in progress...",
                    "ffmpeg version 6.0" +:+ Py.nl +:+ Py.nl +:+ "frame=   25 fps= 25"
                      +:+ Py.nl +:+ "muxing done",
                    Py.join " " Cases.default_command) =
                  Ok (error_output e, "", Py.join " " Cases.default_command)
            end
      | Err e =>
          rest = [] /\
          Ok ("Command executed successfully." +:+ Py.nl +:+ "Streaming in progress...",
              "ffmpeg version 6.0" +:+ Py.nl +:+ Py.nl +:+ "frame=   25 fps= 25"
                +:+ Py.nl +:+ "muxing done",
              Py.join " " Cases.default_command) =
            Ok (error_output e, "", Py.join " " Cases.default_command)
      end.
Proof.
  apply (start_ffmpeg_reads_until_eof 5
           "https://kbsworld-ott.akamaized.net/hls/live/2002341/kbsworld/master.m3u8"
           "https://i.ibb.co/YcPZxsn/logo.png" "overlay=W-w-45:37" true "720p"
           "rtmp://stream.example.com/live/key" 30 "Copy Audio from File"
           (Ex.fresh Ex.posix)
           (Inputs.launch 5 "rtmp://stream.example.com/live/key" (Ex.fresh Ex.posix)).2
           (Some (Ok ("Command executed successfully." +:+ Py.nl +:+ "Streaming in progress...",
                      "ffmpeg version 6.0" +:+ Py.nl +:+ Py.nl +:+ "frame=   25 fps= 25"
                        +:+ Py.nl +:+ "muxing done",
                      Py.join " " Cases.default_command)))
           [EGethostbyname "stream.example.com" (Ok "203.0.113.7")]
           Cases.default_command 0%nat
           ((EReadline 0%nat <$> (Ok <$> Ex.script))
              ++ [EReadline 0%nat (Ok ""); EPoll 0%nat (Ok None)])).
  - vm_compute. reflexivity.
  - vm_compute. reflexivity.
Defined.

(** C3 as it is written fails: a launch has succeeded ([Popen] returned, the
    child runs), two lines are read, and the read of the third raises
    because it cannot be decoded.  [start_ffmpeg] returns at once, with
    empty logs, while the child runs and has lines left to read. *)
Lemma start_ffmpeg_returns_before_eof :
  let run := Inputs.launch 8 "rtmp://stream.example.com/live/key" Inputs.garbled in
  run.1 = Some (Ok ("An error occurred: " +:+ exn_str Inputs.undecodable, "",
                    Py.join " " Cases.default_command)) /\
  log run.2 =
    [EGethostbyname "stream.example.com" (Ok "203.0.113.7");
     EPopen Cases.default_command (Ok 0%nat);
     EReadline 0%nat (Ok ("ffmpeg version 6.0" +:+ Py.nl));
     EReadline 0%nat (Ok Py.nl);
     EReadline 0%nat (Err Inputs.undecodable)] /\
  Sim.running (Garbled.base (os run.2)) = [0%nat] /\
  (Sim.pending <$> Sim.procs (Garbled.base (os run.2)) !! 0%nat) =
    Some ["  frame=   25 fps= 25 " +:+ Py.nl; "muxing done"] /\
  "" <> Py.join Py.nl [Py.strip ("ffmpeg version 6.0" +:+ Py.nl); Py.strip Py.nl].
Proof. cbv zeta. split_and!; try (vm_compute; reflexivity). vm_compute. discriminate. Qed.

Section CommandClaims.

Context {S : Type} `{OS S}.

Lemma build_ffmpeg_command_str video_url logo_url overlay_settings enable_logo
    resolution rtmp_url fps audio_option command command_str :
  build_ffmpeg_command video_url logo_url overlay_settings enable_logo
    resolution rtmp_url fps audio_option = Ok (command, command_str) ->
  command_str = Py.join " " command.
Proof.
  unfold build_ffmpeg_command.
  destruct (if bool_decide (audio_option = "Copy Audio from File") then _ else _);
    [|done].
  by intros [= <- <-].
Qed.

(** C7.  The command string that [build_ffmpeg_command] returns is its
    argument list joined with single spaces; and in every call of
    [start_ffmpeg] that returns, the command string returned is the join of
    the argument vector passed to [Popen]. *)
Theorem command_str_renders_command fuel video_url logo_url overlay_settings
    enable_logo resolution rtmp_url fps audio_option (w : world S) :
  (forall command command_str,
     build_ffmpeg_command video_url logo_url overlay_settings enable_logo
       resolution rtmp_url fps audio_option = Ok (command, command_str) ->
     command_str = Py.join " " command) /\
  exists evs r h s',
    start_ffmpeg fuel video_url logo_url overlay_settings enable_logo
      resolution rtmp_url fps audio_option w = (r, World h s' (log w ++ evs)) /\
    forall argv rp output logs command_str,
      EPopen argv rp ∈ evs ->
      r = Some (Ok (output, logs, command_str)) ->
      command_str = Py.join " " argv.
Proof.
  split; [intros; by eapply build_ffmpeg_command_str|].
  destruct (start_ffmpeg_run fuel video_url logo_url overlay_settings enable_logo
              resolution rtmp_url fps audio_option w)
    as (evs & r & h & s' & Hrun & Hstart).
  exists evs, r, h, s'. split; [done|].
  intros argv rp output logs command_str Hin ->.
  destruct (start_run_popen _ _ _ _ _ _ _ _ _ _ _ _ _ _ _ Hstart Hin)
    as (u & cs & pre & g & post & Hbuild & _ & _ & _ & _ & Hcs).
  rewrite (Hcs _ _ _ eq_refl). by eapply build_ffmpeg_command_str.
Qed.

End CommandClaims.

Lemma command_str_renders_command_witness :
  "ffmpeg -re -y -i in.m3u8 -s 640x360 -ac 2 -b:a 128k -ar 44100 -pix_fmt yuv420p -tune zerolatency -maxrate 2000k -preset veryfast -vcodec libx264 -ab 128k -vb 660k -f flv rtmp://203.0.113.7/live/key"
  = Py.join " "
      ["ffmpeg"; "-re"; "-y"; "-i"; "in.m3u8"; "-s"; "640x360"; "-ac"; "2"; "-b:a"; "128k";
       "-ar"; "44100"; "-pix_fmt"; "yuv420p"; "-tune"; "zerolatency"; "-maxrate"; "2000k";
       "-preset"; "veryfast"; "-vcodec"; "libx264"; "-ab"; "128k"; "-vb"; "660k";
       "-f"; "flv"; "rtmp://203.0.113.7/live/key"].
Proof.
  apply (proj1 (command_str_renders_command 0 "in.m3u8" "logo.png" "overlay=0:0" false
                  "360p" "rtmp://203.0.113.7/live/key" 0 "2|128k" (Ex.fresh Ex.posix))).
  vm_compute. reflexivity.
Defined.

(** ** The two states *)

Section StateClaims.

Context {S : Type} `{OS S}.

Lemma start_run_handles fuel video_url logo_url overlay_settings enable_logo
    resolution rtmp_url fps audio_option old evs r h :
  start_run fuel video_url logo_url overlay_settings enable_logo resolution
    rtmp_url fps audio_option old evs r h ->
  Forall (fun e => forall p, event_handle e = Some p -> old = Some p \/ h = Some p) evs /\
  (h = old \/ exists argv p, h = Some p /\ EPopen argv (Ok p) ∈ evs).
Proof.
  assert (forall (h : option handle) url evs r,
    resolve_run url evs r ->
    Forall (fun e => forall p, event_handle e = Some p -> old = Some p \/ h = Some p) evs)
    as Hres.
  { clear. intros h url evs' r' Hr. eapply Forall_impl; [by eapply resolve_run_events|].
    simpl. intros e (_ & -> & _) p. done. }
  intros [evs' e Hr|evs' msg Hr|evs' u e Hr Hb|evs' u c cs evs'' r' h' Hr Hb Hl];
    try (split; [by eapply Hres|by left]).
  split.
  - apply Forall_app. split; [by eapply Hres|by eapply launch_run_handles].
  - destruct (launch_run_popen _ _ _ _ _ _ _ Hl)
      as [[_ ->]|(g & [p|e] & post & -> & _ & _ & -> & _)]; [by left| |by left].
    right. exists c, p. split; [done|]. rewrite !elem_of_app, elem_of_cons. auto.
Qed.

(** The functions and the handle.  The state of the supervision is the
    handle: set (running) or not.  [stop_ffmpeg] tells the two apart,
    answering "No stream is running." in the one and only there.  Of the
    functions of the module only [start_ffmpeg] takes the state from not
    running to running, and it does so with the process a [Popen] of this
    call returned; only [stop_ffmpeg] takes it from running to not running.
    Every call made about a process, by any function, is about the process
    the handle referred to before the call or refers to after it. *)
Theorem supervision_two_states (o : operation) (w : world S) :
  (state w = NotRunning <-> (stop_ffmpeg w).1 = Some (Ok "No stream is running.")) /\
  exists evs,
    log (run_op o w) = log w ++ evs /\
    (state w = NotRunning -> state (run_op o w) = Running ->
     is_start o /\
     exists argv p, EPopen argv (Ok p) ∈ evs /\ ffmpeg_process (run_op o w) = Some p) /\
    (state w = Running -> state (run_op o w) = NotRunning -> o = OpStopFfmpeg) /\
    Forall (fun e => forall p,
              event_handle e = Some p ->
              ffmpeg_process w = Some p \/ ffmpeg_process (run_op o w) = Some p) evs.
Proof.
  split.
  { unfold state. destruct (ffmpeg_process w) as [p|] eqn:Hp.
    - destruct (stop_ffmpeg_set w p Hp) as (r & s' & evs & -> & Hr). simpl.
      split; [done|]. intros [= ->]. by inversion Hr.
    - by rewrite stop_ffmpeg_unset. }
  unfold state.
  destruct o as [url| |fuel video_url logo_url overlay_settings enable_logo
                        resolution rtmp_url fps audio_option| |]; simpl run_op.
  - destruct (resolve_hostname_run url w) as (evs & r & s' & -> & Hr). simpl.
    exists evs. split_and!; [done|by destruct (ffmpeg_process w)..|].
    eapply Forall_impl; [by eapply resolve_run_events|].
    simpl. intros e (_ & -> & _) p. done.
  - exists []. rewrite app_nil_r. split_and!; [done|by destruct (ffmpeg_process w)..|done].
  - destruct (start_ffmpeg_run fuel video_url logo_url overlay_settings enable_logo
                resolution rtmp_url fps audio_option w)
      as (evs & r & h & s' & -> & Hstart). simpl.
    destruct (start_run_handles _ _ _ _ _ _ _ _ _ _ _ _ _ Hstart) as [Hh Hstate].
    exists evs. split_and!; [done| | |done].
    + intros Hw Hw'. split; [done|].
      destruct Hstate as [->|(argv & p & -> & Hin)]; [by destruct (ffmpeg_process w)|].
      by exists argv, p.
    + intros Hw Hw'.
      destruct Hstate as [->|(argv & p & -> & Hin)]; [by destruct (ffmpeg_process w)|done].
  - destruct (ffmpeg_process w) as [p|] eqn:Hp.
    + destruct (stop_ffmpeg_set w p Hp) as (r & s' & evs & -> & Hr). simpl.
      exists evs. split_and!; [done..|].
      eapply Forall_impl; [by eapply stop_run_handles|]. simpl. intros e -> q. auto.
    + rewrite stop_ffmpeg_unset by done. simpl. exists []. rewrite app_nil_r, Hp.
      by split_and!.
  - destruct (check_ffmpeg_protocols_run w) as (r & s' & ->). simpl.
    eexists. split_and!; [done|by destruct (ffmpeg_process w)..|].
    by repeat constructor.
Qed.

End StateClaims.

(** A launch takes the state to running, a stop takes it back. *)
Example start_then_stop :
  state (Ex.fresh Ex.posix) = NotRunning /\
  state (Ex.streaming Ex.posix) = Running /\
  state (run_op OpStopFfmpeg (Ex.streaming Ex.posix)) = NotRunning.
Proof. vm_compute. auto. Qed.

(** The handle stays set when the child has exited on its own: the next
    launch replaces it, a stop still answers "Stream stopped.". *)
Example exited_child_keeps_handle :
  let quits := Sim.Make [("stream.example.com", "203.0.113.7")] true Ex.script
                        false true true "" [] in
  state (Ex.streaming quits) = Running /\
  (poll 0%nat (os (Ex.streaming quits))).1 = Ok (Some 0) /\
  (stop_ffmpeg (Ex.streaming quits)).1 = Some (Ok "Stream stopped.") /\
  ffmpeg_process (Ex.start 8 "rtmp://stream.example.com/live/key" (Ex.streaming quits)).2
    = Some 1%nat.
Proof. vm_compute. auto. Qed.

Lemma supervision_two_states_witness :
  is_start (OpStartFfmpeg 8 "in.m3u8" "logo.png" "overlay=0:0" false "720p"
              "rtmp://stream.example.com/live/key" 30 "Copy Audio from File").
Proof.
  destruct (supervision_two_states
              (OpStartFfmpeg 8 "in.m3u8" "logo.png" "overlay=0:0" false "720p"
                 "rtmp://stream.example.com/live/key" 30 "Copy Audio from File")
              (Ex.fresh Ex.posix)) as [_ (evs & _ & Hstart & _)].
  apply Hstart; vm_compute; reflexivity.
Defined.

(** C6.  What the functions keep, the module body breaks.  A first run of
    the page with "Run Command" pressed has left a child running and the
    handle set.  In the next run, with no button pressed, line 8 clears the
    handle: the state goes from running to not running with no call of
    [stop_ffmpeg] and no call to the environment at all, the child keeps
    running, and a [stop_ffmpeg] that follows answers "No stream is
    running.". *)
Theorem module_body_clears_handle :
  let w := (Page.script 8 Inputs.run_click (Ex.fresh Ex.posix)).2 in
  let w' := (Page.script 8 Inputs.no_click w).2 in
  state w = Running /\
  Sim.running (os w) = [0%nat] /\
  (Page.script 8 Inputs.no_click w).1 = Some (Ok Page.page_layout) /\
  state w' = NotRunning /\
  log w' = log w /\
  Sim.running (os w') = [0%nat] /\
  stop_ffmpeg w' = (Some (Ok "No stream is running."), w').
Proof. cbv zeta. split_and!; vm_compute; reflexivity. Qed.

(** * Further properties *)

(** ** More on strings *)

Section MoreStrings.

Implicit Types s t sub old new : string.

(** [sub in s]: [s] has [sub] somewhere. *)
Lemma contains_spec s sub :
  Py.contains s sub = true <-> exists pre post, s = pre +:+ sub +:+ post.
Proof.
  induction s as [|c s IH].
  - change (Py.contains "" sub) with (Py.startswith "" sub || false).
    rewrite orb_false_r, startswith_spec. split.
    + intros [t Ht]. by exists "", t.
    + intros (pre & post & Hs). destruct pre; [by exists post|done].
  - rewrite contains_cons, orb_true_iff, startswith_spec, IH. split.
    + intros [[t Ht]|(pre & post & ->)]; [by exists "", t|by exists (String c pre), post].
    + intros ([|d pre] & post & Hs); [left; by exists post|].
      right. rewrite str_app_cons in Hs. injection Hs as _ ->. by exists pre, post.
Qed.

Lemma contains_false_cons c s sub :
  Py.contains (String c s) sub = false ->
  Py.startswith (String c s) sub = false /\ Py.contains s sub = false.
Proof. rewrite contains_cons. apply orb_false_iff. Qed.

(** A string without [old] is left alone by the scan. *)
Lemma split_go_absent old s :
  Py.contains s old = false -> Py.split_go old 0 s = [s].
Proof.
  induction s as [|c s IH]; [done|].
  intros [Hsw Hc]%contains_false_cons. cbn [Py.split_go]. by rewrite Hsw, IH.
Qed.

Lemma replace_absent s old new :
  old <> "" -> Py.contains s old = false -> Py.replace s old new = s.
Proof.
  intros Hold Hc. rewrite replace_nonempty, replace_go_join by done.
  by rewrite split_go_absent.
Qed.

(** Replacing a string by itself changes nothing. *)
Lemma replace_same s old : Py.replace s old old = s.
Proof.
  destruct (decide (old = "")) as [->|Hne].
  - simpl. induction s as [|d s IH]; [done|]. simpl. by rewrite str_app_nil_l, IH.
  - rewrite replace_nonempty, replace_go_join by done.
    by rewrite join_split_go, str_drop_0.
Qed.

Lemma interleave_length new s :
  String.length (Py.interleave new s) =
    (String.length s + (String.length s + 1) * String.length new)%nat.
Proof.
  induction s as [|c s IH]; simpl; [lia|].
  rewrite str_length_app. simpl. rewrite IH. lia.
Qed.

(** Single characters as separators. *)
Lemma startswith_char c d s :
  Py.startswith (String d s) (String c "") = Ascii.eqb c d.
Proof. by rewrite startswith_cons, startswith_nil, andb_true_r. Qed.

Lemma occurs_count c s : Py.occurs c s <-> count_char c s <> 0%nat.
Proof.
  induction s as [|d s IH]; simpl; [lia|].
  destruct (Ascii.eqb_spec c d) as [->|Hne]; [split; [lia|by left]|].
  rewrite IH. simpl. split; [by intros [?|?]|by right].
Qed.

Lemma split_char_cons c d s :
  Py.split_go (String c "") 0 (String d s) =
    if Ascii.eqb c d then "" :: Py.split_go (String c "") 0 s
    else match Py.split_go (String c "") 0 s with
         | piece :: pieces => String d piece :: pieces
         | [] => [String d ""]
         end.
Proof. cbn [Py.split_go]. by rewrite startswith_char. Qed.

(** [s.split(c)] has one piece more than [s] has [c]s. *)
Lemma split_char_length c s :
  length (Py.split s (String c "")) = Datatypes.S (count_char c s).
Proof.
  unfold Py.split. induction s as [|d s IH]; [done|].
  rewrite split_char_cons. simpl count_char.
  destruct (Ascii.eqb c d); simpl; [by rewrite IH|].
  destruct (Py.split_go (String c "") 0 s); simpl in *; lia.
Qed.

Lemma split_char_absent c s :
  ~ Py.occurs c s -> Py.split_go (String c "") 0 s = [s].
Proof.
  induction s as [|d s IH]; [done|]. intros Hc. rewrite split_char_cons.
  simpl in Hc.
  destruct (Ascii.eqb_spec c d) as [->|Hne]; [destruct Hc; by left|].
  rewrite IH; [done|]. intros ?. apply Hc. by right.
Qed.

Lemma split_char_app c x s :
  ~ Py.occurs c x ->
  Py.split_go (String c "") 0 (x +:+ String c s) = x :: Py.split_go (String c "") 0 s.
Proof.
  induction x as [|d x IH]; intros Hc.
  - by rewrite str_app_nil_l, split_char_cons, Ascii.eqb_refl.
  - rewrite str_app_cons, split_char_cons. simpl in Hc.
    destruct (Ascii.eqb_spec c d) as [->|Hne]; [destruct Hc; by left|].
    rewrite IH; [done|]. intros ?. apply Hc. by right.
Qed.

(** Splitting at [c] undoes joining with [c] when no item has a [c]. *)
Lemma split_join_char c (l : list string) :
  l <> [] -> Forall (fun x => ~ Py.occurs c x) l ->
  Py.split (Py.join (String c "") l) (String c "") = l.
Proof.
  unfold Py.split. induction l as [|x l IH]; [done|]. intros _ Hl.
  apply Forall_cons in Hl as [Hx Hl]. destruct l as [|y l].
  - simpl. by apply split_char_absent.
  - rewrite join_cons by done. change (String c "" +:+ ?t) with (String c t).
    rewrite split_char_app by done. by rewrite IH.
Qed.

(** The pieces of a split at [c] have no [c]. *)
Lemma split_char_pieces c s :
  Forall (fun piece => ~ Py.occurs c piece) (Py.split s (String c "")).
Proof.
  unfold Py.split. induction s as [|d s IH]; [repeat constructor; by intros []|].
  rewrite split_char_cons. destruct (Ascii.eqb_spec c d) as [->|Hne].
  - constructor; [by intros []|done].
  - destruct (Py.split_go (String c "") 0 s) as [|piece pieces]; [|].
    + repeat constructor. simpl. intros [?|[]]. done.
    + apply Forall_cons in IH as [Hp Hps]. constructor; [|done].
      simpl. intros [?|?]; done.
Qed.

End MoreStrings.

(** ** More on [build_ffmpeg_command] *)

Lemma resolution_lookup_none resolution :
  resolution ∉ resolution_labels -> resolution_map !! resolution = None.
Proof. intros Hr. by apply not_elem_of_list_to_map_1. Qed.

(** X1.  A resolution label that [resolution_map] does not have gives the
    command of "720p": the lookup falls back to 1280x720. *)
Theorem build_ffmpeg_command_unknown_resolution
    video_url logo_url overlay_settings (enable_logo : bool)
    resolution rtmp_url (fps : Z) audio_option :
  resolution ∉ resolution_labels ->
  build_ffmpeg_command video_url logo_url overlay_settings enable_logo
    resolution rtmp_url fps audio_option =
  build_ffmpeg_command video_url logo_url overlay_settings enable_logo
    "720p" rtmp_url fps audio_option.
Proof.
  intros Hr. unfold build_ffmpeg_command.
  by rewrite (resolution_lookup_none _ Hr).
Qed.

Lemma build_ffmpeg_command_unknown_resolution_witness :
  build_ffmpeg_command "in.m3u8" "logo.png" "overlay=0:0" true "8K"
    "rtmp://203.0.113.7/live/key" 60 "2|256k" =
  build_ffmpeg_command "in.m3u8" "logo.png" "overlay=0:0" true "720p"
    "rtmp://203.0.113.7/live/key" 60 "2|256k".
Proof.
  apply build_ffmpeg_command_unknown_resolution.
  unfold resolution_labels. rewrite !elem_of_cons, elem_of_nil.
  intuition discriminate.
Defined.

(** The only exception of [build_ffmpeg_command] is that of the unpacking. *)
Lemma build_ffmpeg_command_error
    video_url logo_url overlay_settings (enable_logo : bool)
    resolution rtmp_url (fps : Z) audio_option e :
  build_ffmpeg_command video_url logo_url overlay_settings enable_logo
    resolution rtmp_url fps audio_option = Err e ->
  exn_cls e = ValueError.
Proof.
  unfold build_ffmpeg_command. case_bool_decide; [done|].
  destruct (Py.split audio_option "|") as [|ch [|br [|x l]]]; simpl; try done.
  all: by intros [= <-].
Qed.

(** X2.  [build_ffmpeg_command] raises exactly when the audio option is not
    "Copy Audio from File" and does not have exactly one bar, and what it
    raises is a [ValueError].  Otherwise the command ends with the audio
    arguments followed by the encoder's fixed arguments: "-c:a copy" for the
    copy option, and "-ac <channels> -b:a <bitrate>" for an option that is
    <channels>|<bitrate>. *)
Theorem build_ffmpeg_command_audio
    video_url logo_url overlay_settings (enable_logo : bool)
    resolution rtmp_url (fps : Z) audio_option :
  match build_ffmpeg_command video_url logo_url overlay_settings enable_logo
          resolution rtmp_url fps audio_option with
  | Ok (command, _) =>
      (audio_option = "Copy Audio from File" /\
       exists pre, command = pre ++ ["-c:a"; "copy"] ++ encoder_args rtmp_url) \/
      (audio_option <> "Copy Audio from File" /\
       count_char "|" audio_option = 1%nat /\
       exists pre audio_channels audio_bitrate,
         audio_option = audio_channels +:+ "|" +:+ audio_bitrate /\
         ~ Py.occurs "|" audio_channels /\ ~ Py.occurs "|" audio_bitrate /\
         command = pre ++ ["-ac"; audio_channels; "-b:a"; audio_bitrate]
                       ++ encoder_args rtmp_url)
  | Err e =>
      exn_cls e = ValueError /\
      audio_option <> "Copy Audio from File" /\
      count_char "|" audio_option <> 1%nat
  end.
Proof.
  unfold build_ffmpeg_command.
  set (pre := (_ ++ ["-s"; _])). 
  set (pre' := if bool_decide (fps ≠ 0) then _ else _). clearbody pre'. clear pre.
  case_bool_decide as Hcopy.
  { left. split; [done|]. exists pre'. by rewrite <- app_assoc. }
  pose proof (split_char_length "|" audio_option) as Hlen.
  pose proof (split_char_pieces "|" audio_option) as Hpieces.
  pose proof (join_split audio_option "|") as Hjoin.
  destruct (Py.split audio_option "|") as [|ch [|br [|x l]]]; simpl in *.
  - lia.
  - split_and!; [done|done|lia].
  - right. split_and!; [done|lia|].
    apply Forall_cons in Hpieces as [Hch Hpieces].
    apply Forall_cons in Hpieces as [Hbr _].
    exists pre', ch, br. split_and!; try done.
    + symmetry. by apply Hjoin.
    + by rewrite <- app_assoc.
  - split_and!; [done|done|lia].
Qed.

(** An option with two bars, or none, is refused. *)
Example build_ffmpeg_command_two_bars :
  build_ffmpeg_command "in" "logo" "overlay" false "720p" "out" 30 "2|128k|aac"
    = Err (Exn ValueError "too many values to unpack (expected 2)").
Proof. reflexivity. Qed.

Lemma uint_no_space d : ~ Py.occurs " " (NilEmpty.string_of_uint d).
Proof. induction d; simpl; intros H; try done; destruct H as [H|H]; done. Qed.

Lemma str_int_no_space n : ~ Py.occurs " " (Py.str_int n).
Proof.
  unfold Py.str_int, NilZero.string_of_int, NilZero.string_of_uint.
  destruct (Z.to_int n) as [d|d].
  - destruct d; try apply uint_no_space. simpl. intros [?|[]]. done.
  - simpl. intros [?|H]; [done|]. revert H.
    destruct d; try apply uint_no_space. simpl. intros [?|[]]. done.
Qed.

Lemma res_str_no_space resolution :
  ~ Py.occurs " " (default "1280x720" (resolution_map !! resolution)).
Proof.
  pose proof (res_str_values resolution) as Hv.
  repeat (apply elem_of_cons in Hv as [->|Hv]; [simpl; intuition discriminate|]).
  by apply elem_of_nil in Hv.
Qed.

(** X3.  The command string splits at its spaces into the argument vector
    again exactly when no argument has a space in it; this is so whenever
    the values supplied (the URLs, the overlay settings and the audio option
    that are used) have no space. *)
Theorem build_ffmpeg_command_str_splits
    video_url logo_url overlay_settings (enable_logo : bool)
    resolution rtmp_url (fps : Z) audio_option command command_str :
  build_ffmpeg_command video_url logo_url overlay_settings enable_logo
    resolution rtmp_url fps audio_option = Ok (command, command_str) ->
  (Py.split command_str " " = command <->
   Forall (fun arg => ~ Py.occurs " " arg) command) /\
  (~ Py.occurs " " video_url -> ~ Py.occurs " " rtmp_url ->
   (enable_logo = true -> ~ Py.occurs " " logo_url /\ ~ Py.occurs " " overlay_settings) ->
   (audio_option <> "Copy Audio from File" -> ~ Py.occurs " " audio_option) ->
   Py.split command_str " " = command).
Proof.
  intros Hbuild.
  assert (command <> []) as Hne.
  { revert Hbuild. unfold build_ffmpeg_command.
    destruct (if bool_decide (audio_option = "Copy Audio from File") then _ else _);
      [|done]. intros [= <- _]. by destruct enable_logo; case_bool_decide. }
  assert (command_str = Py.join " " command) as ->.
  { revert Hbuild. unfold build_ffmpeg_command.
    destruct (if bool_decide (audio_option = "Copy Audio from File") then _ else _);
      [|done]. by intros [= <- <-]. }
  assert (Py.split (Py.join " " command) " " = command <->
          Forall (fun arg => ~ Py.occurs " " arg) command) as Hiff.
  { split.
    - intros <-. apply split_char_pieces.
    - by apply split_join_char. }
  split; [done|]. intros Hv Hr Hlogo Haudio. apply Hiff.
  pose proof (res_str_no_space resolution) as Hres.
  pose proof (str_int_no_space fps) as Hfps.
  assert (exists audio_args,
    (if bool_decide (audio_option = "Copy Audio from File")
     then Ok ["-c:a"; "copy"]
     else match unpack2 (Py.split audio_option "|") with
          | Ok (audio_channels, audio_bitrate) =>
              Ok ["-ac"; audio_channels; "-b:a"; audio_bitrate]
          | Err e => Err e
          end) = Ok audio_args /\
    Forall (fun arg => ~ Py.occurs " " arg) audio_args) as (audio_args & Haa & Hargs).
  { case_bool_decide as Hcopy.
    - eexists. split; [done|]. repeat constructor; simpl; intuition discriminate.
    - specialize (Haudio Hcopy).
      pose proof (join_split audio_option "|") as Hjoin.
      destruct (Py.split audio_option "|") as [|ch [|br [|x l]]] eqn:Hs; simpl;
        try (exfalso; unfold build_ffmpeg_command in Hbuild;
             rewrite bool_decide_eq_false_2, Hs in Hbuild by done; done).
      eexists. split; [done|]. simpl in Hjoin. rewrite <- Hjoin in Haudio by done.
      rewrite !occurs_app in Haudio.
      repeat constructor; simpl; intuition discriminate. }
  revert Hbuild. unfold build_ffmpeg_command.
  set (res_str := default "1280x720" (resolution_map !! resolution)) in *.
  clearbody res_str. rewrite Haa.
  intros [= <-].
  assert (forall x, ~ Py.occurs " " ("[1]scale=iw*0.6:-1[wm];[0][wm]" +:+ x) <->
                    ~ Py.occurs " " x) as Hfilter.
  { intros x. rewrite occurs_app. simpl. intuition discriminate. }
  destruct enable_logo; [destruct (Hlogo eq_refl) as [Hl Ho]|];
    case_bool_decide; simpl;
    repeat first [apply Forall_app; split | apply Forall_cons; split | apply Forall_nil];
    try done; try (by apply Hfilter); simpl; intuition discriminate.
Qed.

Lemma build_ffmpeg_command_str_splits_witness :
  Py.split
    "ffmpeg -re -y -i in.m3u8 -s 640x360 -ac 2 -b:a 128k -ar 44100 -pix_fmt yuv420p -tune zerolatency -maxrate 2000k -preset veryfast -vcodec libx264 -ab 128k -vb 660k -f flv rtmp://203.0.113.7/live/key"
    " "
  = ["ffmpeg"; "-re"; "-y"; "-i"; "in.m3u8"; "-s"; "640x360"; "-ac"; "2"; "-b:a"; "128k";
     "-ar"; "44100"; "-pix_fmt"; "yuv420p"; "-tune"; "zerolatency"; "-maxrate"; "2000k";
     "-preset"; "veryfast"; "-vcodec"; "libx264"; "-ab"; "128k"; "-vb"; "660k";
     "-f"; "flv"; "rtmp://203.0.113.7/live/key"].
Proof.
  refine (proj2 (build_ffmpeg_command_str_splits "in.m3u8" "logo with space.png"
                   "overlay=0:0" false "360p" "rtmp://203.0.113.7/live/key" 0 "2|128k"
                   _ _ _) _ _ _ _).
  - vm_compute. reflexivity.
  - simpl. intuition discriminate.
  - simpl. intuition discriminate.
  - discriminate.
  - intros _. simpl. intuition discriminate.
Defined.

(** A space in the video URL shows as two words. *)
Example command_str_with_space :
  match build_ffmpeg_command "my video.mp4" "" "" false "720p" "out" 0
          "Copy Audio from File" with
  | Ok (command, command_str) =>
      length command = 28%nat /\ length (Py.split command_str " ") = 29%nat
  | Err _ => False
  end.
Proof. vm_compute. auto. Qed.

(** ** More on [resolve_hostname] and on errors in [start_ffmpeg] *)

Section MoreResolve.

Context {S : Type} `{OS S}.

(** X4.  An exception of the resolver that is not a [gaierror] is not
    turned into a message: [resolve_hostname] lets it through, and so does
    [start_ffmpeg], which calls it outside its [try]; the handle is left and
    the log gains the resolver's call only. *)
Theorem start_ffmpeg_resolver_raises fuel video_url logo_url overlay_settings
    enable_logo resolution rtmp_url fps audio_option scheme host tail e (w : world S) :
  url_parts rtmp_url scheme host tail ->
  (gethostbyname host (os w)).1 = Err e ->
  exn_cls e <> GaiError ->
  let w' := World (ffmpeg_process w) (gethostbyname host (os w)).2
                  (log w ++ [EGethostbyname host (Err e)]) in
  resolve_hostname rtmp_url w = (Some (Err e), w') /\
  start_ffmpeg fuel video_url logo_url overlay_settings enable_logo resolution
    rtmp_url fps audio_option w = (Some (Err e), w').
Proof.
  intros Hparts He Hgai. cbv zeta.
  pose proof (resolve_hostname_parts rtmp_url scheme host tail w Hparts) as Hrun.
  rewrite He in Hrun. destruct (decide (exn_cls e = GaiError)); [done|].
  split; [done|]. unfold start_ffmpeg, bind at 1. by rewrite Hrun.
Qed.

(** X5.  When the resolver answers a hostname with the hostname itself (as
    it does for an address written in digits), the URL comes back as it
    was. *)
Theorem resolve_hostname_literal_address url scheme host tail (w : world S) :
  url_parts url scheme host tail ->
  (gethostbyname host (os w)).1 = Ok host ->
  (resolve_hostname url w).1 = Some (Ok (Some url, None)).
Proof.
  intros Hparts Hip.
  rewrite (resolve_hostname_parts url scheme host tail w Hparts), Hip. simpl.
  by rewrite replace_same.
Qed.

(** X6.  When the hostname is not empty and occurs neither in the scheme
    with its colon nor behind the authority, the URL returned is the URL
    with the authority replaced by the address and nothing else changed. *)
Theorem resolve_hostname_authority_only url scheme host tail ip (w : world S) :
  url_parts url scheme host tail ->
  host <> "" ->
  Py.contains (scheme +:+ ":") host = false ->
  Py.contains tail host = false ->
  (gethostbyname host (os w)).1 = Ok ip ->
  (resolve_hostname url w).1 =
    Some (Ok (Some (scheme +:+ "://" +:+ ip +:+ tail), None)).
Proof.
  intros Hparts Hne Hscheme Htail Hip.
  rewrite (resolve_hostname_parts url scheme host tail w Hparts), Hip. simpl.
  destruct Hparts as (_ & -> & Hh & Ht).
  rewrite replace_url, !replace_absent by done.
  change "://" with (":" +:+ "//"). by rewrite !str_app_assoc.
Qed.

(** X7.  With an empty authority (rtmp:// followed by nothing or by a
    slash) the resolver is asked for the empty name; if it answers, the
    address is put before every character of the URL and at its end, so the
    result begins with the address and is longer than the URL by one
    address for each position. *)
Theorem resolve_hostname_empty_authority url scheme tail ip (w : world S) :
  url_parts url scheme "" tail ->
  (gethostbyname "" (os w)).1 = Ok ip ->
  exists resolved,
    (resolve_hostname url w).1 = Some (Ok (Some resolved, None)) /\
    Py.startswith resolved ip = true /\
    String.length resolved =
      (String.length url + (String.length url + 1) * String.length ip)%nat.
Proof.
  intros Hparts Hip.
  rewrite (resolve_hostname_parts url scheme "" tail w Hparts), Hip. simpl.
  eexists. split; [done|]. split; [|apply interleave_length].
  destruct url; simpl; [apply startswith_spec; exists ""; by rewrite str_app_nil_r|].
  apply startswith_self_app.
Qed.

(** X8.  When the command cannot be built (an audio option that is not
    <channels>|<bitrate>), [start_ffmpeg] raises the [ValueError] of the
    unpacking, after the hostname has been resolved: it is raised outside
    the [try], so no message is returned; the handle is left and no process
    is started. *)
Theorem start_ffmpeg_build_raises fuel video_url logo_url overlay_settings
    enable_logo resolution rtmp_url fps audio_option u e (w w1 : world S) :
  resolve_hostname rtmp_url w = (Some (Ok (Some u, None)), w1) ->
  build_ffmpeg_command video_url logo_url overlay_settings enable_logo
    resolution u fps audio_option = Err e ->
  start_ffmpeg fuel video_url logo_url overlay_settings enable_logo resolution
    rtmp_url fps audio_option w = (Some (Err e), w1) /\
  exn_cls e = ValueError /\
  ffmpeg_process w1 = ffmpeg_process w /\
  exists evs, log w1 = log w ++ evs /\ Forall (fun ev => is_popen ev = false) evs.
Proof.
  intros Hres Hbuild.
  destruct (resolve_hostname_run rtmp_url w) as (evs & r & s1 & Hrun & Hr).
  rewrite Hres in Hrun. injection Hrun as <- ->.
  split_and!.
  - unfold start_ffmpeg, bind at 1. rewrite Hres. simpl.
    unfold bind, lift. by rewrite Hbuild.
  - by eapply build_ffmpeg_command_error.
  - done.
  - exists evs. split; [done|]. by eapply resolve_run_no_popen.
Qed.

End MoreResolve.

Lemma start_ffmpeg_resolver_raises_witness :
  start_ffmpeg 8 "in.m3u8" "logo.png" "overlay=0:0" false "720p"
    "rtmp://stream..example.com/live" 30 "Copy Audio from File"
    (World (Some 3%nat) (Flaky.Make Ex.posix false) []) =
    (Some (Err (Exn OtherException
                  "encoding with 'idna' codec failed (UnicodeError: label empty or too long)")),
     World (Some 3%nat) (Flaky.Make Ex.posix false)
       [EGethostbyname "stream..example.com"
          (Err (Exn OtherException
                  "encoding with 'idna' codec failed (UnicodeError: label empty or too long)"))]).
Proof.
  refine (proj2 (start_ffmpeg_resolver_raises 8 "in.m3u8" "logo.png" "overlay=0:0" false
                   "720p" "rtmp://stream..example.com/live" 30 "Copy Audio from File"
                   "rtmp" "stream..example.com" "/live" _
                   (World (Some 3%nat) (Flaky.Make Ex.posix false) []) _ _ _)).
  - split_and!; [by left|reflexivity|simpl; intuition discriminate|right; by eexists].
  - reflexivity.
  - discriminate.
Defined.

Lemma resolve_hostname_literal_address_witness :
  (resolve_hostname "rtmp://203.0.113.7/live/key"
     (Ex.fresh (Sim.Make [("203.0.113.7", "203.0.113.7")] true [] true true true "" []))).1
  = Some (Ok (Some "rtmp://203.0.113.7/live/key", None)).
Proof.
  apply (resolve_hostname_literal_address _ "rtmp" "203.0.113.7" "/live/key").
  - split_and!; [by left|reflexivity|simpl; intuition discriminate|right; by eexists].
  - reflexivity.
Defined.

Lemma resolve_hostname_authority_only_witness :
  (resolve_hostname "rtmps://stream.example.com/live/key" (Ex.fresh Ex.posix)).1
  = Some (Ok (Some ("rtmps" +:+ "://" +:+ "203.0.113.7" +:+ "/live/key"), None)).
Proof.
  apply (resolve_hostname_authority_only _ "rtmps" "stream.example.com" "/live/key").
  - split_and!; [by right|reflexivity|simpl; intuition discriminate|right; by eexists].
  - discriminate.
  - reflexivity.
  - reflexivity.
  - reflexivity.
Defined.

Lemma resolve_hostname_empty_authority_witness :
  exists resolved,
    (resolve_hostname "rtmp:///live"
       (Ex.fresh (Sim.Make [("", "0.0.0.0")] true [] true true true "" []))).1
      = Some (Ok (Some resolved, None)) /\
    Py.startswith resolved "0.0.0.0" = true /\
    String.length resolved =
      (String.length "rtmp:///live" + (String.length "rtmp:///live" + 1)
         * String.length "0.0.0.0")%nat.
Proof.
  apply (resolve_hostname_empty_authority _ "rtmp" "/live").
  - split_and!; [by left|reflexivity|by intros []|right; by eexists].
  - reflexivity.
Defined.

Example resolve_empty_authority :
  (resolve_hostname "rtmp:///a"
     (Ex.fresh (Sim.Make [("", "0.0.0.0")] true [] true true true "" []))).1
  = Some (Ok (Some "0.0.0.0r0.0.0.0t0.0.0.0m0.0.0.0p0.0.0.0:0.0.0.0/0.0.0.0/0.0.0.0/0.0.0.0a0.0.0.0",
              None)).
Proof. vm_compute. reflexivity. Qed.

Lemma start_ffmpeg_build_raises_witness :
  start_ffmpeg 8 "in.m3u8" "logo.png" "overlay=0:0" false "720p"
    "rtmp://stream.example.com/live/key" 30 "stereo" (Ex.streaming Ex.posix) =
    (Some (Err (Exn ValueError "not enough values to unpack (expected 2, got 1)")),
     (resolve_hostname "rtmp://stream.example.com/live/key" (Ex.streaming Ex.posix)).2) /\
  exn_cls (Exn ValueError "not enough values to unpack (expected 2, got 1)") = ValueError /\
  ffmpeg_process
    (resolve_hostname "rtmp://stream.example.com/live/key" (Ex.streaming Ex.posix)).2
    = ffmpeg_process (Ex.streaming Ex.posix) /\
  exists evs,
    log (resolve_hostname "rtmp://stream.example.com/live/key" (Ex.streaming Ex.posix)).2
      = log (Ex.streaming Ex.posix) ++ evs /\
    Forall (fun ev => is_popen ev = false) evs.
Proof.
  apply (start_ffmpeg_build_raises 8 "in.m3u8" "logo.png" "overlay=0:0" false "720p"
           "rtmp://stream.example.com/live/key" 30 "stereo" "rtmp://203.0.113.7/live/key").
  - vm_compute. reflexivity.
  - reflexivity.
Defined.

(** ** More on the calls the functions make *)

Section MoreRuns.

Context {S : Type} `{OS S}.

Lemma no_popen_elem (l : list event) argv rp :
  Forall (fun e => is_popen e = false) l -> EPopen argv rp ∈ l -> False.
Proof. intros Hl Hin. rewrite Forall_forall in Hl. by specialize (Hl _ Hin). Qed.

Lemma launch_run_popen_fails fuel old command command_str evs r h argv e :
  launch_run fuel old command command_str evs r h ->
  EPopen argv (Err e) ∈ evs ->
  argv = command /\
  r = Some (Ok (error_output e, "", command_str)) /\
  h = old /\
  last evs = Some (EPopen argv (Err e)).
Proof.
  assert (forall g c p post,
    guard_pass old g -> Forall (fun ev => is_popen ev = false) post ->
    EPopen argv (Err e) ∈ g ++ EPopen c (Ok p) :: post -> False) as Hstarted.
  { intros g c p post Hg Hpost [Hin|Hin]%elem_of_app.
    - by destruct (no_popen_elem _ _ _ (guard_pass_no_popen _ _ Hg) Hin).
    - apply elem_of_cons in Hin as [?|Hin]; [done|].
      by destruct (no_popen_elem _ _ _ Hpost Hin). }
  intros [c cs q e' ->|c cs q ->|c cs g e' Hg|c cs g p ls Hg Hls Hn|c cs g p ls e' Hg Hls Hn
         |c cs g p ls e' Hg Hls Hn|c cs g p ls rc Hg Hls Hn] Hin.
  - apply list_elem_of_singleton in Hin. done.
  - apply list_elem_of_singleton in Hin. done.
  - apply elem_of_app in Hin as [Hin|Hin].
    + by destruct (no_popen_elem _ _ _ (guard_pass_no_popen _ _ Hg) Hin).
    + apply list_elem_of_singleton in Hin as [= -> ->].
      split_and!; [done..|]. by rewrite last_snoc.
  - destruct (Hstarted _ _ _ _ Hg (reads_no_popen p ls) Hin).
  - exfalso. eapply Hstarted; [exact Hg| |exact Hin].
    apply Forall_app. split; [apply reads_no_popen|by repeat constructor].
  - exfalso. eapply Hstarted; [exact Hg| |exact Hin].
    apply Forall_app. split; [apply reads_no_popen|by repeat constructor].
  - exfalso. eapply Hstarted; [exact Hg| |exact Hin].
    apply Forall_app. split; [apply reads_no_popen|by repeat constructor].
Qed.

(** X9.  When [Popen] raises (the binary is missing, say), [start_ffmpeg]
    returns "An error occurred: <e>" with empty logs and the command string
    of the vector it tried to start; the handle stays what it was, and the
    failed [Popen] is the last call of the run. *)
Theorem start_ffmpeg_popen_fails fuel video_url logo_url overlay_settings
    enable_logo resolution rtmp_url fps audio_option (w w' : world S) r argv e :
  start_ffmpeg fuel video_url logo_url overlay_settings enable_logo resolution
    rtmp_url fps audio_option w = (r, w') ->
  EPopen argv (Err e) ∈ drop (length (log w)) (log w') ->
  r = Some (Ok ("An error occurred: " +:+ exn_str e, "", Py.join " " argv)) /\
  ffmpeg_process w' = ffmpeg_process w /\
  last (log w') = Some (EPopen argv (Err e)).
Proof.
  intros Hcall Hin.
  destruct (start_ffmpeg_run fuel video_url logo_url overlay_settings enable_logo
              resolution rtmp_url fps audio_option w)
    as (evs & r' & h & s' & Hrun & Hstart).
  rewrite Hcall in Hrun. injection Hrun as <- ->. simpl in *.
  rewrite drop_app_length in Hin.
  destruct Hstart as [evs' e' Hr|evs' msg Hr|evs' u e' Hr Hb|evs' u c cs evs'' r' h' Hr Hb Hl];
    try (by destruct (no_popen_elem _ _ _ (resolve_run_no_popen _ _ _ Hr) Hin)).
  apply elem_of_app in Hin as [Hin|Hin];
    [by destruct (no_popen_elem _ _ _ (resolve_run_no_popen _ _ _ Hr) Hin)|].
  destruct (launch_run_popen_fails _ _ _ _ _ _ _ _ _ Hl Hin) as (-> & -> & -> & Hlast).
  rewrite (build_ffmpeg_command_str _ _ _ _ _ _ _ _ _ _ Hb).
  split_and!; [done..|]. by rewrite !last_app, Hlast.
Qed.

Lemma launch_run_unset fuel command command_str evs r h :
  launch_run fuel None command command_str evs r h ->
  (forall logs cs, r <> Some (Ok (already_running_msg, logs, cs))) /\
  (forall p rp, EPoll p rp ∈ evs -> EPopen command (Ok p) ∈ evs).
Proof.
  intros Hrun.
  inversion Hrun as [| |c cs g e' Hg|c cs g p ls Hg Hls Hn
                    |c cs g p ls e' Hg Hls Hn|c cs g p ls e' Hg Hls Hn
                    |c cs g p ls rc Hg Hls Hn]; subst; try done;
    inversion Hg; subst; simpl; (split; [try done|]).
  - intros p rp Hin. set_solver.
  - intros p' rp. rewrite elem_of_cons. intros [?|Hin]; [done|].
    apply list_elem_of_fmap in Hin as (l & ? & _). done.
  - intros p' rp. rewrite elem_of_cons, elem_of_app. intros [?|[Hin|Hin]]; [done| |].
    + apply list_elem_of_fmap in Hin as (l & ? & _). done.
    + set_solver.
  - intros p' rp. rewrite elem_of_cons, elem_of_app. intros [?|[Hin|Hin]]; [done| |].
    + apply list_elem_of_fmap in Hin as (l & ? & _). done.
    + apply elem_of_cons in Hin as [?|Hin]; [done|].
      apply list_elem_of_singleton in Hin as [= <- _]. apply list_elem_of_here.
  - intros logs cs'. unfold launch_output. by case_bool_decide.
  - intros p' rp. rewrite elem_of_cons, elem_of_app. intros [?|[Hin|Hin]]; [done| |].
    + apply list_elem_of_fmap in Hin as (l & ? & _). done.
    + apply elem_of_cons in Hin as [?|Hin]; [done|].
      apply list_elem_of_singleton in Hin as [= <- _]. apply list_elem_of_here.
Qed.

Lemma start_run_unset fuel video_url logo_url overlay_settings enable_logo
    resolution rtmp_url fps audio_option evs r h :
  start_run fuel video_url logo_url overlay_settings enable_logo resolution
    rtmp_url fps audio_option None evs r h ->
  (forall logs cs, r <> Some (Ok (already_running_msg, logs, cs))) /\
  (forall p rp, EPoll p rp ∈ evs -> exists argv, EPopen argv (Ok p) ∈ evs).
Proof.
  assert (forall url evs r p rp, resolve_run url evs r -> EPoll p rp ∈ evs -> False) as Hres.
  { intros url evs' r' p rp []; set_solver. }
  intros [evs' e Hr|evs' msg Hr|evs' u e Hr Hb|evs' u c cs evs'' r' h' Hr Hb Hl].
  - split; [done|]. intros p rp Hin. by destruct (Hres _ _ _ _ _ Hr Hin).
  - split; [|intros p rp Hin; by destruct (Hres _ _ _ _ _ Hr Hin)].
    inversion Hr; subst. done.
  - split; [done|]. intros p rp Hin. by destruct (Hres _ _ _ _ _ Hr Hin).
  - destruct (launch_run_unset _ _ _ _ _ _ Hl) as [Hmsg Hpoll]. split; [done|].
    intros p rp [Hin|Hin]%elem_of_app; [by destruct (Hres _ _ _ _ _ Hr Hin)|].
    exists c. apply elem_of_app. right. by eapply Hpoll.
Qed.

Lemma stop_ffmpeg_handle (w : world S) : ffmpeg_process (stop_ffmpeg w).2 = None.
Proof.
  destruct (ffmpeg_process w) as [p|] eqn:Hp.
  - by destruct (stop_ffmpeg_set w p Hp) as (r & s' & evs & -> & _).
  - by rewrite stop_ffmpeg_unset.
Qed.

(** X10.  A [start_ffmpeg] that follows a [stop_ffmpeg], however that one
    ended, never answers that a stream is already running, and it polls no
    process but the one its own [Popen] returned. *)
Theorem start_ffmpeg_after_stop fuel video_url logo_url overlay_settings
    enable_logo resolution rtmp_url fps audio_option (w : world S) :
  exists evs r h s',
    start_ffmpeg fuel video_url logo_url overlay_settings enable_logo resolution
      rtmp_url fps audio_option (stop_ffmpeg w).2 =
      (r, World h s' (log (stop_ffmpeg w).2 ++ evs)) /\
    (forall logs command_str,
       r <> Some (Ok (already_running_msg, logs, command_str))) /\
    (forall p rp, EPoll p rp ∈ evs -> exists argv, EPopen argv (Ok p) ∈ evs).
Proof.
  destruct (start_ffmpeg_run fuel video_url logo_url overlay_settings enable_logo
              resolution rtmp_url fps audio_option (stop_ffmpeg w).2)
    as (evs & r & h & s' & Hrun & Hstart).
  rewrite stop_ffmpeg_handle in Hstart.
  exists evs, r, h, s'. split; [done|]. by eapply start_run_unset.
Qed.

Lemma launch_run_kinds fuel old command command_str evs r h :
  launch_run fuel old command command_str evs r h ->
  Forall (fun e => event_kind e ∈ [KGethostbyname; KPoll; KPopen; KReadline]) evs.
Proof.
  assert (forall g, guard_pass old g ->
    Forall (fun e => event_kind e ∈ [KGethostbyname; KPoll; KPopen; KReadline]) g) as Hguard.
  { intros g []; repeat constructor. }
  assert (forall p ls,
    Forall (fun e => event_kind e ∈ [KGethostbyname; KPoll; KPopen; KReadline])
           (reads p ls)) as Hreads.
  { intros p ls. unfold reads. apply Forall_fmap, Forall_true. intros l. simpl.
    repeat constructor. }
  intros Hrun. destruct Hrun;
    repeat first [apply Forall_app; split | apply Forall_cons; split | apply Forall_nil];
    try (by apply Hguard); try (by apply Hreads); simpl; repeat constructor.
Qed.

(** X11.  What each function never does: [resolve_hostname] calls nothing
    but the resolver; [start_ffmpeg] only resolves, polls, starts and reads,
    and never signals, waits for or kills a process; [stop_ffmpeg] only
    signals, waits and kills; [check_ffmpeg_protocols] only runs its one
    command; [build_ffmpeg_command] calls nothing. *)
Theorem operation_calls (o : operation) (w : world S) :
  exists evs,
    log (run_op o w) = log w ++ evs /\
    Forall (fun e => event_kind e ∈ allowed_kinds o) evs.
Proof.
  destruct o as [url| |fuel video_url logo_url overlay_settings enable_logo
                        resolution rtmp_url fps audio_option| |]; simpl run_op.
  - destruct (resolve_hostname_run url w) as (evs & r & s' & -> & Hr). simpl.
    exists evs. split; [done|]. destruct Hr; repeat constructor.
  - exists []. by rewrite app_nil_r.
  - destruct (start_ffmpeg_run fuel video_url logo_url overlay_settings enable_logo
                resolution rtmp_url fps audio_option w)
      as (evs & r & h & s' & -> & Hstart). simpl.
    exists evs. split; [done|].
    assert (forall url evs r, resolve_run url evs r ->
      Forall (fun e => event_kind e ∈ [KGethostbyname; KPoll; KPopen; KReadline]) evs)
      as Hres.
    { intros url evs' r' []; repeat constructor. }
    destruct Hstart; try (by eapply Hres).
    apply Forall_app. split; [by eapply Hres|by eapply launch_run_kinds].
  - destruct (ffmpeg_process w) as [p|] eqn:Hp.
    + destruct (stop_ffmpeg_set w p Hp) as (r & s' & evs & -> & Hr). simpl.
      exists evs. split; [done|]. destruct Hr; repeat constructor.
    + rewrite stop_ffmpeg_unset by done. exists []. by rewrite app_nil_r.
  - destruct (check_ffmpeg_protocols_run w) as (r & s' & ->). simpl.
    eexists. split; [done|]. repeat constructor.
Qed.

(** X12.  [stop_ffmpeg] raises in one situation only: the handle was set,
    the signal was sent, the wait of 10 seconds timed out, and then [kill] or
    the wait behind it raised.  What comes out is that exception; no message
    is returned, and the handle is cleared all the same. *)
Theorem stop_ffmpeg_raises (w w' : world S) e :
  stop_ffmpeg w = (Some (Err e), w') ->
  exists p t rest,
    ffmpeg_process w = Some p /\
    exn_cls t = TimeoutExpired /\
    log w' = log w ++ [ESendSignal p SIGINT (Ok ()); EWait p (Some 10) (Err t)] ++ rest /\
    (rest = [EKill p (Err e)] \/ rest = [EKill p (Ok ()); EWait p None (Err e)]) /\
    ffmpeg_process w' = None.
Proof.
  destruct (ffmpeg_process w) as [p|] eqn:Hp.
  - destruct (stop_ffmpeg_set w p Hp) as (r & s' & evs & Hrun & Hr).
    rewrite Hrun. intros [= -> <-].
    exists p. inversion Hr; subst; eexists _, _; split_and!; try done; auto.
  - rewrite stop_ffmpeg_unset by done. by intros [=].
Qed.

(** X13.  [check_ffmpeg_protocols] runs "ffmpeg -protocols" once, never
    raises and leaves the handle.  It reports RTMPS as supported exactly
    when the output has "rtmps" somewhere in it, as not supported when it
    has not, and returns the error message when the command could not be
    run. *)
Theorem check_ffmpeg_protocols_spec (w : world S) :
  exists msg r s',
    check_ffmpeg_protocols w =
      (Some (Ok msg),
       World (ffmpeg_process w) s' (log w ++ [ERun ["ffmpeg"; "-protocols"] r])) /\
    match r with
    | Ok stdout =>
        (msg = "RTMPS is supported by this FFmpeg build." /\
         exists pre post, stdout = pre +:+ "rtmps" +:+ post) \/
        (msg = "RTMPS is not supported by this FFmpeg build." /\
         ~ exists pre post, stdout = pre +:+ "rtmps" +:+ post)
    | Err e =>
        msg = "An error occurred while checking FFmpeg protocols: " +:+ exn_str e
    end.
Proof.
  unfold check_ffmpeg_protocols, try_except, bind, ret. rewrite os_call_run.
  destruct (run_stdout ["ffmpeg"; "-protocols"] (os w)) as [[out|e] s'] eqn:Hrun; simpl.
  - destruct (Py.contains out "rtmps") eqn:Hc; eexists _, _, _; (split; [done|]); simpl.
    + left. split; [done|]. by apply contains_spec.
    + right. split; [done|]. rewrite <- contains_spec. by rewrite Hc.
  - by eexists _, _, _.
Qed.

End MoreRuns.

Lemma stop_ffmpeg_raises_witness :
  exists p t rest,
    ffmpeg_process Cases.unkillable = Some p /\
    exn_cls t = TimeoutExpired /\
    log (stop_ffmpeg Cases.unkillable).2 =
      log Cases.unkillable
        ++ [ESendSignal p SIGINT (Ok ()); EWait p (Some 10) (Err t)] ++ rest /\
    (rest = [EKill p (Err Cases.not_permitted)] \/
     rest = [EKill p (Ok ()); EWait p None (Err Cases.not_permitted)]) /\
    ffmpeg_process (stop_ffmpeg Cases.unkillable).2 = None.
Proof.
  apply (stop_ffmpeg_raises Cases.unkillable). vm_compute. reflexivity.
Defined.

Lemma start_ffmpeg_popen_fails_witness :
  (Ex.start 8 "rtmp://stream.example.com/live/key" (Ex.fresh Cases.no_ffmpeg)).1 =
    Some (Ok ("An error occurred: " +:+ exn_str Cases.missing_binary, "",
              Py.join " " Cases.default_command)) /\
  ffmpeg_process
    (Ex.start 8 "rtmp://stream.example.com/live/key" (Ex.fresh Cases.no_ffmpeg)).2 =
    ffmpeg_process (Ex.fresh Cases.no_ffmpeg) /\
  last (log
    (Ex.start 8 "rtmp://stream.example.com/live/key" (Ex.fresh Cases.no_ffmpeg)).2) =
    Some (EPopen Cases.default_command (Err Cases.missing_binary)).
Proof.
  apply (start_ffmpeg_popen_fails 8
           "https://kbsworld-ott.akamaized.net/hls/live/2002341/kbsworld/master.m3u8"
           "https://i.ibb.co/YcPZxsn/logo.png" "overlay=W-w-45:37" true "720p"
           "rtmp://stream.example.com/live/key" 30 "Copy Audio from File"
           (Ex.fresh Cases.no_ffmpeg)
           (Ex.start 8 "rtmp://stream.example.com/live/key" (Ex.fresh Cases.no_ffmpeg)).2
           (Ex.start 8 "rtmp://stream.example.com/live/key" (Ex.fresh Cases.no_ffmpeg)).1
           Cases.default_command Cases.missing_binary).
  - apply surjective_pairing.
  - vm_compute. apply (list_elem_of_lookup_2 _ 1%nat). reflexivity.
Defined.

(** ** The page *)

Section PageFacts.

Context {S : Type} `{OS S}.

Lemma check_ffmpeg_protocols_returns (w : world S) :
  exists r s',
    check_ffmpeg_protocols w =
      (Some (Ok (protocols_output r)),
       World (ffmpeg_process w) s' (log w ++ [ERun ["ffmpeg"; "-protocols"] r])).
Proof.
  unfold check_ffmpeg_protocols, try_except, bind, ret. rewrite os_call_run.
  destruct (run_stdout ["ffmpeg"; "-protocols"] (os w)) as [[out|e] s'] eqn:Hrun; simpl.
  - exists (Ok out), s'. simpl. by destruct (Py.contains out "rtmps").
  - by exists (Err e), s'.
Qed.

(** Every run of the script is one of [page_run]. *)
Lemma script_run fuel (ui : Page.form) (w : world S) :
  exists evs r h s',
    Page.script fuel ui w = (r, World h s' (log w ++ evs)) /\
    page_run fuel ui evs r h.
Proof.
  unfold Page.script, bind at 1, set_ffmpeg_process. cbv beta iota.
  set (w0 := World None (os w) (log w)). unfold bind at 1.
  assert (exists evs1 r1 h1 s1,
    (if Page.run_command ui
     then started <- start_ffmpeg fuel (Page.video_url ui) (Page.logo_url ui)
                       (Page.overlay_settings ui) (Page.enable_logo ui) (Page.resolution ui)
                       (Page.rtmp_url ui) (Page.fps ui) (Page.audio_option ui) ;;
          let '(output, logs, ffmpeg_command) := started in
          ret (Page.page_layout ++ [Page.TextArea "Command Output" output;
                                    Page.TextArea "FFmpeg Logs" logs;
                                    Page.TextArea "Generated FFmpeg Command" ffmpeg_command])
     else ret Page.page_layout) w0 =
      (match r1 with
       | Some (Ok a) => Some (Ok (Page.page_layout ++ a))
       | Some (Err e) => Some (Err e)
       | None => None
       end, World h1 s1 (log w ++ evs1)) /\
    run_part fuel ui evs1 r1 h1) as (evs1 & r1 & h1 & s1 & -> & Hrun).
  { destruct (Page.run_command ui) eqn:Hpressed.
    - destruct (start_ffmpeg_run fuel (Page.video_url ui) (Page.logo_url ui)
                  (Page.overlay_settings ui) (Page.enable_logo ui) (Page.resolution ui)
                  (Page.rtmp_url ui) (Page.fps ui) (Page.audio_option ui) w0)
        as (evs & r & h & s' & Hstart & Hr).
      unfold bind. rewrite Hstart. destruct r as [[[[output logs] command]|e]|].
      + exists evs, (Some (Ok [Page.TextArea "Command Output" output;
                                Page.TextArea "FFmpeg Logs" logs;
                                Page.TextArea "Generated FFmpeg Command" command])), h, s'.
        split; [done|]. by apply run_part_shown.
      + exists evs, (Some (Err e)), h, s'. split; [done|]. by apply run_part_raises.
      + exists evs, None, h, s'. split; [done|]. by apply run_part_reading.
    - exists [], (Some (Ok [])), None, (os w). rewrite !app_nil_r. split; [done|].
      by apply run_part_idle. }
  destruct r1 as [[a|e]|]; cbv beta iota.
  2: { exists evs1, (Some (Err e)), h1, s1. split; [done|]. by apply page_run_raises. }
  2: { exists evs1, None, h1, s1. split; [done|]. by apply page_reading. }
  set (w1 := World h1 s1 (log w ++ evs1)). unfold bind at 1.
  assert (exists evs2 r2 h2 s2,
    (if Page.stop_stream ui
     then output <- stop_ffmpeg ;;
          ret ((Page.page_layout ++ a) ++ [Page.TextArea "Command Output" output])
     else ret (Page.page_layout ++ a)) w1 =
      (match r2 with
       | Ok b => Some (Ok (Page.page_layout ++ a ++ b))
       | Err e => Some (Err e)
       end, World h2 s2 (log w ++ evs1 ++ evs2)) /\
    stop_part ui h1 evs2 r2 h2) as (evs2 & r2 & h2 & s2 & -> & Hstop).
  { destruct (Page.stop_stream ui) eqn:Hpressed.
    - destruct h1 as [p|].
      + destruct (stop_ffmpeg_set w1 p eq_refl) as (r & s2 & evs2 & Hs & Hr).
        unfold bind. rewrite Hs. simpl. rewrite <- !app_assoc. destruct r as [output|e].
        * exists evs2, (Ok [Page.TextArea "Command Output" output]), None, s2.
          split; [done|]. by eapply stop_part_shown.
        * exists evs2, (Err e), None, s2. split; [done|]. by eapply stop_part_raises.
      + unfold bind. rewrite stop_ffmpeg_unset by done.
        exists [], (Ok [Page.TextArea "Command Output" "No stream is running."]), None, s1.
        rewrite !app_nil_r, <- !app_assoc. split; [done|]. by apply stop_part_nothing.
    - exists [], (Ok []), h1, s1. rewrite !app_nil_r. split; [done|].
      by apply stop_part_idle. }
  destruct r2 as [b|e]; cbv beta iota.
  2: { exists (evs1 ++ evs2), (Some (Err e)), h2, s2. split; [done|].
       by eapply page_stop_raises. }
  destruct (Page.check_protocols ui) eqn:Hpressed.
  - destruct (check_ffmpeg_protocols_returns (World h2 s2 (log w ++ evs1 ++ evs2)))
      as (r & s3 & Hcheck).
    unfold bind. rewrite Hcheck. simpl. rewrite <- !app_assoc.
    eexists _, _, h2, s3. split; [done|].
    eapply (page_shown _ _ evs1 a h1 evs2 b h2 _ _); [done..|]. by apply check_part_shown.
  - exists (evs1 ++ evs2), (Some (Ok (Page.page_layout ++ a ++ b))), h2, s2.
    split; [done|].
    pose proof (page_shown fuel ui evs1 a h1 evs2 b h2 [] [] Hrun Hstop) as Hpage.
    rewrite !app_nil_r in Hpage. apply Hpage. by apply check_part_idle.
Qed.

Lemma stop_run_output p evs output :
  stop_run p evs (Ok output) -> output <> already_running_msg.
Proof. inversion 1; done. Qed.

Lemma stop_run_no_poll p evs r q rq : stop_run p evs r -> EPoll q rq ∉ evs.
Proof. intros []; set_solver. Qed.

(** X14.  A run of the page in which "Run Command" is not pressed starts,
    signals and kills nothing, whatever the handle held before: line 8 has
    reset it, so "Stop Stream" answers "No stream is running." and a process
    started by an earlier run is left running.  Such a run always ends, with
    no exception; the only command it can run is "ffmpeg -protocols". *)
Theorem page_without_run fuel (ui : Page.form) (w : world S) :
  Page.run_command ui = false ->
  exists shown s' evs,
    Page.script fuel ui w = (Some (Ok shown), World None s' (log w ++ evs)) /\
    Forall (fun e => event_kind e = KRun) evs /\
    (Page.stop_stream ui = true ->
     Page.TextArea "Command Output" "No stream is running." ∈ shown).
Proof.
  intros Hidle.
  destruct (script_run fuel ui w) as (evs & r & h & s' & Hscript & Hpage).
  assert (forall evs1 r1 h1, run_part fuel ui evs1 r1 h1 ->
            evs1 = [] /\ r1 = Some (Ok []) /\ h1 = None) as Hrun.
  { intros evs1 r1 h1 []; [done|congruence..]. }
  assert (forall evs2 r2 h2, stop_part ui None evs2 r2 h2 ->
            evs2 = [] /\ h2 = None /\
            (r2 = Ok [] /\ Page.stop_stream ui = false \/
             r2 = Ok [Page.TextArea "Command Output" "No stream is running."])) as Hstop.
  { intros evs2 r2 h2 []; try done; auto. }
  destruct Hpage as [evs1 h1 Hr|evs1 e h1 Hr|evs1 a h1 evs2 e h2 Hr Hs
                    |evs1 a h1 evs2 b h2 evs3 c Hr Hs Hc].
  - by destruct (Hrun _ _ _ Hr) as (_ & ? & _).
  - by destruct (Hrun _ _ _ Hr) as (_ & ? & _).
  - destruct (Hrun _ _ _ Hr) as (_ & _ & ->).
    by destruct (Hstop _ _ _ Hs) as (_ & _ & [[? _]|?]).
  - destruct (Hrun _ _ _ Hr) as (-> & [= ->] & ->).
    destruct (Hstop _ _ _ Hs) as (-> & -> & Hb).
    eexists _, s', evs3. split; [exact Hscript|]. split.
    + destruct Hc; by repeat constructor.
    + intros Hpressed. destruct Hb as [[_ ?]|[= ->]]; [congruence|].
      rewrite !elem_of_app. right. right. left. apply list_elem_of_here.
Qed.

(** X15.  In a run of the page "Run Command" is never refused: the message
    that a stream is already running is not shown, and the only processes
    polled are ones this very run has started.  The guard of [start_ffmpeg]
    sees the handle line 8 has reset, not the stream of an earlier run. *)
Theorem page_run_not_refused fuel (ui : Page.form) (w w' : world S) r :
  Page.script fuel ui w = (r, w') ->
  (forall shown, r = Some (Ok shown) ->
     Page.TextArea "Command Output" already_running_msg ∉ shown) /\
  exists evs,
    log w' = log w ++ evs /\
    forall p rp, EPoll p rp ∈ evs -> exists argv, EPopen argv (Ok p) ∈ evs.
Proof.
  intros Hcall.
  destruct (script_run fuel ui w) as (evs & r' & h & s' & Hscript & Hpage).
  rewrite Hcall in Hscript. injection Hscript as <- ->.
  assert (forall evs1 r1 h1, run_part fuel ui evs1 r1 h1 ->
    (forall a, r1 = Some (Ok a) ->
       Page.TextArea "Command Output" already_running_msg ∉ a) /\
    (forall p rp, EPoll p rp ∈ evs1 -> exists argv, EPopen argv (Ok p) ∈ evs1)) as Hrun.
  { intros evs1 r1 h1 [Hp|evs' h' Hp Hs|evs' e h' Hp Hs|evs' o l c h' Hp Hs];
      try (destruct (start_run_unset _ _ _ _ _ _ _ _ _ _ _ _ Hs) as [Hmsg Hpoll]);
      (split; [|by (done || set_solver)]); intros a [=]; subst.
    - set_solver.
    - rewrite !elem_of_cons, elem_of_nil. intros [[= Hm]|[|[|]]]; try done.
      apply (Hmsg l c). by rewrite <- Hm. }
  assert (forall h1 evs2 r2 h2, stop_part ui h1 evs2 r2 h2 ->
    (forall b, r2 = Ok b -> Page.TextArea "Command Output" already_running_msg ∉ b) /\
    (forall p rp, EPoll p rp ∉ evs2)) as Hstop.
  { intros h1 evs2 r2 h2 [Hp|Hp ->|p evs' o Hp -> Hs|p evs' e Hp -> Hs].
    - split; [intros b [= <-]|]; set_solver.
    - split; [intros b [= <-]|intros; set_solver].
      rewrite list_elem_of_singleton. by intros [=].
    - split; [intros b [= <-]|intros; by eapply stop_run_no_poll].
      rewrite list_elem_of_singleton. intros [= Hm].
      by eapply stop_run_output.
    - split; [done|intros; by eapply stop_run_no_poll]. }
  assert (forall evs3 c, check_part ui evs3 c ->
    Page.TextArea "Command Output" already_running_msg ∉ c /\
    (forall p rp, EPoll p rp ∉ evs3)) as Hcheck.
  { intros evs3 c []; split; set_solver. }
  destruct Hpage as [evs1 h1 Hr|evs1 e h1 Hr|evs1 a h1 evs2 e h2 Hr Hs
                    |evs1 a h1 evs2 b h2 evs3 c Hr Hs Hc].
  - split; [done|]. exists evs1. split; [done|]. by eapply Hrun.
  - split; [done|]. exists evs1. split; [done|]. by eapply Hrun.
  - split; [done|]. exists (evs1 ++ evs2). split; [done|].
    destruct (Hrun _ _ _ Hr) as [_ Hpoll]. destruct (Hstop _ _ _ _ Hs) as [_ Hno].
    intros p rp [Hin|Hin]%elem_of_app; [|by destruct (Hno _ _ Hin)].
    destruct (Hpoll _ _ Hin) as [argv ?]. exists argv. apply elem_of_app. by left.
  - destruct (Hrun _ _ _ Hr) as [Ha Hpoll]. destruct (Hstop _ _ _ _ Hs) as [Hb Hno].
    destruct (Hcheck _ _ Hc) as [Hc' Hno']. split.
    + intros shown [= <-]. rewrite !elem_of_cons, !elem_of_app.
      intros [?|[?|[?|[?|[?|[Hin|[Hin|Hin]]]]]]]; try done.
      * by eapply Ha.
      * by eapply Hb.
    + exists (evs1 ++ evs2 ++ evs3). split; [done|].
      intros p rp [Hin|[Hin|Hin]%elem_of_app]%elem_of_app;
        [|by destruct (Hno _ _ Hin)|by destruct (Hno' _ _ Hin)].
      destruct (Hpoll _ _ Hin) as [argv ?]. exists argv. apply elem_of_app. by left.
Qed.

Lemma form_options_build (ui : Page.form) u :
  Page.form_options ui ->
  exists command,
    build_ffmpeg_command (Page.video_url ui) (Page.logo_url ui) (Page.overlay_settings ui)
      (Page.enable_logo ui) (Page.resolution ui) u (Page.fps ui) (Page.audio_option ui)
      = Ok (command, Py.join " " command).
Proof.
  intros (_ & _ & Haudio). unfold build_ffmpeg_command.
  repeat (apply elem_of_cons in Haudio as [->|Haudio]; [by eexists|]).
  by apply elem_of_nil in Haudio.
Qed.

(** X16.  With the values the select boxes offer, no exception of the
    program's own leaves a run of the page: the unpacking of the audio
    option cannot fail.  An exception that ends the script was raised by the
    call the log ends with: the resolver (with something other than
    [gaierror]), [kill], or the wait after [kill]. *)
Theorem page_exceptions fuel (ui : Page.form) (w w' : world S) e :
  Page.form_options ui ->
  Page.script fuel ui w = (Some (Err e), w') ->
  exists evs ev,
    log w' = log w ++ evs /\
    last evs = Some ev /\
    ((exists host, ev = EGethostbyname host (Err e) /\ exn_cls e <> GaiError) \/
     (exists p, ev = EKill p (Err e)) \/
     (exists p, ev = EWait p None (Err e))).
Proof.
  intros Hform Hcall.
  destruct (script_run fuel ui w) as (evs & r' & h & s' & Hscript & Hpage).
  rewrite Hcall in Hscript. injection Hscript as <- ->. simpl.
  inversion Hpage as [|evs1 e1 h1 Hr|evs1 a h1 evs2 e2 h2 Hr Hs|]; subst.
  - inversion Hr as [| |evs' e' h' Hp Hstart|]; subst.
    inversion Hstart as [evs' e' Hres|evs' msg Hres|evs' u e' Hres Hb
                        |evs' u c cs evs'' r h0 Hres Hb Hl]; subst.
    + inversion Hres; subst. eexists _, _. split; [done|]. split; [done|]. left. eauto.
    + destruct (form_options_build ui u Hform) as [command Hc]. congruence.
    + inversion Hl.
  - inversion Hs as [| | |p evs' e' Hp Hh Hstop]; subst.
    inversion Hstop; subst; eexists _, _; (split; [done|]); rewrite last_app; simpl;
      (split; [done|]); eauto.
Qed.

End PageFacts.

Lemma page_without_run_witness :
  exists shown s' evs,
    Page.script 8 (clicks "rtmp://stream.example.com/live/key" false true false)
      (Ex.streaming Ex.posix) =
      (Some (Ok shown), World None s' (log (Ex.streaming Ex.posix) ++ evs)) /\
    Forall (fun e => event_kind e = KRun) evs /\
    (Page.stop_stream (clicks "rtmp://stream.example.com/live/key" false true false) = true ->
     Page.TextArea "Command Output" "No stream is running." ∈ shown).
Proof.
  apply (page_without_run 8 (clicks "rtmp://stream.example.com/live/key" false true false)
           (Ex.streaming Ex.posix)).
  reflexivity.
Defined.

Lemma page_exceptions_witness :
  exists evs ev,
    log (Page.script 8 (clicks "rtmp://stream..example.com/live" true false false)
           (World None (Flaky.Make Ex.posix false) [])).2 = [] ++ evs /\
    last evs = Some ev /\
    ((exists host,
        ev = EGethostbyname host
               (Err (Exn OtherException
                  "encoding with 'idna' codec failed (UnicodeError: label empty or too long)")) /\
        exn_cls (Exn OtherException
                  "encoding with 'idna' codec failed (UnicodeError: label empty or too long)")
          <> GaiError) \/
     (exists p,
        ev = EKill p
               (Err (Exn OtherException
                  "encoding with 'idna' codec failed (UnicodeError: label empty or too long)"))) \/
     (exists p,
        ev = EWait p None
               (Err (Exn OtherException
                  "encoding with 'idna' codec failed (UnicodeError: label empty or too long)")))).
Proof.
  apply (page_exceptions 8 (clicks "rtmp://stream..example.com/live" true false false)
           (World None (Flaky.Make Ex.posix false) [])).
  - unfold Page.form_options, clicks. simpl.
    split_and!; [apply (list_elem_of_lookup_2 _ 2%nat)|apply (list_elem_of_lookup_2 _ 1%nat)
                |apply (list_elem_of_lookup_2 _ 0%nat)]; reflexivity.
  - vm_compute. reflexivity.
Defined.

Lemma page_run_not_refused_witness :
  (forall shown,
     (Page.script 8 (clicks "rtmp://stream.example.com/live/key" true false false)
        (Ex.streaming Ex.posix)).1 = Some (Ok shown) ->
     Page.TextArea "Command Output" already_running_msg ∉ shown) /\
  exists evs,
    log (Page.script 8 (clicks "rtmp://stream.example.com/live/key" true false false)
           (Ex.streaming Ex.posix)).2 = log (Ex.streaming Ex.posix) ++ evs /\
    forall p rp, EPoll p rp ∈ evs -> exists argv, EPopen argv (Ok p) ∈ evs.
Proof.
  apply (page_run_not_refused 8 (clicks "rtmp://stream.example.com/live/key" true false false)
           (Ex.streaming Ex.posix)).
  apply surjective_pairing.
Defined.

(** The second run of the page starts a second stream beside the first. *)
Example page_second_stream :
  let w1 := (Page.script 8 (clicks "rtmp://stream.example.com/live/key" true false false)
               (Ex.fresh Ex.posix)).2 in
  let w2 := (Page.script 8 (clicks "rtmp://stream.example.com/live/key" true false false)
               w1).2 in
  size (possibly_running (log w2)) = 2%nat /\ ffmpeg_process w2 = Some 1%nat.
Proof. vm_compute. split; reflexivity. Qed.
